(** * Parametric yantra generators and their accuracy validation

    A shallow embedding of the equatorial-dial (Samrat) and alt-azimuth
    (Rama) generators of [backend/services] and of the two validators,
    [ValidationService.compare_shadow] of [services/validation.py] and
    [validate_yantra_accuracy] of [app/api/generate.py].

    Number model.  Python [float] values are modelled by the real numbers:
    every operation is the exact one that binary64 rounds, so rounding and
    overflow are left out.  [math.sin], [math.cos], [math.tan] and
    [math.atan] are the real functions and [/] is real division, total: the
    divisors of the source are constants or values of [math.cos] and
    [math.tan], which on binary64 are not zero at the arguments where the
    real functions vanish (90 degrees is not a multiple of the binary64 pi),
    so [ZeroDivisionError] is not a behaviour of the sources modelled here.
    Where the source introduces [float('inf')] the affected values live in
    [pyfloat], the reals extended with both infinities and NaN.  The two
    [generate] methods are also given on machine binary64 floats, in module
    [Binary64], to run the end-to-end scenarios exactly.

    A method of a generator object becomes a function of the object; a
    method that assigns to [self] returns the updated object next to its
    result.  A call either returns a value or raises. *)

From Stdlib Require Import Reals Lra Lia ZArith String List Bool.
From Stdlib Require PrimFloat.
Import ListNotations.
Open Scope string_scope.
Open Scope R_scope.

(** ** Python primitives used by the services *)

Module Py.

(** [math.radians] and [math.degrees]. *)
Definition radians (x : R) : R := x * (PI / 180).
Definition degrees (x : R) : R := x * (180 / PI).

(** Comparisons as Python booleans. *)
Definition ltb (x y : R) : bool := if Rlt_dec x y then true else false.
Definition leb (x y : R) : bool := if Rle_dec x y then true else false.

(** [x % m] on floats: the remainder has the sign of the modulus,
    [x - m * floor (x / m)]. *)
Definition fmod (x m : R) : R := x - m * IZR (Int_part (x / m)).

(** [round(x)] to an [int]: nearest integer, ties to the even one. *)
Definition round (x : R) : Z :=
  let n := Int_part x in
  let f := x - IZR n in
  if Rlt_dec f (1 / 2) then n
  else if Rlt_dec (1 / 2) f then (n + 1)%Z
  else if Z.even n then n else (n + 1)%Z.

(** [math.atan2 y x] on finite arguments. *)
Definition atan2 (y x : R) : R :=
  if Rlt_dec 0 x then atan (y / x)
  else if Rlt_dec x 0 then
    (if Rle_dec 0 y then atan (y / x) + PI else atan (y / x) - PI)
  else if Rlt_dec 0 y then PI / 2
  else if Rlt_dec y 0 then - (PI / 2)
  else 0.

(** [range(lo, hi)] with step one. *)
Definition range (lo hi : Z) : list Z :=
  map (fun i => (lo + Z.of_nat i)%Z) (seq 0 (Z.to_nat (hi - lo))).

(** Floats that may be infinite or NaN. *)
Inductive pyfloat : Type :=
| Fin (x : R)
| PosInf
| NegInf
| NaN.

Definition fneg (a : pyfloat) : pyfloat :=
  match a with
  | Fin x => Fin (- x)
  | PosInf => NegInf
  | NegInf => PosInf
  | NaN => NaN
  end.

Definition fadd (a b : pyfloat) : pyfloat :=
  match a, b with
  | Fin x, Fin y => Fin (x + y)
  | NaN, _ | _, NaN => NaN
  | PosInf, NegInf | NegInf, PosInf => NaN
  | PosInf, _ | _, PosInf => PosInf
  | NegInf, _ | _, NegInf => NegInf
  end.

Definition fsub (a b : pyfloat) : pyfloat := fadd a (fneg b).

Definition fmul (a b : pyfloat) : pyfloat :=
  match a, b with
  | Fin x, Fin y => Fin (x * y)
  | NaN, _ | _, NaN => NaN
  | Fin x, PosInf | PosInf, Fin x =>
      if Rlt_dec 0 x then PosInf else if Rlt_dec x 0 then NegInf else NaN
  | Fin x, NegInf | NegInf, Fin x =>
      if Rlt_dec 0 x then NegInf else if Rlt_dec x 0 then PosInf else NaN
  | PosInf, PosInf | NegInf, NegInf => PosInf
  | PosInf, NegInf | NegInf, PosInf => NegInf
  end.

Definition fabs (a : pyfloat) : pyfloat :=
  match a with
  | Fin x => Fin (Rabs x)
  | PosInf | NegInf => PosInf
  | NaN => NaN
  end.

(** [a % m] for a finite positive modulus [m]. *)
Definition fmodf (a : pyfloat) (m : R) : pyfloat :=
  match a with
  | Fin x => Fin (fmod x m)
  | _ => NaN
  end.

(** [a ** 0.5]; the finite bases of the validators are sums of squares. *)
Definition fsqrt (a : pyfloat) : pyfloat :=
  match a with
  | Fin x => Fin (sqrt x)
  | PosInf | NegInf => PosInf
  | NaN => NaN
  end.

Definition fltb (a b : pyfloat) : bool :=
  match a, b with
  | Fin x, Fin y => ltb x y
  | NaN, _ | _, NaN => false
  | _, NegInf => false
  | NegInf, _ => true
  | PosInf, _ => false
  | _, PosInf => true
  end.

Definition fleb (a b : pyfloat) : bool :=
  match a, b with
  | Fin x, Fin y => leb x y
  | NaN, _ | _, NaN => false
  | NegInf, _ => true
  | _, PosInf => true
  | _, _ => false
  end.

(** Two-argument [min] and [max]: the first argument is kept unless the
    second is strictly smaller (larger). *)
Definition fmin (a b : pyfloat) : pyfloat := if fltb b a then b else a.
Definition fmax (a b : pyfloat) : pyfloat := if fltb a b then b else a.

(** Exceptions and the outcome of a call. *)
Inductive exn : Type :=
| ValueError (msg : string)
| TypeError.

Inductive outcome (A : Type) : Type :=
| Ok (a : A)
| Raise (e : exn).
Arguments Ok {A} a.
Arguments Raise {A} e.

Definition bind {A B} (c : outcome A) (k : A -> outcome B) : outcome B :=
  match c with
  | Ok a => k a
  | Raise e => Raise e
  end.

(** Pieces of an f-string: literal text and [:.3f] / [:.1f] fields. *)
Inductive fpiece : Type :=
| Lit (s : string)
| F3 (x : R)
| F1 (x : R).

(** Dynamically typed values stored in result dictionaries. *)
#[warnings="-register-all"]
Inductive pyval : Type :=
| VFloat (x : pyfloat)
| VInt (n : Z)
| VBool (b : bool)
| VStr (s : string)
| VFormat (ps : list fpiece)
| VTuple (vs : list pyval)
| VList (vs : list pyval)
| VDict (d : list (string * pyval)).

(** A [dict] with string keys, in insertion order. *)
Definition dict : Type := list (string * pyval).

Fixpoint lookup (d : dict) (k : string) : option pyval :=
  match d with
  | [] => None
  | (k', v) :: d' => if String.eqb k' k then Some v else lookup d' k
  end.

(** [d.get(k, default)]. *)
Definition get (d : dict) (k : string) (default : pyval) : pyval :=
  match lookup d k with
  | Some v => v
  | None => default
  end.

(** The float a value denotes in arithmetic ([bool] and [int] promote). *)
Definition as_float (v : pyval) : outcome pyfloat :=
  match v with
  | VFloat x => Ok x
  | VInt n => Ok (Fin (IZR n))
  | VBool b => Ok (Fin (if b then 1 else 0))
  | _ => Raise TypeError
  end.

End Py.

Export Py.
Coercion Fin : R >-> pyfloat.

Notation "x <- c ;; k" := (bind c (fun x => k))
(at level 61, c at next level, right associativity).

(** ** Equatorial dial: [services/samrat_yantra.py] *)

Module Samrat.

Record SamratGeometry : Type := {
  gnomon_height : R;
  gnomon_base_width : R;
  gnomon_thickness : R;
  quadrant_radius : R;
  hour_line_angles : list R;
  scale_divisions : Z;
  base_length : R;
  base_width : R;
  base_height : R
}.

Record SamratYantraGenerator : Type := {
  latitude : R;
  longitude : R;
  scale : R;
  geometry : option SamratGeometry
}.

(** [__init__]: angles are stored in radians, no geometry yet. *)
Definition init (lat lon scl : R) : SamratYantraGenerator :=
  {| latitude := radians lat;
     longitude := radians lon;
     scale := scl;
     geometry := None |}.

(** Defaults of [generate]. *)
Definition default_material_thickness : R := 0.01.
Definition default_kerf : R := 0.0.

(** [generate]: returns the geometry and the generator that now holds it. *)
Definition generate (self : SamratYantraGenerator)
    (material_thickness kerf : R) (include_base : bool)
  : outcome (SamratGeometry * SamratYantraGenerator) :=
  let gnomon_height := scale self in
  let gnomon_base_width := gnomon_height * 0.15 in
  let gnomon_thickness := material_thickness in
  let quadrant_radius := gnomon_height * 0.7 in
  let hour_angles := map (fun hour => IZR hour * 15.0) (range (-6) 7) in
  let scale_divisions := 60%Z in
  let base_length := if include_base then quadrant_radius * 2.5 else 0.0 in
  let base_width := if include_base then quadrant_radius * 2.5 else 0.0 in
  let base_height := if include_base then gnomon_height * 0.05 else 0.0 in
  let gnomon_base_width :=
    if ltb 0 kerf then gnomon_base_width + kerf else gnomon_base_width in
  let quadrant_radius :=
    if ltb 0 kerf then quadrant_radius + kerf else quadrant_radius in
  let g :=
    {| gnomon_height := gnomon_height;
       gnomon_base_width := gnomon_base_width;
       gnomon_thickness := gnomon_thickness;
       quadrant_radius := quadrant_radius;
       hour_line_angles := hour_angles;
       scale_divisions := scale_divisions;
       base_length := base_length;
       base_width := base_width;
       base_height := base_height |} in
  Ok (g, {| latitude := latitude self;
            longitude := longitude self;
            scale := scale self;
            geometry := Some g |}).

(** The guard shared by every method that reads the stored geometry:
    [if not self.geometry: raise ValueError("Must call generate() first")]. *)
Definition require_geometry (self : SamratYantraGenerator)
  : outcome SamratGeometry :=
  match geometry self with
  | Some g => Ok g
  | None => Raise (ValueError "Must call generate() first")
  end.

(** [get_hour_line_coordinates]: one entry per hour angle and quadrant. *)
Definition get_hour_line_coordinates (self : SamratYantraGenerator)
  : outcome (list dict) :=
  g <- require_geometry self ;;
  Ok (flat_map (fun angle_deg =>
    let angle_rad := radians angle_deg in
    let start_radius := gnomon_base_width g / 2 in
    let end_radius := quadrant_radius g in
    map (fun quadrant =>
      let multiplier := if String.eqb quadrant "east" then 1 else -1 in
      let start_x := multiplier * start_radius * cos angle_rad in
      let start_y := start_radius * sin angle_rad in
      let end_x := multiplier * end_radius * cos angle_rad in
      let end_y := end_radius * sin angle_rad in
      let surface_angle := PI / 2 - latitude self in
      let start_z := start_y * tan surface_angle in
      let end_z := end_y * tan surface_angle in
      [ ("quadrant", VStr quadrant);
        ("hour_angle", VFloat angle_deg);
        ("hour_label", VFloat (angle_deg / 15.0));
        ("start", VTuple [VFloat start_x; VFloat start_y; VFloat start_z]);
        ("end", VTuple [VFloat end_x; VFloat end_y; VFloat end_z]) ])
      ["east"; "west"])
    (hour_line_angles g)).

(** [get_gnomon_vertices]: the eight rows of the vertex array. *)
Definition get_gnomon_vertices (self : SamratYantraGenerator)
  : outcome (list (list R)) :=
  g <- require_geometry self ;;
  let h := gnomon_height g in
  let w := gnomon_base_width g in
  let t := gnomon_thickness g in
  let apex_x := 0 in
  let apex_y := h * cos (latitude self) in
  let apex_z := h * sin (latitude self) in
  let base_vertices :=
    [ [- w / 2; - t / 2; 0];
      [w / 2; - t / 2; 0];
      [- w / 2; t / 2; 0];
      [w / 2; t / 2; 0] ] in
  let apex_vertices :=
    [ [apex_x - t / 4; apex_y - t / 2; apex_z];
      [apex_x + t / 4; apex_y - t / 2; apex_z];
      [apex_x - t / 4; apex_y + t / 2; apex_z];
      [apex_x + t / 4; apex_y + t / 2; apex_z] ] in
  Ok (base_vertices ++ apex_vertices)%list.

(** The hour angle computed by [get_shadow_prediction], in degrees. *)
Definition hour_angle_deg (self : SamratYantraGenerator)
    (sun_altitude sun_azimuth : R) : R :=
  let alt_rad := radians sun_altitude in
  let az_rad := radians sun_azimuth in
  let sin_ha := sin az_rad / cos alt_rad in
  let cos_ha :=
    (sin alt_rad - sin (latitude self))
    / (cos (latitude self) * cos alt_rad) in
  let hour_angle_rad := atan2 sin_ha cos_ha in
  degrees hour_angle_rad.

(** [get_shadow_prediction]. *)
Definition get_shadow_prediction (self : SamratYantraGenerator)
    (sun_altitude sun_azimuth : R) : outcome dict :=
  g <- require_geometry self ;;
  let alt_rad := radians sun_altitude in
  let shadow_azimuth := fmod (sun_azimuth + 180) 360 in
  let hour_angle_deg := hour_angle_deg self sun_altitude sun_azimuth in
  let local_solar_time := 12.0 + hour_angle_deg / 15.0 in
  let quadrant := if ltb hour_angle_deg 0 then "east" else "west" in
  let shadow_length :=
    if ltb 0 sun_altitude
    then Fin (gnomon_height g / tan alt_rad)
    else PosInf in
  Ok [ ("sun_altitude", VFloat sun_altitude);
       ("sun_azimuth", VFloat sun_azimuth);
       ("shadow_azimuth", VFloat shadow_azimuth);
       ("hour_angle", VFloat hour_angle_deg);
       ("local_solar_time", VFloat local_solar_time);
       ("quadrant", VStr quadrant);
       ("shadow_length", VFloat (fmin shadow_length (quadrant_radius g)));
       ("readable", VBool (ltb 0 sun_altitude && ltb sun_altitude 85)) ].

(** [get_dimensions_dict]. *)
Definition get_dimensions_dict (self : SamratYantraGenerator) : outcome dict :=
  g <- require_geometry self ;;
  Ok [ ("yantra_type", VStr "samrat");
       ("latitude", VFloat (degrees (latitude self)));
       ("scale", VFloat (scale self));
       ("gnomon", VDict
          [ ("height", VFloat (gnomon_height g));
            ("base_width", VFloat (gnomon_base_width g));
            ("thickness", VFloat (gnomon_thickness g));
            ("inclination_angle", VFloat (degrees (latitude self))) ]);
       ("quadrants", VDict
          [ ("radius", VFloat (quadrant_radius g));
            ("hour_lines", VInt (Z.of_nat (length (hour_line_angles g))));
            ("scale_divisions", VInt (scale_divisions g)) ]);
       ("base", VDict
          [ ("length", VFloat (base_length g));
            ("width", VFloat (base_width g));
            ("height", VFloat (base_height g)) ]);
       ("overall", VDict
          [ ("length", VFloat (base_length g));
            ("width", VFloat (base_width g));
            ("height", VFloat (gnomon_height g + base_height g)) ]) ].

(** [get_bill_of_materials]. *)
Definition get_bill_of_materials (self : SamratYantraGenerator)
  : outcome (list dict) :=
  g <- require_geometry self ;;
  let gnomon_volume :=
    (gnomon_height g * gnomon_base_width g * gnomon_thickness g) * 0.5 in
  let quadrant_area := PI * quadrant_radius g ^ 2 in
  let base_volume := base_length g * base_width g * base_height g in
  Ok [ [ ("item", VStr "Gnomon plate (triangular)");
         ("material", VStr "Steel/Stone/Concrete");
         ("quantity", VInt 1);
         ("dimensions", VFormat
            [F3 (gnomon_height g); Lit "m × "; F3 (gnomon_base_width g);
             Lit "m × "; F3 (gnomon_thickness g); Lit "m"]);
         ("volume_m3", VFloat gnomon_volume);
         ("notes", VFormat
            [Lit "Inclined at "; F1 (degrees (latitude self));
             Lit "° to horizontal"]) ];
       [ ("item", VStr "Quadrant scales (East & West)");
         ("material", VStr "Marble/Metal with graduations");
         ("quantity", VInt 2);
         ("dimensions", VFormat
            [Lit "Radius "; F3 (quadrant_radius g); Lit "m"]);
         ("area_m2", VFloat quadrant_area);
         ("notes", VStr "Hour lines engraved at 15° intervals") ];
       [ ("item", VStr "Base platform");
         ("material", VStr "Concrete/Stone");
         ("quantity", VInt 1);
         ("dimensions", VFormat
            [F3 (base_length g); Lit "m × "; F3 (base_width g);
             Lit "m × "; F3 (base_height g); Lit "m"]);
         ("volume_m3", VFloat base_volume);
         ("notes", VStr "Must be precisely leveled") ];
       [ ("item", VStr "Anchor bolts");
         ("material", VStr "Stainless steel");
         ("quantity", VInt 4);
         ("dimensions", VStr "M12 × 150mm");
         ("notes", VStr "For mounting to foundation") ] ].

End Samrat.

(** ** Alt-azimuth instrument: [services/rama_yantra.py] *)

Module Rama.

Record RamaGeometry : Type := {
  pillar_radius : R;
  pillar_height : R;
  pillar_separation : R;
  wall_thickness : R;
  azimuth_divisions : Z;
  altitude_scale_height : R;
  central_platform_radius : R;
  gnomon_height : R;
  base_diameter : R;
  base_height : R
}.

Record RamaYantraGenerator : Type := {
  latitude : R;
  longitude : R;
  scale : R;
  geometry : option RamaGeometry
}.

Definition init (lat lon scl : R) : RamaYantraGenerator :=
  {| latitude := radians lat;
     longitude := radians lon;
     scale := scl;
     geometry := None |}.

(** Defaults of [generate]. *)
Definition default_material_thickness : R := 0.15.
Definition default_kerf : R := 0.0.

(** [generate]: returns the geometry and the generator that now holds it. *)
Definition generate (self : RamaYantraGenerator)
    (material_thickness kerf : R) (include_base : bool)
  : outcome (RamaGeometry * RamaYantraGenerator) :=
  let pillar_radius := scale self in
  let pillar_height := pillar_radius * 2.0 in
  let pillar_separation := pillar_radius * 0.5 in
  let wall_thickness := Rmax material_thickness (pillar_radius * 0.1) in
  let azimuth_divisions := 360%Z in
  let altitude_scale_height := pillar_height in
  let central_platform_radius := pillar_separation * 0.4 in
  let gnomon_height := pillar_height * 0.3 in
  let base_diameter :=
    if include_base
    then (pillar_radius * 2 + pillar_separation) * 1.3 else 0.0 in
  let base_height := if include_base then pillar_height * 0.03 else 0.0 in
  let pillar_radius :=
    if ltb 0 kerf then pillar_radius + kerf else pillar_radius in
  let wall_thickness :=
    if ltb 0 kerf then wall_thickness + kerf else wall_thickness in
  let g :=
    {| pillar_radius := pillar_radius;
       pillar_height := pillar_height;
       pillar_separation := pillar_separation;
       wall_thickness := wall_thickness;
       azimuth_divisions := azimuth_divisions;
       altitude_scale_height := altitude_scale_height;
       central_platform_radius := central_platform_radius;
       gnomon_height := gnomon_height;
       base_diameter := base_diameter;
       base_height := base_height |} in
  Ok (g, {| latitude := latitude self;
            longitude := longitude self;
            scale := scale self;
            geometry := Some g |}).

Definition require_geometry (self : RamaYantraGenerator)
  : outcome RamaGeometry :=
  match geometry self with
  | Some g => Ok g
  | None => Raise (ValueError "Must call generate() first")
  end.

(** [get_pillar_vertices]: outer ring then inner ring, each point at the
    floor and at the top of the pillar. *)
Definition get_pillar_vertices (self : RamaYantraGenerator) (sector : string)
  : outcome (list (list R)) :=
  g <- require_geometry self ;;
  let num_segments := 60%Z in
  let angle_start := if String.eqb sector "A" then - PI / 2 else 0 in
  let angle_end := if String.eqb sector "A" then PI / 2 else PI in
  let x_offset :=
    if String.eqb sector "A"
    then - pillar_separation g / 2 else pillar_separation g / 2 in
  let ring (radius : R) : list (list R) :=
    flat_map (fun i =>
      let t := IZR i / IZR num_segments in
      let angle := angle_start + t * (angle_end - angle_start) in
      let x := x_offset + radius * cos angle in
      let y := radius * sin angle in
      [ [x; y; 0]; [x; y; pillar_height g] ])
      (range 0 (num_segments + 1)) in
  let inner_radius := pillar_radius g - wall_thickness g in
  Ok (ring (pillar_radius g) ++ ring inner_radius)%list.

(** [_azimuth_to_cardinal]. *)
Definition directions : list string :=
  ["N"; "NNE"; "NE"; "ENE"; "E"; "ESE"; "SE"; "SSE";
   "S"; "SSW"; "SW"; "WSW"; "W"; "WNW"; "NW"; "NNW"].

Definition azimuth_to_cardinal (azimuth : R) : string :=
  let index := (round (azimuth / 22.5) mod 16)%Z in
  nth (Z.to_nat index) directions "".

(** The sector rule shared by markings and shadow readings. *)
Definition in_sector_A (azimuth : R) : bool :=
  (leb 45 azimuth && leb azimuth 135) || (leb 225 azimuth && leb azimuth 315).

(** [get_azimuth_markings]: one radial line per whole degree. *)
Definition get_azimuth_markings (self : RamaYantraGenerator)
  : outcome (list dict) :=
  g <- require_geometry self ;;
  Ok (map (fun azimuth =>
    let angle_rad := radians (IZR azimuth) in
    let start_radius := central_platform_radius g in
    let end_radius := pillar_radius g - wall_thickness g in
    let start_x := start_radius * sin angle_rad in
    let start_y := start_radius * cos angle_rad in
    let end_x := end_radius * sin angle_rad in
    let end_y := end_radius * cos angle_rad in
    [ ("azimuth", VInt azimuth);
      ("cardinal", VStr (azimuth_to_cardinal (IZR azimuth)));
      ("start", VTuple [VFloat start_x; VFloat start_y; VInt 0]);
      ("end", VTuple [VFloat end_x; VFloat end_y; VInt 0]);
      ("sector", VStr (if in_sector_A (IZR azimuth) then "A" else "B"));
      ("major", VBool (azimuth mod 10 =? 0)%Z) ])
    (range 0 360)).

(** [get_altitude_scale]: one mark per degree from 0 to 90. *)
Definition get_altitude_scale (self : RamaYantraGenerator) (sector : string)
  : outcome (list dict) :=
  g <- require_geometry self ;;
  Ok (map (fun altitude =>
    let height_ratio := IZR altitude / 90.0 in
    let wall_height := height_ratio * altitude_scale_height g in
    let theoretical_height :=
      if (altitude <? 89)%Z
      then gnomon_height g * tan (radians (IZR altitude))
      else altitude_scale_height g in
    [ ("altitude", VInt altitude);
      ("wall_height", VFloat (Rmin wall_height (pillar_height g)));
      ("theoretical_height",
         VFloat (Rmin theoretical_height (pillar_height g)));
      ("sector", VStr sector);
      ("major", VBool (altitude mod 5 =? 0)%Z) ])
    (range 0 91)).

(** [get_shadow_prediction]. *)
Definition get_shadow_prediction (self : RamaYantraGenerator)
    (sun_altitude sun_azimuth : R) : outcome dict :=
  g <- require_geometry self ;;
  let shadow_azimuth := fmod (sun_azimuth + 180) 360 in
  let shadow_length_floor :=
    if ltb 0 sun_altitude
    then Fin (gnomon_height g / tan (radians sun_altitude))
    else PosInf in
  let shadow_tip_x :=
    fmul shadow_length_floor (sin (radians shadow_azimuth)) in
  let shadow_tip_y :=
    fmul shadow_length_floor (cos (radians shadow_azimuth)) in
  let wall_shadow_height := gnomon_height g * tan (radians sun_altitude) in
  let sector := if in_sector_A shadow_azimuth then "A" else "B" in
  let max_floor_radius := pillar_radius g - wall_thickness g in
  let reaches_wall := fleb shadow_length_floor max_floor_radius in
  Ok [ ("sun_altitude", VFloat sun_altitude);
       ("sun_azimuth", VFloat sun_azimuth);
       ("shadow_azimuth", VFloat shadow_azimuth);
       ("shadow_length", VFloat (fmin shadow_length_floor max_floor_radius));
       ("shadow_tip", VTuple [VFloat shadow_tip_x; VFloat shadow_tip_y; VInt 0]);
       ("wall_height", VFloat (Rmin wall_shadow_height (pillar_height g)));
       ("sector", VStr sector);
       ("readable",
          VBool (ltb 0 sun_altitude && ltb sun_altitude 85 && reaches_wall));
       ("azimuth_reading", VFloat shadow_azimuth);
       ("altitude_reading", VFloat sun_altitude) ].

(** [get_dimensions_dict]. *)
Definition get_dimensions_dict (self : RamaYantraGenerator) : outcome dict :=
  g <- require_geometry self ;;
  Ok [ ("yantra_type", VStr "rama");
       ("latitude", VFloat (degrees (latitude self)));
       ("scale", VFloat (scale self));
       ("pillars", VDict
          [ ("radius", VFloat (pillar_radius g));
            ("height", VFloat (pillar_height g));
            ("separation", VFloat (pillar_separation g));
            ("wall_thickness", VFloat (wall_thickness g));
            ("sectors", VList [VStr "A (N-S open)"; VStr "B (E-W open)"]) ]);
       ("scales", VDict
          [ ("azimuth_divisions", VInt (azimuth_divisions g));
            ("azimuth_range", VStr "0° to 360°");
            ("altitude_range", VStr "0° to 90°");
            ("altitude_scale_height", VFloat (altitude_scale_height g)) ]);
       ("central_gnomon", VDict
          [ ("platform_radius", VFloat (central_platform_radius g));
            ("gnomon_height", VFloat (gnomon_height g)) ]);
       ("base", VDict
          [ ("diameter", VFloat (base_diameter g));
            ("height", VFloat (base_height g)) ]);
       ("overall", VDict
          [ ("diameter", VFloat (base_diameter g));
            ("height", VFloat (pillar_height g + base_height g)) ]) ].

(** [get_bill_of_materials]. *)
Definition get_bill_of_materials (self : RamaYantraGenerator)
  : outcome (list dict) :=
  g <- require_geometry self ;;
  let outer_volume := PI * pillar_radius g ^ 2 * pillar_height g / 2 in
  let inner_volume :=
    PI * (pillar_radius g - wall_thickness g) ^ 2 * pillar_height g / 2 in
  let wall_volume_per_pillar := outer_volume - inner_volume in
  let floor_area := PI * (pillar_radius g - wall_thickness g) ^ 2 in
  let base_volume := PI * (base_diameter g / 2) ^ 2 * base_height g in
  let wall_dimensions :=
    VFormat [Lit "R="; F3 (pillar_radius g); Lit "m, H=";
             F3 (pillar_height g); Lit "m, t="; F3 (wall_thickness g);
             Lit "m"] in
  Ok [ [ ("item", VStr "Cylindrical pillar walls (Sector A)");
         ("material", VStr "Masonry/Concrete");
         ("quantity", VInt 1);
         ("dimensions", wall_dimensions);
         ("volume_m3", VFloat wall_volume_per_pillar);
         ("notes", VStr "Semicircular, open N-S, closed E-W") ];
       [ ("item", VStr "Cylindrical pillar walls (Sector B)");
         ("material", VStr "Masonry/Concrete");
         ("quantity", VInt 1);
         ("dimensions", wall_dimensions);
         ("volume_m3", VFloat wall_volume_per_pillar);
         ("notes", VStr "Semicircular, open E-W, closed N-S") ];
       [ ("item", VStr "Floor surface with graduations");
         ("material", VStr "Polished marble/stone");
         ("quantity", VInt 1);
         ("dimensions", VFormat
            [Lit "Diameter "; F3 (pillar_radius g * 2); Lit "m"]);
         ("area_m2", VFloat floor_area);
         ("notes", VStr "Azimuth lines engraved (360° markings)") ];
       [ ("item", VStr "Central gnomon (vertical rod)");
         ("material", VStr "Metal/Stone");
         ("quantity", VInt 1);
         ("dimensions", VFormat
            [Lit "Height "; F3 (gnomon_height g); Lit "m, Ø 50mm"]);
         ("notes", VStr "Must be perfectly vertical") ];
       [ ("item", VStr "Central platform");
         ("material", VStr "Stone/Concrete");
         ("quantity", VInt 1);
         ("dimensions", VFormat
            [Lit "Radius "; F3 (central_platform_radius g); Lit "m"]);
         ("notes", VStr "Raised platform for gnomon base") ];
       [ ("item", VStr "Base platform");
         ("material", VStr "Concrete");
         ("quantity", VInt 1);
         ("dimensions", VFormat
            [Lit "Diameter "; F3 (base_diameter g); Lit "m, H=";
             F3 (base_height g); Lit "m"]);
         ("volume_m3", VFloat base_volume);
         ("notes", VStr "Foundation must be perfectly level") ];
       [ ("item", VStr "Altitude scale markings");
         ("material", VStr "Engraved/Painted graduations");
         ("quantity", VInt 2);
         ("dimensions", VFormat
            [Lit "Height 0 to "; F3 (pillar_height g); Lit "m"]);
         ("notes", VStr "One set per sector, 0° to 90° scale") ] ].

End Rama.

(** ** The validators *)

(** What [EphemerisService.get_sun_position] returns (degrees). *)
Record SunPosition : Type := {
  altitude : R;
  azimuth : R;
  declination : R;
  hour_angle : R
}.

Record datetime : Type := {
  year : Z; month : Z; day : Z; hour : Z; minute : Z; second : Z
}.

(** The validators accept any object with a [get_shadow_prediction] method. *)
Class Generator (G : Type) : Type := {
  get_shadow_prediction : G -> R -> R -> outcome dict
}.

#[export] Instance samrat_generator : Generator Samrat.SamratYantraGenerator :=
  {| get_shadow_prediction := Samrat.get_shadow_prediction |}.

#[export] Instance rama_generator : Generator Rama.RamaYantraGenerator :=
  {| get_shadow_prediction := Rama.get_shadow_prediction |}.

(** [app/models.py]. *)
Inductive YantraType : Type :=
| SAMRAT | RAMA | DIGAMSA | DHRUVA_PRAKSHA | BHITTI | RASIVALAYA | NADI_VALAYA.

Inductive AccuracyLevel : Type :=
| EXCELLENT | GOOD | ACCEPTABLE | POOR.

Record Location : Type := {
  loc_latitude : R;
  loc_longitude : R;
  loc_elevation : R;
  loc_timezone : string;
  loc_name : option string
}.

Record SolarPosition : Type := {
  sp_timestamp : datetime;
  sp_altitude : pyfloat;
  sp_azimuth : pyfloat;
  sp_declination : R;
  sp_hour_angle : pyfloat;
  sp_refraction_corrected : bool
}.

Record ValidationResult : Type := {
  vr_timestamp : datetime;
  vr_location : Location;
  predicted_position : SolarPosition;
  actual_position : SolarPosition;
  altitude_error : pyfloat;
  azimuth_error : pyfloat;
  rms_error : pyfloat;
  max_error : pyfloat;
  accuracy_level : AccuracyLevel
}.

(** [abs((az_pred - truth_az + 540) % 360 - 180)], the azimuth error of
    [ValidationService.compare_shadow]. *)
Definition az_diff (az_pred : pyfloat) (truth_az : R) : pyfloat :=
  fabs (fsub (fmodf (fadd (fsub az_pred truth_az) 540) 360) 180).

(** [abs(azimuth_reading - actual_azimuth)], the azimuth error of
    [validate_yantra_accuracy]. *)
Definition api_azimuth_error (az_pred : pyfloat) (actual_az : R) : pyfloat :=
  fabs (fsub az_pred actual_az).

(** The azimuth error as the spec words it,
    [|((predicted - true + 180) mod 360) - 180|]. *)
Definition spec_azimuth_error (predicted true_az : R) : R :=
  Rabs (fmod (predicted - true_az + 180) 360 - 180).

(** The accuracy tier chosen from the maximum error. *)
Definition accuracy_of (max_error : pyfloat) : AccuracyLevel :=
  if fltb max_error 0.1 then EXCELLENT
  else if fltb max_error 0.5 then GOOD
  else if fltb max_error 1.0 then ACCEPTABLE
  else POOR.

(** The instant at which the API validates, [datetime(2024, 6, 21, 12, 0, 0)]. *)
Definition test_date : datetime :=
  {| year := 2024; month := 6; day := 21;
     hour := 12; minute := 0; second := 0 |}.

Section Validators.

(** The ephemeris oracle:
    [get_sun_position(latitude, longitude, timestamp, elevation)]. *)
Variable get_sun_position : R -> R -> datetime -> R -> SunPosition.

(** [ValidationService.compare_shadow]. *)
Definition compare_shadow {G : Type} `{Generator G} (generator : G)
    (latitude longitude elevation : R) (when : datetime) : outcome dict :=
  let truth := get_sun_position latitude longitude when elevation in
  pred <- get_shadow_prediction generator (altitude truth) (azimuth truth) ;;
  let alt_pred := get pred "altitude_reading" (VFloat (altitude truth)) in
  let az_pred := get pred "azimuth_reading" (VFloat (azimuth truth)) in
  alt_pred_f <- as_float alt_pred ;;
  let alt_err := fabs (fsub alt_pred_f (altitude truth)) in
  az_pred_f <- as_float az_pred ;;
  let az_diff := az_diff az_pred_f (azimuth truth) in
  let rms := fsqrt (fadd (fmul alt_err alt_err) (fmul az_diff az_diff)) in
  Ok [ ("altitude_error", VFloat alt_err);
       ("azimuth_error", VFloat az_diff);
       ("rms_error", VFloat rms);
       ("predicted_altitude", alt_pred);
       ("predicted_azimuth", az_pred);
       ("declination", VFloat (declination truth));
       ("hour_angle", VFloat (hour_angle truth)) ].

(** [validate_yantra_accuracy] of [app/api/generate.py]. *)
Definition validate_yantra_accuracy {G : Type} `{Generator G} (generator : G)
    (location : Location) (yantra_type : YantraType)
  : outcome ValidationResult :=
  let actual_sun :=
    get_sun_position (loc_latitude location) (loc_longitude location)
      test_date (loc_elevation location) in
  shadow <- get_shadow_prediction generator
              (altitude actual_sun) (azimuth actual_sun) ;;
  alt_reading <-
    as_float (get shadow "altitude_reading" (VFloat (altitude actual_sun))) ;;
  let altitude_error := fabs (fsub alt_reading (altitude actual_sun)) in
  az_reading <-
    as_float (get shadow "azimuth_reading" (VFloat (azimuth actual_sun))) ;;
  let azimuth_error := api_azimuth_error az_reading (azimuth actual_sun) in
  let rms_error :=
    fsqrt (fadd (fmul altitude_error altitude_error)
                (fmul azimuth_error azimuth_error)) in
  let max_error := fmax altitude_error azimuth_error in
  let accuracy := accuracy_of max_error in
  ha_reading <- as_float (get shadow "hour_angle" (VInt 0)) ;;
  let predicted_position :=
    {| sp_timestamp := test_date;
       sp_altitude := alt_reading;
       sp_azimuth := az_reading;
       sp_declination := declination actual_sun;
       sp_hour_angle := ha_reading;
       sp_refraction_corrected := true |} in
  let actual_position :=
    {| sp_timestamp := test_date;
       sp_altitude := altitude actual_sun;
       sp_azimuth := azimuth actual_sun;
       sp_declination := declination actual_sun;
       sp_hour_angle := hour_angle actual_sun;
       sp_refraction_corrected := true |} in
  Ok {| vr_timestamp := test_date;
        vr_location := location;
        predicted_position := predicted_position;
        actual_position := actual_position;
        altitude_error := altitude_error;
        azimuth_error := azimuth_error;
        rms_error := rms_error;
        max_error := max_error;
        accuracy_level := accuracy |}.

End Validators.

(** The hour angle as the spec and the source comment word it: the
    two-argument arctangent of [sin(Az)] and
    [cos(Az) * sin(lat) - tan(alt) * cos(lat)], in degrees. *)
Definition spec_hour_angle_deg (latitude_deg sun_altitude sun_azimuth : R) : R :=
  let lat := radians latitude_deg in
  let alt_rad := radians sun_altitude in
  let az_rad := radians sun_azimuth in
  degrees (atan2 (sin az_rad)
                 (cos az_rad * sin lat - tan alt_rad * cos lat)).

(** The scale constraint of the request model,
    [scale: float = Field(default=1.0, gt=0.1, le=1000)]. *)
Definition request_scale_valid (scale : R) : bool :=
  ltb 0.1 scale && leb scale 1000.

(** ** Outcomes of a query *)

(** The error a query raises on a generator without geometry (the spec's
    InvalidStateError is this [ValueError]). *)
Definition invalid_state {A : Type} (o : outcome A) : Prop :=
  o = Raise (ValueError "Must call generate() first").

Definition raises {A : Type} (o : outcome A) : Prop := exists e, o = Raise e.

Definition returns {A : Type} (o : outcome A) : Prop := exists v, o = Ok v.

(** A call fails, and then with the invalid-state error, exactly when the
    generator holds no geometry; otherwise it returns. *)
Definition fails_iff_no_geometry {A G : Type} (geometry : option G)
    (o : outcome A) : Prop :=
  (raises o <-> geometry = None)
  /\ (raises o -> invalid_state o)
  /\ (geometry <> None -> returns o).

(** ** The two [generate] methods on binary64

    The same dimension arithmetic on IEEE binary64 floats, the numbers Python
    computes with, to run the end-to-end scenarios bit for bit. *)

Module Binary64.
Import PrimFloat.
#[local] Set Warnings "-inexact-float".
#[local] Open Scope float_scope.

(** The float of a small [int]. *)
Fixpoint float_of_pos (p : positive) : float :=
  match p with
  | xH => 1
  | xO q => 2 * float_of_pos q
  | xI q => 2 * float_of_pos q + 1
  end.

Definition float_of_int (z : Z) : float :=
  match z with
  | Z0 => 0
  | Zpos p => float_of_pos p
  | Zneg p => - float_of_pos p
  end.

(** Two-argument [max]. *)
Definition max (a b : float) : float := if a <? b then b else a.

Record SamratGeometry : Type := {
  s_gnomon_height : float;
  s_gnomon_base_width : float;
  s_gnomon_thickness : float;
  s_quadrant_radius : float;
  s_hour_line_angles : list float;
  s_scale_divisions : Z;
  s_base_length : float;
  s_base_width : float;
  s_base_height : float
}.

Definition samrat_generate (scale material_thickness kerf : float)
    (include_base : bool) : SamratGeometry :=
  let gnomon_height := scale in
  let gnomon_base_width := gnomon_height * 0.15 in
  let gnomon_thickness := material_thickness in
  let quadrant_radius := gnomon_height * 0.7 in
  let hour_angles := map (fun hour => float_of_int hour * 15.0) (range (-6) 7) in
  let scale_divisions := 60%Z in
  let base_length := if include_base then quadrant_radius * 2.5 else 0.0 in
  let base_width := if include_base then quadrant_radius * 2.5 else 0.0 in
  let base_height := if include_base then gnomon_height * 0.05 else 0.0 in
  let gnomon_base_width :=
    if 0 <? kerf then gnomon_base_width + kerf else gnomon_base_width in
  let quadrant_radius :=
    if 0 <? kerf then quadrant_radius + kerf else quadrant_radius in
  {| s_gnomon_height := gnomon_height;
     s_gnomon_base_width := gnomon_base_width;
     s_gnomon_thickness := gnomon_thickness;
     s_quadrant_radius := quadrant_radius;
     s_hour_line_angles := hour_angles;
     s_scale_divisions := scale_divisions;
     s_base_length := base_length;
     s_base_width := base_width;
     s_base_height := base_height |}.

Record RamaGeometry : Type := {
  r_pillar_radius : float;
  r_pillar_height : float;
  r_pillar_separation : float;
  r_wall_thickness : float;
  r_azimuth_divisions : Z;
  r_altitude_scale_height : float;
  r_central_platform_radius : float;
  r_gnomon_height : float;
  r_base_diameter : float;
  r_base_height : float
}.

Definition rama_generate (scale material_thickness kerf : float)
    (include_base : bool) : RamaGeometry :=
  let pillar_radius := scale in
  let pillar_height := pillar_radius * 2.0 in
  let pillar_separation := pillar_radius * 0.5 in
  let wall_thickness := max material_thickness (pillar_radius * 0.1) in
  let azimuth_divisions := 360%Z in
  let altitude_scale_height := pillar_height in
  let central_platform_radius := pillar_separation * 0.4 in
  let gnomon_height := pillar_height * 0.3 in
  let base_diameter :=
    if include_base
    then (pillar_radius * 2 + pillar_separation) * 1.3 else 0.0 in
  let base_height := if include_base then pillar_height * 0.03 else 0.0 in
  let pillar_radius :=
    if 0 <? kerf then pillar_radius + kerf else pillar_radius in
  let wall_thickness :=
    if 0 <? kerf then wall_thickness + kerf else wall_thickness in
  {| r_pillar_radius := pillar_radius;
     r_pillar_height := pillar_height;
     r_pillar_separation := pillar_separation;
     r_wall_thickness := wall_thickness;
     r_azimuth_divisions := azimuth_divisions;
     r_altitude_scale_height := altitude_scale_height;
     r_central_platform_radius := central_platform_radius;
     r_gnomon_height := gnomon_height;
     r_base_diameter := base_diameter;
     r_base_height := base_height |}.

End Binary64.

(** A generator with a fixed reading, standing for any object whose
    [get_shadow_prediction] reports an altitude and an azimuth reading. *)
Record FixedReading : Type := {
  fixed_altitude : R;
  fixed_azimuth : R
}.

#[export] Instance fixed_generator : Generator FixedReading :=
  {| get_shadow_prediction := fun self _ _ =>
       Ok [ ("azimuth_reading", VFloat (fixed_azimuth self));
            ("altitude_reading", VFloat (fixed_altitude self)) ] |}.

(** ** Overall dimensions in [generate_yantra]

    The part of [generate_yantra] ([app/api/generate.py]) that reads the
    overall length, width and height out of the dimensions dictionary, with
    its fallbacks to the requested scale.  A subscript on a missing key
    raises [KeyError]; on an [overall] entry that is not a dictionary the
    code fails, at the membership test or at [.get]. *)

Inductive lookup_error : Type :=
| KeyError (key : string)
| NotADict.

Definition overall_dimensions (dims_dict : dict) (scale : R)
  : lookup_error + (pyval * pyval * pyval) :=
  match get dims_dict "overall" (VDict []) with
  | VDict overall =>
      let height_value := get overall "height" (VFloat scale) in
      match lookup overall "length" with
      | Some length_value =>
          match lookup overall "width" with
          | Some width_value => inr (length_value, width_value, height_value)
          | None => inl (KeyError "width")
          end
      | None =>
          match lookup overall "diameter" with
          | Some diameter => inr (diameter, diameter, height_value)
          | None =>
              inr (VFloat (scale * 2), VFloat (scale * 2), height_value)
          end
      end
  | _ => inl NotADict
  end.

(** Whether a bill-of-materials item has a [volume_m3] entry. *)
Definition has_volume (item : dict) : bool :=
  match lookup item "volume_m3" with
  | Some _ => true
  | None => false
  end.

(** Whether an item has the five entries common to all items. *)
Definition has_common_keys (item : dict) : Prop :=
  (exists s, lookup item "item" = Some (VStr s))
  /\ (exists s, lookup item "material" = Some (VStr s))
  /\ (exists n, lookup item "quantity" = Some (VInt n) /\ (0 < n)%Z)
  /\ lookup item "dimensions" <> None
  /\ lookup item "notes" <> None.

(** ** Sun path: [EphemerisService.day_sun_path] and [sun_path]

    [day_sun_path] samples the day that starts at [midnight] (the POSIX
    timestamp of the date at 00:00 UTC) at [num_points] instants and asks
    the ephemeris for altitude and azimuth at each; [sun_path] of
    [app/api/astronomy.py] summarises the points.  The ephemeris and the
    rendering of a timestamp ([isoformat]) are parameters. *)

Record PathPoint : Type := {
  pt_time : string;
  pt_altitude : R;
  pt_azimuth : R;
  pt_is_visible : bool
}.

Record SunPathSummary : Type := {
  path_points : list PathPoint;
  sunrise : option string;
  sunset : option string;
  solar_noon : option string;
  day_length_hours : R
}.

(** [round(x, 2)]: the nearest multiple of 0.01, ties to even. *)
Definition round2 (x : R) : R := IZR (round (x * 100)) / 100.

(** [max(pts, key=...)] keeps the first point of greatest altitude. *)
Definition max_by_altitude (first : PathPoint) (rest : list PathPoint)
  : PathPoint :=
  fold_left (fun best p =>
               if ltb (pt_altitude best) (pt_altitude p) then p else best)
            rest first.

Section SunPath.

Variable altaz : R -> R -> R -> R -> R * R.
Variable isoformat : R -> string.

Definition day_sun_path (latitude longitude midnight elevation : R)
    (num_points : Z) : list PathPoint :=
  let seconds :=
    map (fun i => Z.quot (i * 86400) num_points) (range 0 num_points) in
  let times := map (fun s => midnight + IZR s) seconds in
  map (fun ts =>
         let (alt, az) := altaz latitude longitude elevation ts in
         {| pt_time := isoformat ts;
            pt_altitude := alt;
            pt_azimuth := az;
            pt_is_visible := ltb 0.0 alt |})
      times.

(** The source lists the indices of the visible points and uses the first,
    the last and their number; these are read here off the visible points
    themselves. *)
Definition sun_path (latitude longitude midnight elevation : R)
    (num_points : Z) : SunPathSummary :=
  let pts := day_sun_path latitude longitude midnight elevation num_points in
  let visible := filter pt_is_visible pts in
  let sunrise := option_map pt_time (hd_error visible) in
  let sunset := option_map pt_time (hd_error (rev visible)) in
  let solar_noon :=
    match pts with
    | [] => None
    | first :: rest => Some (pt_time (max_by_altitude first rest))
    end in
  let day_len :=
    match visible with
    | [] => 0.0
    | _ => INR (length visible) * (24.0 / IZR num_points)
    end in
  {| path_points := pts;
     sunrise := sunrise;
     sunset := sunset;
     solar_noon := solar_noon;
     day_length_hours := round2 day_len |}.

End SunPath.

(** ** Location check: [validate_location] of [app/api/validate.py] *)

(** [round(x, 6)]: the nearest multiple of 0.000001, ties to even. *)
Definition round6 (x : R) : R := IZR (round (x * 1000000)) / 1000000.

(** The field constraints of [Location]
    ([ge=-90, le=90] and [ge=-180, le=180]). *)
Definition location_fields_valid (latitude longitude : R) : bool :=
  leb (-90) latitude && leb latitude 90
  && leb (-180) longitude && leb longitude 180.

Record NormalizedLocation : Type := {
  norm_latitude : R;
  norm_longitude : R;
  norm_elevation : R
}.

(** The [normalized] part of the response. *)
Definition validate_location (latitude longitude elevation : R)
  : NormalizedLocation :=
  {| norm_latitude := round6 latitude;
     norm_longitude := round6 longitude;
     norm_elevation := elevation |}.

(** ** Settings: [app/config.py] *)

Record Settings : Type := {
  ENVIRONMENT : string;
  DEBUG : bool;
  JWT_SECRET : string;
  R2_ACCESS_KEY : string;
  R2_SECRET_KEY : string
}.

(** The values of the class body for the fields modelled. *)
Definition default_settings : Settings :=
  {| ENVIRONMENT := "development";
     DEBUG := true;
     JWT_SECRET := "change-me-in-production-use-strong-secret";
     R2_ACCESS_KEY := "";
     R2_SECRET_KEY := "" |}.

(** [str.lower] on the ASCII letters; other bytes are kept, which decides
    every comparison with an ASCII word. *)
Definition lower_char (c : Ascii.ascii) : Ascii.ascii :=
  let n := Ascii.nat_of_ascii c in
  if ((65 <=? n) && (n <=? 90))%nat then Ascii.ascii_of_nat (n + 32) else c.

Fixpoint lower (s : string) : string :=
  match s with
  | EmptyString => EmptyString
  | String c rest => String (lower_char c) (lower rest)
  end.

Definition is_production (self : Settings) : bool :=
  String.eqb (lower (ENVIRONMENT self)) "production".

(** The check run when the module is loaded; the value returned is the list
    of lines printed. *)
Definition startup_validation (settings : Settings) : outcome (list string) :=
  if is_production settings then
    if String.eqb (JWT_SECRET settings)
         "change-me-in-production-use-strong-secret"
    then Raise (ValueError "JWT_SECRET must be changed in production!")
    else if DEBUG settings
    then Raise (ValueError "DEBUG must be False in production!")
    else if String.eqb (R2_ACCESS_KEY settings) ""
            || String.eqb (R2_SECRET_KEY settings) ""
    then Ok ["⚠️  Warning: R2 storage not configured. File exports will fail."]
    else Ok []
  else Ok [].

(** ** STL export: [CADExporter.export_stl] of [services/cad_export.py]

    [Trimesh V F] stands for the call of [trimesh.Trimesh] on vertices [V]
    and faces [F], [Box] for the call of [trimesh.creation.box].
    [export_stl_rama] is the mesh description built for an alt-azimuth
    generator.  [export_stl_samrat] is the whole method on an
    equatorial-dial generator; the library calls it makes (the convex hull,
    the construction of a mesh from its description, and the final STL
    encoding, each of which may raise) are parameters. *)

Inductive mesh : Type :=
| Trimesh (vertices : list (list R)) (faces : list (list Z))
| Box (extents : R * R * R).

(** [np.linspace(start, stop, num)]. *)
Definition linspace (start stop : R) (num : Z) : list R :=
  map (fun i => start + IZR i * ((stop - start) / IZR (num - 1)))
      (range 0 num).

Definition fallback_box : mesh := Box (1, 0.2, 0.5).

Definition export_stl_rama (generator : Rama.RamaYantraGenerator) : mesh :=
  match Rama.geometry generator with
  | Some g =>
      let theta := linspace 0 PI 48 in
      let r := Rama.pillar_radius g in
      let z0 := 0.0 in
      let z1 := Rama.pillar_height g in
      let ring0 := map (fun t => [r * cos t; r * sin t; z0]) theta in
      let ring1 := map (fun t => [r * cos t; r * sin t; z1]) theta in
      let V := (ring0 ++ ring1)%list in
      let n := Z.of_nat (length theta) in
      let F :=
        flat_map (fun i => [ [i; i + 1; i + n]; [i + 1; i + n + 1; i + n] ]%Z)
                 (range 0 (n - 1)) in
      Trimesh V F
  | None => fallback_box
  end.

Section StlSamrat.

Variables Mesh Bytes : Type.
Variable convex_hull_faces : list (list R) -> outcome (list (list Z)).
Variable construct : mesh -> outcome Mesh.
Variable stl_encode : Mesh -> outcome Bytes.

(** What the [try] block computes for a generator that has
    [get_gnomon_vertices]. *)
Definition stl_try_samrat (generator : Samrat.SamratYantraGenerator)
  : outcome Mesh :=
  V <- Samrat.get_gnomon_vertices generator ;;
  F <- convex_hull_faces V ;;
  construct (Trimesh V F).

(** [export_stl]: any exception of the [try] block selects the fallback box;
    building that box and [mesh.export(file_type="stl")] run outside the
    [try]. *)
Definition export_stl_samrat (generator : Samrat.SamratYantraGenerator)
  : outcome Bytes :=
  m <- match stl_try_samrat generator with
       | Ok m => Ok m
       | Raise _ => construct fallback_box
       end ;;
  stl_encode m.

End StlSamrat.

(** ** Generators for concrete runs

    The geometries of the two end-to-end scenarios (latitude 26.9124,
    longitude 75.7873, scale 1.0, material thickness 0.01, no kerf, with
    base) and the generators holding them. *)

Definition jaipur_samrat_geometry : Samrat.SamratGeometry :=
  {| Samrat.gnomon_height := 1;
     Samrat.gnomon_base_width := 0.15;
     Samrat.gnomon_thickness := 0.01;
     Samrat.quadrant_radius := 0.7;
     Samrat.hour_line_angles :=
       [-90; -75; -60; -45; -30; -15; 0; 15; 30; 45; 60; 75; 90];
     Samrat.scale_divisions := 60;
     Samrat.base_length := 1.75;
     Samrat.base_width := 1.75;
     Samrat.base_height := 0.05 |}.

Definition jaipur_samrat : Samrat.SamratYantraGenerator :=
  {| Samrat.latitude := radians 26.9124;
     Samrat.longitude := radians 75.7873;
     Samrat.scale := 1;
     Samrat.geometry := Some jaipur_samrat_geometry |}.

Definition jaipur_rama_geometry : Rama.RamaGeometry :=
  {| Rama.pillar_radius := 1;
     Rama.pillar_height := 2;
     Rama.pillar_separation := 0.5;
     Rama.wall_thickness := 0.1;
     Rama.azimuth_divisions := 360;
     Rama.altitude_scale_height := 2;
     Rama.central_platform_radius := 0.2;
     Rama.gnomon_height := 0.6;
     Rama.base_diameter := 3.25;
     Rama.base_height := 0.06 |}.

Definition jaipur_rama : Rama.RamaYantraGenerator :=
  {| Rama.latitude := radians 26.9124;
     Rama.longitude := radians 75.7873;
     Rama.scale := 1;
     Rama.geometry := Some jaipur_rama_geometry |}.

(** ** Whole-degree forms

    What [_azimuth_to_cardinal] and the sector rule compute on an integer
    number of degrees, in integer arithmetic. *)

Definition cardinal_of_degree (a : Z) : string :=
  nth (Z.to_nat (((4 * a + 45) / 90) mod 16)) Rama.directions "".

Definition degree_in_sector_A (a : Z) : bool :=
  ((45 <=? a) && (a <=? 135) || (225 <=? a) && (a <=? 315))%Z.

(** * Properties *)

(** ** Comparisons and Python arithmetic *)

Lemma ltb_true (x y : R) : x < y -> ltb x y = true.
Proof. intros Hlt. unfold ltb. destruct (Rlt_dec x y); [reflexivity | contradiction]. Qed.

Lemma ltb_false (x y : R) : y <= x -> ltb x y = false.
Proof. intros Hle. unfold ltb. destruct (Rlt_dec x y); [lra | reflexivity]. Qed.

Lemma ltb_iff (x y : R) : ltb x y = true <-> x < y.
Proof.
  unfold ltb. destruct (Rlt_dec x y); split; intros; try assumption;
    try reflexivity; try discriminate; contradiction.
Qed.

Lemma leb_true (x y : R) : x <= y -> leb x y = true.
Proof. intros Hle. unfold leb. destruct (Rle_dec x y); [reflexivity | contradiction]. Qed.

Lemma leb_false (x y : R) : y < x -> leb x y = false.
Proof. intros Hlt. unfold leb. destruct (Rle_dec x y); [lra | reflexivity]. Qed.

Lemma leb_iff (x y : R) : leb x y = true <-> x <= y.
Proof.
  unfold leb. destruct (Rle_dec x y); split; intros; try assumption;
    try reflexivity; try discriminate; contradiction.
Qed.

(** Resolves the comparisons of a goal whose outcome [lra] can decide. *)
Ltac decide_cmp :=
  repeat match goal with
  | |- context [ltb ?x ?y] =>
      first [ rewrite (ltb_true x y) by lra | rewrite (ltb_false x y) by lra ]
  | |- context [leb ?x ?y] =>
      first [ rewrite (leb_true x y) by lra | rewrite (leb_false x y) by lra ]
  end.

Lemma range_hours : range (-6) 7 = [-6; -5; -4; -3; -2; -1; 0; 1; 2; 3; 4; 5; 6]%Z.
Proof. reflexivity. Qed.

(** ** Generation *)

(** [generate] never raises, whatever the scale, and stores what it returns. *)
Lemma samrat_generate_total (self : Samrat.SamratYantraGenerator)
    (mt kerf : R) (ib : bool) :
  exists g self',
    Samrat.generate self mt kerf ib = Ok (g, self')
    /\ Samrat.geometry self' = Some g
    /\ Samrat.latitude self' = Samrat.latitude self
    /\ Samrat.gnomon_height g = Samrat.scale self.
Proof.
  unfold Samrat.generate. do 2 eexists. split; [reflexivity |].
  repeat split; reflexivity.
Qed.

Lemma rama_generate_total (self : Rama.RamaYantraGenerator)
    (mt kerf : R) (ib : bool) :
  exists g self',
    Rama.generate self mt kerf ib = Ok (g, self')
    /\ Rama.geometry self' = Some g
    /\ Rama.latitude self' = Rama.latitude self
    /\ Rama.pillar_height g = Rama.scale self * 2.0.
Proof.
  unfold Rama.generate. do 2 eexists. split; [reflexivity |].
  repeat split; reflexivity.
Qed.

(** C10.  At latitude 26.9124 and scale 1.0, with the default zero kerf, the
    equatorial-dial [generate] returns gnomon height 1.0, gnomon base width
    0.15, quadrant radius 0.7 and the thirteen hour angles -90, -75, ..., 90
    in this order, for every longitude, material thickness and base option. *)
Theorem samrat_scenario (lon mt : R) (ib : bool) :
  exists g self',
    Samrat.generate (Samrat.init 26.9124 lon 1.0) mt 0 ib = Ok (g, self')
    /\ Samrat.gnomon_height g = 1.0
    /\ Samrat.gnomon_base_width g = 0.15
    /\ Samrat.quadrant_radius g = 0.7
    /\ length (Samrat.hour_line_angles g) = 13%nat
    /\ Samrat.hour_line_angles g
       = [-90; -75; -60; -45; -30; -15; 0; 15; 30; 45; 60; 75; 90].
Proof.
  unfold Samrat.generate. do 2 eexists. split; [reflexivity |].
  cbn [Samrat.gnomon_height Samrat.gnomon_base_width Samrat.quadrant_radius
       Samrat.hour_line_angles Samrat.scale Samrat.init].
  rewrite range_hours. decide_cmp. cbn [map length].
  repeat split; try lra.
  repeat (f_equal; [lra |]). f_equal. lra.
Qed.

(** C5 fails on the code: with scale -1 the equatorial dial, and with scale 0
    the alt-azimuth instrument, return a geometry instead of raising. *)
Lemma generate_accepts_nonpositive_scale :
  (exists g self',
     Samrat.generate (Samrat.init 26.9124 75.7873 (-1)) 0.01 0 true
       = Ok (g, self')
     /\ Samrat.gnomon_height g = -1
     /\ Samrat.geometry self' = Some g)
  /\ (exists g self',
     Rama.generate (Rama.init 26.9124 75.7873 0) 0.15 0 true = Ok (g, self')
     /\ Rama.pillar_height g = 0
     /\ Rama.geometry self' = Some g)
  /\ (forall e,
     Samrat.generate (Samrat.init 26.9124 75.7873 (-1)) 0.01 0 true
       <> Raise e)
  /\ (forall e,
     Rama.generate (Rama.init 26.9124 75.7873 0) 0.15 0 true <> Raise e).
Proof.
  split; [| split; [| split]].
  - unfold Samrat.generate. do 2 eexists. split; [reflexivity |].
    split; reflexivity.
  - unfold Rama.generate. do 2 eexists. split; [reflexivity |].
    split; [cbn; lra | reflexivity].
  - intros e. unfold Samrat.generate. discriminate.
  - intros e. unfold Rama.generate. discriminate.
Qed.

(** C5, amended.  [generate] checks nothing: for every scale, positive or
    not, both generators return a geometry sized by that scale and store it;
    a non-positive scale is refused earlier, by the request model. *)
Theorem generate_never_raises :
  (forall self mt kerf ib, exists g self',
     Samrat.generate self mt kerf ib = Ok (g, self')
     /\ Samrat.geometry self' = Some g
     /\ Samrat.gnomon_height g = Samrat.scale self)
  /\ (forall self mt kerf ib, exists g self',
     Rama.generate self mt kerf ib = Ok (g, self')
     /\ Rama.geometry self' = Some g
     /\ Rama.pillar_height g = Rama.scale self * 2.0)
  /\ (forall scale, scale <= 0 -> request_scale_valid scale = false).
Proof.
  split; [| split].
  - intros self mt kerf ib.
    destruct (samrat_generate_total self mt kerf ib) as (g & s & E & Hg & _ & Hh).
    exists g, s. auto.
  - intros self mt kerf ib.
    destruct (rama_generate_total self mt kerf ib) as (g & s & E & Hg & _ & Hh).
    exists g, s. auto.
  - intros scale Hle. unfold request_scale_valid.
    rewrite ltb_false by lra. reflexivity.
Qed.

(** C8.  A positive kerf is added to the gnomon base width and the quadrant
    radius of the equatorial dial, and to the pillar radius and the wall
    thickness of the alt-azimuth instrument; every other dimension keeps its
    zero-kerf value, so no radius or width is below the zero-kerf one. *)
Theorem kerf_only_widens (kerf : R) :
  0 < kerf ->
  (forall self mt ib, exists gk sk g0 s0,
     Samrat.generate self mt kerf ib = Ok (gk, sk)
     /\ Samrat.generate self mt 0 ib = Ok (g0, s0)
     /\ Samrat.gnomon_base_width gk = Samrat.gnomon_base_width g0 + kerf
     /\ Samrat.quadrant_radius gk = Samrat.quadrant_radius g0 + kerf
     /\ Samrat.gnomon_base_width g0 <= Samrat.gnomon_base_width gk
     /\ Samrat.quadrant_radius g0 <= Samrat.quadrant_radius gk
     /\ Samrat.gnomon_height gk = Samrat.gnomon_height g0
     /\ Samrat.gnomon_thickness gk = Samrat.gnomon_thickness g0
     /\ Samrat.hour_line_angles gk = Samrat.hour_line_angles g0
     /\ Samrat.scale_divisions gk = Samrat.scale_divisions g0
     /\ Samrat.base_length gk = Samrat.base_length g0
     /\ Samrat.base_width gk = Samrat.base_width g0
     /\ Samrat.base_height gk = Samrat.base_height g0)
  /\ (forall self mt ib, exists gk sk g0 s0,
     Rama.generate self mt kerf ib = Ok (gk, sk)
     /\ Rama.generate self mt 0 ib = Ok (g0, s0)
     /\ Rama.pillar_radius gk = Rama.pillar_radius g0 + kerf
     /\ Rama.wall_thickness gk = Rama.wall_thickness g0 + kerf
     /\ Rama.pillar_radius g0 <= Rama.pillar_radius gk
     /\ Rama.wall_thickness g0 <= Rama.wall_thickness gk
     /\ Rama.central_platform_radius gk = Rama.central_platform_radius g0
     /\ Rama.base_diameter gk = Rama.base_diameter g0
     /\ Rama.pillar_height gk = Rama.pillar_height g0
     /\ Rama.pillar_separation gk = Rama.pillar_separation g0
     /\ Rama.azimuth_divisions gk = Rama.azimuth_divisions g0
     /\ Rama.altitude_scale_height gk = Rama.altitude_scale_height g0
     /\ Rama.gnomon_height gk = Rama.gnomon_height g0
     /\ Rama.base_height gk = Rama.base_height g0).
Proof.
  intros Hk. split; intros self mt ib.
  - unfold Samrat.generate. do 4 eexists.
    split; [reflexivity |]. split; [reflexivity |].
    cbn [Samrat.gnomon_height Samrat.gnomon_base_width Samrat.quadrant_radius
         Samrat.gnomon_thickness Samrat.hour_line_angles
         Samrat.scale_divisions Samrat.base_length Samrat.base_width
         Samrat.base_height].
    rewrite (ltb_true 0 kerf) by lra. rewrite (ltb_false 0 0) by lra.
    repeat split; try reflexivity; lra.
  - unfold Rama.generate. do 4 eexists.
    split; [reflexivity |]. split; [reflexivity |].
    cbn [Rama.pillar_radius Rama.pillar_height Rama.pillar_separation
         Rama.wall_thickness Rama.azimuth_divisions
         Rama.altitude_scale_height Rama.central_platform_radius
         Rama.gnomon_height Rama.base_diameter Rama.base_height].
    rewrite (ltb_true 0 kerf) by lra. rewrite (ltb_false 0 0) by lra.
    repeat split; try reflexivity; lra.
Qed.

Lemma kerf_only_widens_witness :
  0 < 0.005
  /\ exists gk sk g0 s0,
       Samrat.generate (Samrat.init 26.9124 75.7873 1.0) 0.01 0.005 true
         = Ok (gk, sk)
       /\ Samrat.generate (Samrat.init 26.9124 75.7873 1.0) 0.01 0 true
         = Ok (g0, s0)
       /\ Samrat.quadrant_radius gk = Samrat.quadrant_radius g0 + 0.005.
Proof.
  assert (H : 0 < 0.005) by lra.
  split; [exact H |].
  destruct (proj1 (kerf_only_widens 0.005 H)
              (Samrat.init 26.9124 75.7873 1.0) 0.01 true)
    as (gk & sk & g0 & s0 & Ek & E0 & _ & Hq & _).
  exists gk, sk, g0, s0. auto.
Defined.

(** C9 fails as stated: called with its own default material thickness
    (0.15), the alt-azimuth [generate] returns wall thickness 0.15. *)
Lemma rama_default_thickness_keeps_015 :
  exists g self',
    Rama.generate (Rama.init 26.9124 75.7873 1.0)
      Rama.default_material_thickness 0 true = Ok (g, self')
    /\ Rama.wall_thickness g = 0.15
    /\ Rama.wall_thickness g <> 0.1.
Proof.
  unfold Rama.generate. do 2 eexists. split; [reflexivity |].
  cbn [Rama.wall_thickness Rama.scale Rama.init].
  rewrite (ltb_false 0 0) by lra. unfold Rama.default_material_thickness.
  rewrite Rmax_left by lra. split; lra.
Qed.

(** C9, amended.  At latitude 26.9124, scale 1.0 and zero kerf, the
    alt-azimuth [generate] returns, for every material thickness, pillar
    radius 1.0, pillar height 2.0, pillar separation 0.5, gnomon height 0.6
    and wall thickness max(materialThickness, 0.1 * radius): that is 0.1
    when the material thickness is at most 0.1, and the material thickness
    itself when it is larger. *)
Theorem rama_scenario (lon mt : R) (ib : bool) :
  exists g self',
    Rama.generate (Rama.init 26.9124 lon 1.0) mt 0 ib = Ok (g, self')
    /\ Rama.pillar_radius g = 1.0
    /\ Rama.pillar_height g = 2.0
    /\ Rama.pillar_separation g = 0.5
    /\ Rama.wall_thickness g = Rmax mt (0.1 * Rama.pillar_radius g)
    /\ (mt <= 0.1 -> Rama.wall_thickness g = 0.1)
    /\ (0.1 <= mt -> Rama.wall_thickness g = mt)
    /\ Rama.gnomon_height g = 0.6.
Proof.
  unfold Rama.generate. do 2 eexists. split; [reflexivity |].
  cbn [Rama.pillar_radius Rama.pillar_height Rama.pillar_separation
       Rama.wall_thickness Rama.gnomon_height Rama.scale Rama.init].
  rewrite (ltb_false 0 0) by lra.
  replace (0.1 * 1.0) with (1.0 * 0.1) by lra.
  repeat split; try reflexivity; try lra.
  - intros Hmt. rewrite Rmax_right by lra. lra.
  - intros Hmt. rewrite Rmax_left by lra. reflexivity.
Qed.

Lemma rama_scenario_witness :
  0.01 <= 0.1 /\ 0.1 <= 0.15
  /\ (exists g self',
        Rama.generate (Rama.init 26.9124 75.7873 1.0) 0.01 0 true
          = Ok (g, self')
        /\ Rama.wall_thickness g = 0.1)
  /\ (exists g self',
        Rama.generate (Rama.init 26.9124 75.7873 1.0) 0.15 0 true
          = Ok (g, self')
        /\ Rama.wall_thickness g = 0.15).
Proof.
  assert (Hlow : 0.01 <= 0.1) by lra.
  assert (Hhigh : 0.1 <= 0.15) by lra.
  split; [exact Hlow |]. split; [exact Hhigh |]. split.
  - destruct (rama_scenario 75.7873 0.01 true)
      as (g & s & E & _ & _ & _ & _ & Hw & _).
    exists g, s. split; [exact E | exact (Hw Hlow)].
  - destruct (rama_scenario 75.7873 0.15 true)
      as (g & s & E & _ & _ & _ & _ & _ & Hw & _).
    exists g, s. split; [exact E | exact (Hw Hhigh)].
Defined.

(** ** Queries before and after [generate] *)

Lemma guarded_samrat {A : Type} (self : Samrat.SamratYantraGenerator)
    (k : Samrat.SamratGeometry -> outcome A) :
  (forall g, returns (k g)) ->
  fails_iff_no_geometry (Samrat.geometry self)
    (bind (Samrat.require_geometry self) k).
Proof.
  intros Hk. unfold fails_iff_no_geometry, Samrat.require_geometry.
  destruct (Samrat.geometry self) as [g |]; cbn [bind].
  - destruct (Hk g) as [v Ev]. rewrite Ev. repeat split.
    + intros [e He]. discriminate.
    + intros Hn. discriminate.
    + intros [e He]. discriminate.
    + intros _. exists v. reflexivity.
  - repeat split.
    + intros _. eexists. reflexivity.
    + intros Hn. contradiction.
Qed.

Lemma guarded_rama {A : Type} (self : Rama.RamaYantraGenerator)
    (k : Rama.RamaGeometry -> outcome A) :
  (forall g, returns (k g)) ->
  fails_iff_no_geometry (Rama.geometry self)
    (bind (Rama.require_geometry self) k).
Proof.
  intros Hk. unfold fails_iff_no_geometry, Rama.require_geometry.
  destruct (Rama.geometry self) as [g |]; cbn [bind].
  - destruct (Hk g) as [v Ev]. rewrite Ev. repeat split.
    + intros [e He]. discriminate.
    + intros Hn. discriminate.
    + intros [e He]. discriminate.
    + intros _. exists v. reflexivity.
  - repeat split.
    + intros _. eexists. reflexivity.
    + intros Hn. contradiction.
Qed.

Ltac guarded_query lem :=
  intros; apply lem; intros g; eexists; reflexivity.

Lemma samrat_hour_lines_guarded self :
  fails_iff_no_geometry (Samrat.geometry self)
    (Samrat.get_hour_line_coordinates self).
Proof. unfold Samrat.get_hour_line_coordinates. guarded_query @guarded_samrat. Qed.

Lemma samrat_vertices_guarded self :
  fails_iff_no_geometry (Samrat.geometry self)
    (Samrat.get_gnomon_vertices self).
Proof. unfold Samrat.get_gnomon_vertices. guarded_query @guarded_samrat. Qed.

Lemma samrat_dimensions_guarded self :
  fails_iff_no_geometry (Samrat.geometry self)
    (Samrat.get_dimensions_dict self).
Proof. unfold Samrat.get_dimensions_dict. guarded_query @guarded_samrat. Qed.

Lemma samrat_bom_guarded self :
  fails_iff_no_geometry (Samrat.geometry self)
    (Samrat.get_bill_of_materials self).
Proof. unfold Samrat.get_bill_of_materials. guarded_query @guarded_samrat. Qed.

Lemma samrat_prediction_guarded self alt az :
  fails_iff_no_geometry (Samrat.geometry self)
    (Samrat.get_shadow_prediction self alt az).
Proof. unfold Samrat.get_shadow_prediction. guarded_query @guarded_samrat. Qed.

Lemma rama_vertices_guarded self sector :
  fails_iff_no_geometry (Rama.geometry self)
    (Rama.get_pillar_vertices self sector).
Proof. unfold Rama.get_pillar_vertices. guarded_query @guarded_rama. Qed.

Lemma rama_markings_guarded self :
  fails_iff_no_geometry (Rama.geometry self)
    (Rama.get_azimuth_markings self).
Proof. unfold Rama.get_azimuth_markings. guarded_query @guarded_rama. Qed.

Lemma rama_altitude_scale_guarded self sector :
  fails_iff_no_geometry (Rama.geometry self)
    (Rama.get_altitude_scale self sector).
Proof. unfold Rama.get_altitude_scale. guarded_query @guarded_rama. Qed.

Lemma rama_dimensions_guarded self :
  fails_iff_no_geometry (Rama.geometry self)
    (Rama.get_dimensions_dict self).
Proof. unfold Rama.get_dimensions_dict. guarded_query @guarded_rama. Qed.

Lemma rama_bom_guarded self :
  fails_iff_no_geometry (Rama.geometry self)
    (Rama.get_bill_of_materials self).
Proof. unfold Rama.get_bill_of_materials. guarded_query @guarded_rama. Qed.

Lemma rama_prediction_guarded self alt az :
  fails_iff_no_geometry (Rama.geometry self)
    (Rama.get_shadow_prediction self alt az).
Proof. unfold Rama.get_shadow_prediction. guarded_query @guarded_rama. Qed.

Lemma returns_of_guarded {A G : Type} (geo : option G) (g : G)
    (o : outcome A) :
  geo = Some g -> fails_iff_no_geometry geo o -> returns o.
Proof.
  intros Hg (_ & _ & Hret). apply Hret. rewrite Hg. discriminate.
Qed.

(** C6.  Each derived query of either generator raises exactly when the
    generator holds no geometry, the error then being the invalid-state
    error; on the generator that [generate] leaves behind, for any
    arguments, every one of them returns. *)
Theorem queries_fail_iff_not_generated :
  (forall self,
     fails_iff_no_geometry (Samrat.geometry self)
       (Samrat.get_hour_line_coordinates self)
     /\ fails_iff_no_geometry (Samrat.geometry self)
       (Samrat.get_gnomon_vertices self)
     /\ fails_iff_no_geometry (Samrat.geometry self)
       (Samrat.get_dimensions_dict self)
     /\ fails_iff_no_geometry (Samrat.geometry self)
       (Samrat.get_bill_of_materials self))
  /\ (forall self sector,
     fails_iff_no_geometry (Rama.geometry self)
       (Rama.get_pillar_vertices self sector)
     /\ fails_iff_no_geometry (Rama.geometry self)
       (Rama.get_azimuth_markings self)
     /\ fails_iff_no_geometry (Rama.geometry self)
       (Rama.get_altitude_scale self sector)
     /\ fails_iff_no_geometry (Rama.geometry self)
       (Rama.get_dimensions_dict self)
     /\ fails_iff_no_geometry (Rama.geometry self)
       (Rama.get_bill_of_materials self))
  /\ (forall lat lon scl,
     Samrat.geometry (Samrat.init lat lon scl) = None
     /\ Rama.geometry (Rama.init lat lon scl) = None)
  /\ (forall self mt kerf ib, exists g self',
     Samrat.generate self mt kerf ib = Ok (g, self')
     /\ returns (Samrat.get_hour_line_coordinates self')
     /\ returns (Samrat.get_gnomon_vertices self')
     /\ returns (Samrat.get_dimensions_dict self')
     /\ returns (Samrat.get_bill_of_materials self'))
  /\ (forall self mt kerf ib sector, exists g self',
     Rama.generate self mt kerf ib = Ok (g, self')
     /\ returns (Rama.get_pillar_vertices self' sector)
     /\ returns (Rama.get_azimuth_markings self')
     /\ returns (Rama.get_altitude_scale self' sector)
     /\ returns (Rama.get_dimensions_dict self')
     /\ returns (Rama.get_bill_of_materials self')).
Proof.
  split; [| split; [| split; [| split]]].
  - intros self. repeat split;
      first [ apply samrat_hour_lines_guarded | apply samrat_vertices_guarded
            | apply samrat_dimensions_guarded | apply samrat_bom_guarded ].
  - intros self sector. repeat split;
      first [ apply rama_vertices_guarded | apply rama_markings_guarded
            | apply rama_altitude_scale_guarded
            | apply rama_dimensions_guarded | apply rama_bom_guarded ].
  - intros lat lon scl. split; reflexivity.
  - intros self mt kerf ib.
    destruct (samrat_generate_total self mt kerf ib) as (g & s & E & Hg & _).
    exists g, s. split; [exact E |].
    repeat split; eapply returns_of_guarded; try exact Hg;
      first [ apply samrat_hour_lines_guarded | apply samrat_vertices_guarded
            | apply samrat_dimensions_guarded | apply samrat_bom_guarded ].
  - intros self mt kerf ib sector.
    destruct (rama_generate_total self mt kerf ib) as (g & s & E & Hg & _).
    exists g, s. split; [exact E |].
    repeat split; eapply returns_of_guarded; try exact Hg;
      first [ apply rama_vertices_guarded | apply rama_markings_guarded
            | apply rama_altitude_scale_guarded
            | apply rama_dimensions_guarded | apply rama_bom_guarded ].
Qed.

(** ** The float remainder *)

Lemma fmod_unique (x m : R) (k : Z) :
  0 < m -> 0 <= x - m * IZR k < m -> fmod x m = x - m * IZR k.
Proof.
  intros Hm [Hlo Hhi]. unfold fmod.
  assert (Hq : x / m * m = x) by (field; lra).
  replace (Int_part (x / m)) with k; [reflexivity |].
  apply Int_part_spec. split.
  - apply Rmult_lt_reg_r with m; [exact Hm |]. nra.
  - apply Rmult_le_reg_r with m; [exact Hm |]. nra.
Qed.

Lemma fmod_range (x m : R) : 0 < m -> 0 <= fmod x m < m.
Proof.
  intros Hm. unfold fmod.
  destruct (base_Int_part (x / m)) as [Hlo Hhi].
  assert (Hq : x / m * m = x) by (field; lra).
  set (q := x / m) in *. set (n := IZR (Int_part q)) in *.
  split; nra.
Qed.

Lemma fmod_shift (x m : R) (k : Z) :
  0 < m -> fmod (x + m * IZR k) m = fmod x m.
Proof.
  intros Hm.
  rewrite (fmod_unique (x + m * IZR k) m (Int_part (x / m) + k)); [| exact Hm |].
  - unfold fmod. rewrite plus_IZR. lra.
  - rewrite plus_IZR. pose proof (fmod_range x m Hm) as Hr.
    unfold fmod in Hr. lra.
Qed.

Lemma fmod_small (x m : R) : 0 <= x < m -> fmod x m = x.
Proof.
  intros Hx. rewrite (fmod_unique x m 0); lra.
Qed.

(** ** Azimuth error of the validation service *)

Lemma az_diff_finite (p t : R) :
  az_diff (Fin p) t = Fin (Rabs (fmod (p - t + 540) 360 - 180)).
Proof.
  unfold az_diff, fsub. cbn [fneg fadd fmodf fabs].
  repeat f_equal; lra.
Qed.

(** The service computes the smallest angular difference of the spec. *)
Lemma az_diff_spec (p t : R) :
  az_diff (Fin p) t = Fin (spec_azimuth_error p t).
Proof.
  rewrite az_diff_finite. unfold spec_azimuth_error.
  replace (p - t + 540) with (p - t + 180 + 360 * IZR 1) by (simpl; lra).
  rewrite fmod_shift by lra. reflexivity.
Qed.

Lemma spec_azimuth_error_range (p t : R) :
  0 <= spec_azimuth_error p t <= 180.
Proof.
  unfold spec_azimuth_error.
  pose proof (fmod_range (p - t + 180) 360 ltac:(lra)) as Hr.
  split; [apply Rabs_pos |].
  apply Rabs_le. lra.
Qed.

Lemma spec_azimuth_error_359_2 : spec_azimuth_error 2 359 = 3.
Proof.
  unfold spec_azimuth_error.
  rewrite (fmod_unique (2 - 359 + 180) 360 (-1)) by lra.
  replace (2 - 359 + 180 - 360 * -1 - 180) with 3 by lra.
  apply Rabs_pos_eq. lra.
Qed.

Lemma az_diff_same (a : R) : az_diff (Fin a) a = Fin 0.
Proof.
  rewrite az_diff_finite.
  rewrite (fmod_unique (a - a + 540) 360 1) by lra.
  replace (a - a + 540 - 360 * 1 - 180) with 0 by lra.
  rewrite Rabs_R0. reflexivity.
Qed.

Lemma abs_diff_same (a : R) : fabs (fsub (Fin a) (Fin a)) = Fin 0.
Proof.
  unfold fsub. cbn [fneg fadd fabs].
  replace (a + - a) with 0 by lra. rewrite Rabs_R0. reflexivity.
Qed.

Lemma rms_zero : fsqrt (fadd (fmul (Fin 0) (Fin 0)) (fmul (Fin 0) (Fin 0))) = Fin 0.
Proof.
  cbn [fmul fadd fsqrt]. replace (0 * 0 + 0 * 0) with 0 by lra.
  rewrite sqrt_0. reflexivity.
Qed.

(** Evaluates dictionary lookups at literal keys. *)
Ltac eval_lookup :=
  repeat match goal with
  | |- context [lookup ?d ?k] =>
      let r := eval cbv [lookup String.eqb Ascii.eqb Bool.eqb] in (lookup d k) in
      progress change (lookup d k) with r
  end.

(** C2 on [validate_yantra_accuracy]: with the sun at azimuth 359 and an
    instrument reading of 2, the API reports an azimuth error of 357, where
    the validation service and the spec's formula give 3.  For all real
    azimuths the API error is the plain |predicted - true|, while the error
    of the validation service equals the spec's formula and lies in
    [0, 180]. *)
Theorem api_azimuth_error_unwrapped :
  let eph := fun (_ _ : R) (_ : datetime) (_ : R) =>
    {| altitude := 45; azimuth := 359; declination := 0; hour_angle := 0 |} in
  let gen := {| fixed_altitude := 45; fixed_azimuth := 2 |} in
  forall location yantra_type,
    (exists r,
       validate_yantra_accuracy eph gen location yantra_type = Ok r
       /\ azimuth_error r = Fin 357)
    /\ (exists report,
       compare_shadow eph gen (loc_latitude location) (loc_longitude location)
         (loc_elevation location) test_date = Ok report
       /\ lookup report "azimuth_error" = Some (VFloat 3))
    /\ spec_azimuth_error 2 359 = 3
    /\ (forall p t : R,
       api_azimuth_error (Fin p) t = Fin (Rabs (p - t))
       /\ az_diff (Fin p) t = Fin (spec_azimuth_error p t)
       /\ 0 <= spec_azimuth_error p t <= 180).
Proof.
  intros eph gen location yantra_type. split; [| split; [| split]].
  - unfold validate_yantra_accuracy, eph, gen.
    cbn [get_shadow_prediction fixed_generator bind altitude azimuth
         fixed_altitude fixed_azimuth].
    unfold get. eval_lookup. cbn [as_float bind].
    eexists. split; [reflexivity |].
    cbn [azimuth_error]. unfold api_azimuth_error, fsub.
    cbn [fneg fadd fabs]. f_equal.
    rewrite Rabs_left by lra. lra.
  - unfold compare_shadow, eph, gen.
    cbn [get_shadow_prediction fixed_generator bind altitude azimuth
         fixed_altitude fixed_azimuth].
    unfold get. eval_lookup. cbn [as_float bind].
    eexists. split; [reflexivity |].
    eval_lookup. rewrite az_diff_spec, spec_azimuth_error_359_2. reflexivity.
  - exact spec_azimuth_error_359_2.
  - intros p t. split; [| split].
    + unfold api_azimuth_error, fsub. cbn [fneg fadd fabs]. reflexivity.
    + apply az_diff_spec.
    + apply spec_azimuth_error_range.
Qed.

(** ** The equatorial dial under the validation service *)

(** The prediction of the equatorial dial carries no [altitude_reading] and
    no [azimuth_reading]. *)
Lemma samrat_prediction_no_readings self alt az d :
  Samrat.get_shadow_prediction self alt az = Ok d ->
  lookup d "altitude_reading" = None /\ lookup d "azimuth_reading" = None.
Proof.
  unfold Samrat.get_shadow_prediction, Samrat.require_geometry.
  destruct (Samrat.geometry self) as [g |]; cbn [bind]; [| discriminate].
  intros [= <-]. split; reflexivity.
Qed.

(** C3.  On an equatorial-dial generator that holds a geometry, the
    prediction has neither reading key, the service falls back to the true
    sun position for both, and it reports altitude, azimuth and rms errors
    all equal to zero, for every oracle, location and time. *)
Theorem samrat_compare_shadow_reports_zero
    (eph : R -> R -> datetime -> R -> SunPosition)
    (self : Samrat.SamratYantraGenerator) (g : Samrat.SamratGeometry)
    (latitude longitude elevation : R) (when : datetime) :
  Samrat.geometry self = Some g ->
  let truth := eph latitude longitude when elevation in
  (exists pred,
     Samrat.get_shadow_prediction self (altitude truth) (azimuth truth)
       = Ok pred
     /\ lookup pred "altitude_reading" = None
     /\ lookup pred "azimuth_reading" = None)
  /\ exists report,
     compare_shadow eph self latitude longitude elevation when = Ok report
     /\ lookup report "altitude_error" = Some (VFloat 0)
     /\ lookup report "azimuth_error" = Some (VFloat 0)
     /\ lookup report "rms_error" = Some (VFloat 0)
     /\ lookup report "predicted_altitude" = Some (VFloat (altitude truth))
     /\ lookup report "predicted_azimuth" = Some (VFloat (azimuth truth)).
Proof.
  intros Hg truth.
  destruct (returns_of_guarded _ _ _ Hg
              (samrat_prediction_guarded self (altitude truth) (azimuth truth)))
    as [pred Hpred].
  destruct (samrat_prediction_no_readings _ _ _ _ Hpred) as [Halt Haz].
  split; [exists pred; auto |].
  unfold compare_shadow. fold truth.
  cbn [get_shadow_prediction samrat_generator]. rewrite Hpred. cbn [bind].
  unfold get. rewrite Halt, Haz. cbn [as_float bind].
  rewrite abs_diff_same, az_diff_same, rms_zero.
  eexists. split; [reflexivity |]. repeat split; reflexivity.
Qed.

Lemma samrat_compare_shadow_reports_zero_witness :
  let eph := fun (_ _ : R) (_ : datetime) (_ : R) =>
    {| altitude := 60; azimuth := 180; declination := 23; hour_angle := 0 |} in
  let g :=
    {| Samrat.gnomon_height := 1; Samrat.gnomon_base_width := 0.15;
       Samrat.gnomon_thickness := 0.01; Samrat.quadrant_radius := 0.7;
       Samrat.hour_line_angles := [0]; Samrat.scale_divisions := 60;
       Samrat.base_length := 1.75; Samrat.base_width := 1.75;
       Samrat.base_height := 0.05 |} in
  let self :=
    {| Samrat.latitude := radians 26.9124;
       Samrat.longitude := radians 75.7873;
       Samrat.scale := 1; Samrat.geometry := Some g |} in
  Samrat.geometry self = Some g
  /\ exists report,
       compare_shadow eph self 26.9124 75.7873 0 test_date = Ok report
       /\ lookup report "rms_error" = Some (VFloat 0).
Proof.
  intros eph g self.
  assert (H : Samrat.geometry self = Some g) by reflexivity.
  split; [exact H |].
  destruct (samrat_compare_shadow_reports_zero eph self g 26.9124 75.7873 0
              test_date H) as (_ & report & E & _ & _ & Hr & _).
  exists report. split; [exact E | exact Hr].
Defined.

(** ** The alt-azimuth instrument under both validators *)

Lemma rama_prediction_readings self g alt az :
  Rama.geometry self = Some g ->
  exists pred,
    Rama.get_shadow_prediction self alt az = Ok pred
    /\ lookup pred "azimuth_reading" = Some (VFloat (fmod (az + 180) 360))
    /\ lookup pred "altitude_reading" = Some (VFloat alt).
Proof.
  intros Hg. unfold Rama.get_shadow_prediction, Rama.require_geometry.
  rewrite Hg. cbn [bind]. eexists. split; [reflexivity |].
  split; reflexivity.
Qed.

(** The reading is the sun azimuth plus 180 up to a whole number of turns. *)
Lemma antipode_offset (az : R) :
  exists k : Z, fmod (az + 180) 360 = az + 180 - 360 * IZR k
    /\ (-180 <= az < 540 -> k = 0%Z \/ k = 1%Z).
Proof.
  exists (Int_part ((az + 180) / 360)). split; [reflexivity |].
  intros Haz.
  destruct (Rlt_dec az 180) as [Hlt | Hge].
  - left. symmetry. apply Int_part_spec. simpl. lra.
  - right. symmetry. apply Int_part_spec. simpl. lra.
Qed.

Lemma service_error_antipode (az : R) :
  az_diff (Fin (fmod (az + 180) 360)) az = Fin 180.
Proof.
  rewrite az_diff_finite.
  destruct (antipode_offset az) as (k & Hk & _). rewrite Hk.
  rewrite (fmod_unique _ 360 (2 - k)) by (try rewrite minus_IZR; lra).
  rewrite minus_IZR. f_equal.
  replace (az + 180 - 360 * IZR k - az + 540 - 360 * (2 - IZR k) - 180)
    with (-180) by lra.
  rewrite Rabs_left by lra. lra.
Qed.

Lemma odd_half_turns (k : Z) : 180 <= Rabs (180 - 360 * IZR k).
Proof.
  destruct (Z_le_gt_dec k 0) as [Hle | Hgt].
  - apply IZR_le in Hle. rewrite Rabs_pos_eq; lra.
  - assert (H1 : (1 <= k)%Z) by lia. apply IZR_le in H1.
    rewrite Rabs_left; lra.
Qed.

Lemma api_error_antipode (az : R) :
  exists e : R,
    api_azimuth_error (Fin (fmod (az + 180) 360)) az = Fin e
    /\ 180 <= e
    /\ (-180 <= az < 540 -> e = 180).
Proof.
  destruct (antipode_offset az) as (k & Hk & Hrange).
  exists (Rabs (180 - 360 * IZR k)). split; [| split].
  - unfold api_azimuth_error, fsub. cbn [fneg fadd fabs].
    rewrite Hk. f_equal. f_equal. lra.
  - apply odd_half_turns.
  - intros Haz. destruct (Hrange Haz) as [-> | ->].
    + rewrite Rabs_pos_eq; simpl; lra.
    + rewrite Rabs_left; simpl; lra.
Qed.

Lemma accuracy_poor (e : R) : 1 <= e -> accuracy_of (fmax (Fin 0) (Fin e)) = POOR.
Proof.
  intros He. unfold fmax, accuracy_of. cbn [fltb].
  rewrite (ltb_true 0 e) by lra. cbn [fltb].
  rewrite !ltb_false by lra. reflexivity.
Qed.

(** C4.  On an alt-azimuth generator that holds a geometry the azimuth
    reading is (sunAzimuth + 180) mod 360.  The validation service then
    reports an azimuth error of exactly 180 for every sun azimuth; the API
    validator reports exactly 180 for every azimuth in [-180, 540), which
    contains the compass range [0, 360), and assigns tier poor always. *)
Theorem rama_azimuth_error_is_180
    (eph : R -> R -> datetime -> R -> SunPosition)
    (self : Rama.RamaYantraGenerator) (g : Rama.RamaGeometry) :
  Rama.geometry self = Some g ->
  (forall alt az, exists pred,
     Rama.get_shadow_prediction self alt az = Ok pred
     /\ lookup pred "azimuth_reading" = Some (VFloat (fmod (az + 180) 360)))
  /\ (forall latitude longitude elevation when, exists report,
     compare_shadow eph self latitude longitude elevation when = Ok report
     /\ lookup report "azimuth_error" = Some (VFloat 180))
  /\ (forall location yantra_type, exists r,
     validate_yantra_accuracy eph self location yantra_type = Ok r
     /\ accuracy_level r = POOR
     /\ (let az := azimuth (eph (loc_latitude location)
                     (loc_longitude location) test_date
                     (loc_elevation location)) in
         -180 <= az < 540 -> azimuth_error r = Fin 180)).
Proof.
  intros Hg. split; [| split].
  - intros alt az.
    destruct (rama_prediction_readings self g alt az Hg) as (pred & E & Haz & _).
    exists pred. auto.
  - intros latitude longitude elevation when.
    unfold compare_shadow.
    set (truth := eph latitude longitude when elevation).
    cbn [get_shadow_prediction rama_generator].
    destruct (rama_prediction_readings self g (altitude truth) (azimuth truth) Hg)
      as (pred & E & Haz & Halt).
    rewrite E. cbn [bind]. unfold get. rewrite Haz, Halt.
    cbn [as_float bind]. rewrite service_error_antipode.
    eexists. split; [reflexivity |]. reflexivity.
  - intros location yantra_type.
    unfold validate_yantra_accuracy.
    set (sun := eph (loc_latitude location) (loc_longitude location)
                  test_date (loc_elevation location)).
    cbn [get_shadow_prediction rama_generator].
    destruct (rama_prediction_readings self g (altitude sun) (azimuth sun) Hg)
      as (pred & E & Haz & Halt).
    rewrite E. cbn [bind]. unfold get. rewrite Haz, Halt.
    cbn [as_float bind]. rewrite abs_diff_same.
    destruct (api_error_antipode (azimuth sun)) as (e & He & Hge & Hin).
    rewrite He.
    destruct (as_float
                match lookup pred "hour_angle" with
                | Some v => v
                | None => VInt 0
                end) as [ha |] eqn:Hha.
    + cbn [bind]. eexists. split; [reflexivity |].
      cbn [accuracy_level azimuth_error]. split.
      * apply accuracy_poor. lra.
      * cbv zeta. intros Hrange. f_equal. apply Hin. exact Hrange.
    + exfalso. revert Hha. revert E.
      unfold Rama.get_shadow_prediction, Rama.require_geometry.
      rewrite Hg. cbn [bind]. intros [= <-]. discriminate.
Qed.

Lemma rama_azimuth_error_is_180_witness :
  let eph := fun (_ _ : R) (_ : datetime) (_ : R) =>
    {| altitude := 60; azimuth := 200; declination := 23; hour_angle := 0 |} in
  let g :=
    {| Rama.pillar_radius := 1; Rama.pillar_height := 2;
       Rama.pillar_separation := 0.5; Rama.wall_thickness := 0.1;
       Rama.azimuth_divisions := 360; Rama.altitude_scale_height := 2;
       Rama.central_platform_radius := 0.2; Rama.gnomon_height := 0.6;
       Rama.base_diameter := 3.25; Rama.base_height := 0.06 |} in
  let self :=
    {| Rama.latitude := radians 26.9124; Rama.longitude := radians 75.7873;
       Rama.scale := 1; Rama.geometry := Some g |} in
  let location :=
    {| loc_latitude := 26.9124; loc_longitude := 75.7873; loc_elevation := 0;
       loc_timezone := "UTC"; loc_name := None |} in
  Rama.geometry self = Some g
  /\ exists r,
       validate_yantra_accuracy eph self location RAMA = Ok r
       /\ accuracy_level r = POOR
       /\ azimuth_error r = Fin 180.
Proof.
  intros eph g self location.
  assert (H : Rama.geometry self = Some g) by reflexivity.
  split; [exact H |].
  destruct (proj2 (proj2 (rama_azimuth_error_is_180 eph self g H)) location RAMA)
    as (r & E & Hp & Ha).
  exists r. split; [exact E |]. split; [exact Hp |].
  apply Ha. unfold eph. cbn [azimuth]. lra.
Defined.

(** ** Readability of a prediction *)

(** C7.  On a generator that holds a geometry the prediction is returned and
    its [readable] flag is true exactly when 0 < altitude < 85 for the
    equatorial dial, and exactly when 0 < altitude < 85 and
    gnomonHeight / tan(altitude) <= pillarRadius - wallThickness for the
    alt-azimuth instrument; at altitude 0 both flags are false. *)
Theorem readable_iff :
  (forall self g alt az,
     Samrat.geometry self = Some g ->
     exists pred b,
       Samrat.get_shadow_prediction self alt az = Ok pred
       /\ lookup pred "readable" = Some (VBool b)
       /\ (b = true <-> 0 < alt < 85)
       /\ (alt = 0 -> b = false))
  /\ (forall self g alt az,
     Rama.geometry self = Some g ->
     exists pred b,
       Rama.get_shadow_prediction self alt az = Ok pred
       /\ lookup pred "readable" = Some (VBool b)
       /\ (b = true <->
           0 < alt < 85
           /\ Rama.gnomon_height g / tan (radians alt)
              <= Rama.pillar_radius g - Rama.wall_thickness g)
       /\ (alt = 0 -> b = false)).
Proof.
  split; intros self g alt az Hg.
  - unfold Samrat.get_shadow_prediction, Samrat.require_geometry.
    rewrite Hg. cbn [bind]. do 2 eexists.
    split; [reflexivity |]. split; [reflexivity |]. split.
    + rewrite andb_true_iff, !ltb_iff. tauto.
    + intros ->. rewrite (ltb_false 0 0) by lra. reflexivity.
  - unfold Rama.get_shadow_prediction, Rama.require_geometry.
    rewrite Hg. cbn [bind]. do 2 eexists.
    split; [reflexivity |]. split; [reflexivity |]. split.
    + rewrite !andb_true_iff, !ltb_iff. split.
      * intros [[H0 H85] Hr]. rewrite (ltb_true 0 alt) in Hr by exact H0.
        cbn [fleb] in Hr. apply leb_iff in Hr. tauto.
      * intros [[H0 H85] Hr]. rewrite (ltb_true 0 alt) by exact H0.
        cbn [fleb]. rewrite leb_iff. tauto.
    + intros ->. rewrite (ltb_false 0 0) by lra. reflexivity.
Qed.

Lemma readable_iff_witness :
  let g :=
    {| Samrat.gnomon_height := 1; Samrat.gnomon_base_width := 0.15;
       Samrat.gnomon_thickness := 0.01; Samrat.quadrant_radius := 0.7;
       Samrat.hour_line_angles := [0]; Samrat.scale_divisions := 60;
       Samrat.base_length := 1.75; Samrat.base_width := 1.75;
       Samrat.base_height := 0.05 |} in
  let self :=
    {| Samrat.latitude := radians 26.9124;
       Samrat.longitude := radians 75.7873;
       Samrat.scale := 1; Samrat.geometry := Some g |} in
  Samrat.geometry self = Some g
  /\ (exists pred,
        Samrat.get_shadow_prediction self 30 180 = Ok pred
        /\ lookup pred "readable" = Some (VBool true))
  /\ (exists pred,
        Samrat.get_shadow_prediction self 0 180 = Ok pred
        /\ lookup pred "readable" = Some (VBool false)).
Proof.
  intros g self.
  assert (H : Samrat.geometry self = Some g) by reflexivity.
  split; [exact H |]. split.
  - destruct (proj1 readable_iff self g 30 180 H) as (pred & b & E & L & Hiff & _).
    exists pred. split; [exact E |]. rewrite L.
    replace b with true; [reflexivity |]. symmetry. apply Hiff. lra.
  - destruct (proj1 readable_iff self g 0 180 H) as (pred & b & E & L & _ & H0).
    exists pred. split; [exact E |]. rewrite L.
    rewrite (H0 eq_refl). reflexivity.
Defined.

(** ** The hour angle of the equatorial dial *)

Lemma atan2_right (y x : R) : 0 < x -> atan2 y x = atan (y / x).
Proof.
  intros Hx. unfold atan2. destruct (Rlt_dec 0 x); [reflexivity | contradiction].
Qed.

Lemma atan2_upper_left (y x : R) :
  x < 0 -> 0 <= y -> atan2 y x = atan (y / x) + PI.
Proof.
  intros Hx Hy. unfold atan2.
  destruct (Rlt_dec 0 x); [lra |].
  destruct (Rlt_dec x 0); [| contradiction].
  destruct (Rle_dec 0 y); [reflexivity | contradiction].
Qed.

Lemma radians_0 : radians 0 = 0.
Proof. unfold radians. lra. Qed.

Lemma radians_45 : radians 45 = PI / 4.
Proof. unfold radians. lra. Qed.

Lemma radians_90 : radians 90 = PI / 2.
Proof. unfold radians. lra. Qed.

Lemma radians_degrees (x : R) : radians (degrees x) = x.
Proof. unfold radians, degrees. field. apply PI_neq0. Qed.

Lemma degrees_lt (x y : R) : x < y -> degrees x < degrees y.
Proof.
  intros Hlt. unfold degrees. apply Rmult_lt_compat_r; [| exact Hlt].
  apply Rdiv_lt_0_compat; [lra | apply PI_RGT_0].
Qed.

Lemma degrees_quarter_turn : degrees (PI / 2) = 90.
Proof. unfold degrees. field. apply PI_neq0. Qed.

(** The hour angle the source computes at latitude 0, altitude 45 and
    azimuth 90. *)
Lemma hour_angle_at_equator (lon scl : R) (geo : option Samrat.SamratGeometry) :
  Samrat.hour_angle_deg
    {| Samrat.latitude := radians 0; Samrat.longitude := lon;
       Samrat.scale := scl; Samrat.geometry := geo |} 45 90
  = degrees (atan (sqrt 2)).
Proof.
  unfold Samrat.hour_angle_deg. cbn [Samrat.latitude].
  rewrite radians_0, radians_45, radians_90.
  rewrite sin_PI2, sin_PI4, cos_PI4, sin_0, cos_0.
  pose proof sqrt2_neq_0 as Hs.
  replace (1 / (1 / sqrt 2)) with (sqrt 2) by (field; exact Hs).
  replace ((1 / sqrt 2 - 0) / (1 * (1 / sqrt 2))) with 1 by (field; exact Hs).
  rewrite atan2_right by lra.
  replace (sqrt 2 / 1) with (sqrt 2) by lra. reflexivity.
Qed.

Lemma spec_hour_angle_at_equator : spec_hour_angle_deg 0 45 90 = 135.
Proof.
  unfold spec_hour_angle_deg.
  rewrite radians_0, radians_45, radians_90.
  rewrite sin_PI2, cos_PI2, tan_PI4, sin_0, cos_0.
  rewrite atan2_upper_left by lra.
  replace (1 / (0 * 0 - 1 * 1)) with (Ropp 1) by lra.
  rewrite atan_opp, atan_1. unfold degrees. field. apply PI_neq0.
Qed.

(** C1 at latitude 0, altitude 45, azimuth 90.  The source computes the hour
    angle atan(sqrt 2), below 90 degrees, with tangent sqrt 2; the identity
    of the claim (which the source comment also cites) has right-hand side
    -1 there and resolves to 135 degrees. *)
Theorem hour_angle_differs_from_identity :
  let lat := 0 in
  let alt := 45 in
  let az := 90 in
  forall lon scl mt kerf ib, exists g self' pred ha,
    Samrat.generate (Samrat.init lat lon scl) mt kerf ib = Ok (g, self')
    /\ Samrat.get_shadow_prediction self' alt az = Ok pred
    /\ lookup pred "hour_angle" = Some (VFloat (Fin ha))
    /\ ha = Samrat.hour_angle_deg self' alt az
    /\ tan (radians ha) = sqrt 2
    /\ sin (radians az)
       / (cos (radians az) * sin (radians lat)
          - tan (radians alt) * cos (radians lat)) = -1
    /\ ha < 90
    /\ spec_hour_angle_deg lat alt az = 135
    /\ ha <> spec_hour_angle_deg lat alt az.
Proof.
  intros lat alt az lon scl mt kerf ib.
  unfold Samrat.generate, Samrat.init.
  cbn [Samrat.latitude Samrat.longitude Samrat.scale].
  do 4 eexists. split; [reflexivity |].
  unfold Samrat.get_shadow_prediction, Samrat.require_geometry.
  cbn [Samrat.geometry bind].
  split; [reflexivity |]. split; [reflexivity |]. split; [reflexivity |].
  unfold lat, alt, az. rewrite hour_angle_at_equator.
  assert (Hlt : degrees (atan (sqrt 2)) < 90).
  { rewrite <- degrees_quarter_turn. apply degrees_lt. apply atan_bound. }
  split; [rewrite radians_degrees; apply tan_atan |].
  split.
  { rewrite radians_0, radians_45, radians_90.
    rewrite sin_PI2, cos_PI2, tan_PI4, sin_0, cos_0. lra. }
  split; [exact Hlt |].
  split; [exact spec_hour_angle_at_equator |].
  rewrite spec_hour_angle_at_equator. lra.
Qed.

(** ** Concrete runs of the guarded queries and of the scale check *)

Lemma generate_never_raises_witness :
  -1 <= 0
  /\ request_scale_valid (-1) = false
  /\ exists g self',
       Samrat.generate (Samrat.init 26.9124 75.7873 (-1)) 0.01 0 true
         = Ok (g, self')
       /\ Samrat.gnomon_height g = -1.
Proof.
  assert (H : -1 <= 0) by lra.
  split; [exact H |]. split.
  - exact (proj2 (proj2 generate_never_raises) (-1) H).
  - destruct (proj1 generate_never_raises
                (Samrat.init 26.9124 75.7873 (-1)) 0.01 0 true)
      as (g & s & E & _ & Hh).
    exists g, s. split; [exact E | exact Hh].
Defined.

Lemma queries_fail_iff_not_generated_witness :
  Samrat.geometry (Samrat.init 26.9124 75.7873 1) = None
  /\ invalid_state
       (Samrat.get_hour_line_coordinates (Samrat.init 26.9124 75.7873 1))
  /\ invalid_state
       (Rama.get_pillar_vertices (Rama.init 26.9124 75.7873 1) "A").
Proof.
  destruct queries_fail_iff_not_generated as (HS & HR & Hinit & _).
  destruct (Hinit 26.9124 75.7873 1) as [Hs Hr].
  split; [exact Hs |]. split.
  - destruct (HS (Samrat.init 26.9124 75.7873 1)) as ((Hiff & Hinv & _) & _).
    apply Hinv, Hiff, Hs.
  - destruct (HR (Rama.init 26.9124 75.7873 1) "A") as ((Hiff & Hinv & _) & _).
    apply Hinv, Hiff, Hr.
Defined.

(** ** The scenarios on binary64 *)

Module Binary64Facts.
Import PrimFloat Binary64.
#[local] Set Warnings "-inexact-float".
#[local] Open Scope float_scope.

(** The equatorial-dial scenario yields the very floats 1.0, 0.15 and 0.7
    and the thirteen hour angles. *)
Example binary64_samrat_run :
  let g := samrat_generate 1.0 0.01 0.0 true in
  s_gnomon_height g = 1.0
  /\ s_gnomon_base_width g = 0.15
  /\ s_quadrant_radius g = 0.7
  /\ s_hour_line_angles g
     = [-90; -75; -60; -45; -30; -15; 0; 15; 30; 45; 60; 75; 90].
Proof. vm_compute. repeat split. Qed.

(** The alt-azimuth scenario with the request default 0.01 as material
    thickness yields the floats 1.0, 2.0, 0.5, 0.1 and 0.6; with the default
    0.15 of [generate] the wall thickness is 0.15. *)
Example binary64_rama_run :
  let g := rama_generate 1.0 0.01 0.0 true in
  r_pillar_radius g = 1.0
  /\ r_pillar_height g = 2.0
  /\ r_pillar_separation g = 0.5
  /\ r_wall_thickness g = 0.1
  /\ r_gnomon_height g = 0.6
  /\ r_wall_thickness (rama_generate 1.0 0.15 0.0 true) = 0.15.
Proof. vm_compute. repeat split. Qed.

End Binary64Facts.

(** * Further properties of the generators and validators *)

(** ** What a prediction contains *)

Lemma samrat_prediction_eq self g alt az :
  Samrat.geometry self = Some g ->
  Samrat.get_shadow_prediction self alt az
  = Ok [ ("sun_altitude", VFloat alt);
         ("sun_azimuth", VFloat az);
         ("shadow_azimuth", VFloat (fmod (az + 180) 360));
         ("hour_angle", VFloat (Samrat.hour_angle_deg self alt az));
         ("local_solar_time",
            VFloat (12.0 + Samrat.hour_angle_deg self alt az / 15.0));
         ("quadrant",
            VStr (if ltb (Samrat.hour_angle_deg self alt az) 0
                  then "east" else "west"));
         ("shadow_length",
            VFloat (fmin (if ltb 0 alt
                          then Fin (Samrat.gnomon_height g / tan (radians alt))
                          else PosInf)
                         (Samrat.quadrant_radius g)));
         ("readable", VBool (ltb 0 alt && ltb alt 85)) ].
Proof.
  intros Hg. unfold Samrat.get_shadow_prediction, Samrat.require_geometry.
  rewrite Hg. reflexivity.
Qed.

Lemma rama_prediction_eq self g alt az :
  Rama.geometry self = Some g ->
  Rama.get_shadow_prediction self alt az
  = let shadow_azimuth := fmod (az + 180) 360 in
    let shadow_length_floor :=
      if ltb 0 alt
      then Fin (Rama.gnomon_height g / tan (radians alt)) else PosInf in
    let max_floor_radius := Rama.pillar_radius g - Rama.wall_thickness g in
    Ok [ ("sun_altitude", VFloat alt);
         ("sun_azimuth", VFloat az);
         ("shadow_azimuth", VFloat shadow_azimuth);
         ("shadow_length", VFloat (fmin shadow_length_floor max_floor_radius));
         ("shadow_tip",
            VTuple [VFloat (fmul shadow_length_floor
                              (sin (radians shadow_azimuth)));
                    VFloat (fmul shadow_length_floor
                              (cos (radians shadow_azimuth)));
                    VInt 0]);
         ("wall_height",
            VFloat (Rmin (Rama.gnomon_height g * tan (radians alt))
                         (Rama.pillar_height g)));
         ("sector", VStr (if Rama.in_sector_A shadow_azimuth then "A" else "B"));
         ("readable",
            VBool (ltb 0 alt && ltb alt 85
                   && fleb shadow_length_floor max_floor_radius));
         ("azimuth_reading", VFloat shadow_azimuth);
         ("altitude_reading", VFloat alt) ].
Proof.
  intros Hg. unfold Rama.get_shadow_prediction, Rama.require_geometry.
  rewrite Hg. reflexivity.
Qed.

(** ** The shadow azimuth *)

Lemma antipode_twice (az : R) :
  fmod (fmod (az + 180) 360 + 180) 360 = fmod az 360.
Proof.
  destruct (antipode_offset az) as (k & Hk & _). rewrite Hk.
  replace (az + 180 - 360 * IZR k + 180) with (az + 360 * IZR (1 - k))
    by (rewrite minus_IZR; lra).
  apply fmod_shift. lra.
Qed.

Lemma antipode_of_opposite (az : R) :
  fmod (az + 180 + 180) 360 = fmod az 360.
Proof.
  replace (az + 180 + 180) with (az + 360 * IZR 1) by (simpl; lra).
  apply fmod_shift. lra.
Qed.

(** X1.  Both generators report a shadow azimuth in [0, 360) that is the
    antipode of the sun azimuth: turning the sun by 180 degrees turns the
    reported shadow by 180 degrees modulo 360, and for a sun azimuth already
    in [0, 360) the shadow of the opposite sun is the sun azimuth itself. *)
Theorem shadow_azimuth_antipodal :
  (forall self g alt az,
     Samrat.geometry self = Some g ->
     exists p1 p2 s1 s2,
       Samrat.get_shadow_prediction self alt az = Ok p1
       /\ Samrat.get_shadow_prediction self alt (az + 180) = Ok p2
       /\ lookup p1 "shadow_azimuth" = Some (VFloat (Fin s1))
       /\ lookup p2 "shadow_azimuth" = Some (VFloat (Fin s2))
       /\ 0 <= s1 < 360
       /\ s2 = fmod (s1 + 180) 360
       /\ (0 <= az < 360 -> s2 = az))
  /\ (forall self g alt az,
     Rama.geometry self = Some g ->
     exists p1 p2 s1 s2,
       Rama.get_shadow_prediction self alt az = Ok p1
       /\ Rama.get_shadow_prediction self alt (az + 180) = Ok p2
       /\ lookup p1 "shadow_azimuth" = Some (VFloat (Fin s1))
       /\ lookup p2 "shadow_azimuth" = Some (VFloat (Fin s2))
       /\ 0 <= s1 < 360
       /\ s2 = fmod (s1 + 180) 360
       /\ (0 <= az < 360 -> s2 = az)).
Proof.
  split; intros self g alt az Hg.
  - rewrite !(samrat_prediction_eq self g) by exact Hg.
    do 4 eexists. split; [reflexivity |]. split; [reflexivity |].
    split; [reflexivity |]. split; [reflexivity |].
    split; [apply fmod_range; lra |].
    split.
    + rewrite antipode_twice. apply antipode_of_opposite.
    + intros Haz. rewrite antipode_of_opposite. apply fmod_small. exact Haz.
  - rewrite !(rama_prediction_eq self g) by exact Hg. cbv zeta.
    do 4 eexists. split; [reflexivity |]. split; [reflexivity |].
    split; [reflexivity |]. split; [reflexivity |].
    split; [apply fmod_range; lra |].
    split.
    + rewrite antipode_twice. apply antipode_of_opposite.
    + intros Haz. rewrite antipode_of_opposite. apply fmod_small. exact Haz.
Qed.

(** The generators of the concrete runs are what [generate] produces. *)
Lemma jaipur_samrat_generated :
  Samrat.generate (Samrat.init 26.9124 75.7873 1) 0.01 0 true
  = Ok (jaipur_samrat_geometry, jaipur_samrat).
Proof.
  unfold Samrat.generate, jaipur_samrat, jaipur_samrat_geometry, Samrat.init.
  cbn [Samrat.scale Samrat.latitude Samrat.longitude].
  rewrite range_hours. rewrite (ltb_false 0 0) by lra. cbn [map].
  assert (Hg : forall a b c d e f h i j a' b' c' d' e' h' i' j',
    a = a' -> b = b' -> c = c' -> d = d' -> e = e' -> h = h' -> i = i' ->
    j = j' ->
    Samrat.Build_SamratGeometry a b c d e f h i j
    = Samrat.Build_SamratGeometry a' b' c' d' e' f h' i' j').
  { intros; subst; reflexivity. }
  assert (E : Samrat.Build_SamratGeometry 1 (1 * 0.15) 0.01 (1 * 0.7)
      [-6 * 15.0; -5 * 15.0; -4 * 15.0; -3 * 15.0; -2 * 15.0; -1 * 15.0;
       0 * 15.0; 1 * 15.0; 2 * 15.0; 3 * 15.0; 4 * 15.0; 5 * 15.0; 6 * 15.0]
      60 (1 * 0.7 * 2.5) (1 * 0.7 * 2.5) (1 * 0.05)
    = Samrat.Build_SamratGeometry 1 0.15 0.01 0.7
      [-90; -75; -60; -45; -30; -15; 0; 15; 30; 45; 60; 75; 90]
      60 1.75 1.75 0.05).
  { apply Hg; try lra. repeat (f_equal; [lra |]). f_equal. lra. }
  rewrite E. reflexivity.
Qed.

Lemma jaipur_rama_generated :
  Rama.generate (Rama.init 26.9124 75.7873 1) 0.01 0 true
  = Ok (jaipur_rama_geometry, jaipur_rama).
Proof.
  unfold Rama.generate, jaipur_rama, jaipur_rama_geometry, Rama.init.
  cbn [Rama.scale Rama.latitude Rama.longitude].
  rewrite (ltb_false 0 0) by lra. rewrite Rmax_right by lra.
  assert (E : Rama.Build_RamaGeometry 1 (1 * 2.0) (1 * 0.5) (1 * 0.1) 360
      (1 * 2.0) (1 * 0.5 * 0.4) (1 * 2.0 * 0.3)
      ((1 * 2 + 1 * 0.5) * 1.3) (1 * 2.0 * 0.03)
    = Rama.Build_RamaGeometry 1 2 0.5 0.1 360 2 0.2 0.6 3.25 0.06).
  { f_equal; lra. }
  rewrite E. reflexivity.
Qed.

Lemma shadow_azimuth_antipodal_witness :
  Samrat.geometry jaipur_samrat = Some jaipur_samrat_geometry
  /\ 0 <= 90 < 360
  /\ exists p2,
       Samrat.get_shadow_prediction jaipur_samrat 30 (90 + 180) = Ok p2
       /\ lookup p2 "shadow_azimuth" = Some (VFloat 90).
Proof.
  assert (Hg : Samrat.geometry jaipur_samrat = Some jaipur_samrat_geometry)
    by reflexivity.
  assert (Haz : 0 <= 90 < 360) by lra.
  split; [exact Hg |]. split; [exact Haz |].
  destruct (proj1 shadow_azimuth_antipodal jaipur_samrat jaipur_samrat_geometry
              30 90 Hg) as (p1 & p2 & s1 & s2 & _ & E2 & _ & L2 & _ & _ & Hs).
  exists p2. split; [exact E2 |]. rewrite L2, (Hs Haz). reflexivity.
Defined.

(** ** Shadow length, shadow tip and sector *)

Lemma tan_pos_degrees (alt : R) : 0 < alt < 90 -> 0 < tan (radians alt).
Proof.
  intros [H0 H90]. pose proof PI_RGT_0 as Hpi. unfold radians.
  apply tan_gt_0; nra.
Qed.

Lemma fmin_fin (x q : R) : fmin (Fin x) (Fin q) = Fin (Rmin x q).
Proof.
  unfold fmin. cbn [fltb]. unfold ltb, Rmin.
  destruct (Rlt_dec q x), (Rle_dec x q); try reflexivity; try lra;
    f_equal; lra.
Qed.

Lemma fmin_inf (q : R) : fmin PosInf (Fin q) = Fin q.
Proof. reflexivity. Qed.

(** X2.  The shadow length reported by the equatorial dial is finite and
    never exceeds the quadrant radius: it is the smaller of
    gnomonHeight / tan(altitude) and the radius when the sun is above the
    horizon, and the radius itself (not infinity) otherwise. *)
Theorem samrat_shadow_length_clamped self g alt az :
  Samrat.geometry self = Some g ->
  exists pred len,
    Samrat.get_shadow_prediction self alt az = Ok pred
    /\ lookup pred "shadow_length" = Some (VFloat (Fin len))
    /\ len <= Samrat.quadrant_radius g
    /\ (0 < alt ->
        len = Rmin (Samrat.gnomon_height g / tan (radians alt))
                   (Samrat.quadrant_radius g))
    /\ (alt <= 0 -> len = Samrat.quadrant_radius g).
Proof.
  intros Hg. rewrite (samrat_prediction_eq self g) by exact Hg.
  destruct (Rlt_dec 0 alt) as [Hpos | Hneg].
  - rewrite (ltb_true 0 alt) by exact Hpos. rewrite fmin_fin.
    do 2 eexists. split; [reflexivity |]. split; [reflexivity |].
    split; [apply Rmin_r |]. split; [reflexivity | lra].
  - rewrite (ltb_false 0 alt) by lra. rewrite fmin_inf.
    do 2 eexists. split; [reflexivity |]. split; [reflexivity |].
    split; [lra |]. split; [lra | reflexivity].
Qed.

Lemma samrat_shadow_length_clamped_witness :
  Samrat.geometry jaipur_samrat = Some jaipur_samrat_geometry
  /\ exists pred,
       Samrat.get_shadow_prediction jaipur_samrat (-5) 200 = Ok pred
       /\ lookup pred "shadow_length" = Some (VFloat 0.7).
Proof.
  assert (Hg : Samrat.geometry jaipur_samrat = Some jaipur_samrat_geometry)
    by reflexivity.
  split; [exact Hg |].
  destruct (samrat_shadow_length_clamped jaipur_samrat jaipur_samrat_geometry
              (-5) 200 Hg) as (pred & len & E & L & _ & _ & Hlow).
  exists pred. split; [exact E |]. rewrite L, Hlow by lra. reflexivity.
Defined.

(** X3.  For the alt-azimuth instrument with the sun above the horizon the
    shadow tip is finite and lies at distance gnomonHeight / tan(altitude)
    from the gnomon; when the reading is readable the reported shadow length
    is that distance, unclamped. *)
Theorem rama_shadow_tip_distance self g alt az :
  Rama.geometry self = Some g ->
  0 < alt ->
  let len := Rama.gnomon_height g / tan (radians alt) in
  exists pred x y,
    Rama.get_shadow_prediction self alt az = Ok pred
    /\ lookup pred "shadow_tip"
       = Some (VTuple [VFloat (Fin x); VFloat (Fin y); VInt 0])
    /\ x * x + y * y = len * len
    /\ (lookup pred "readable" = Some (VBool true) ->
        lookup pred "shadow_length" = Some (VFloat (Fin len))).
Proof.
  intros Hg Hpos len. rewrite (rama_prediction_eq self g) by exact Hg.
  cbv zeta. rewrite (ltb_true 0 alt) by exact Hpos. cbn [fmul fleb].
  rewrite fmin_fin. fold len.
  do 3 eexists. split; [reflexivity |]. split; [reflexivity |]. split.
  - pose proof (sin2_cos2 (radians (fmod (az + 180) 360))) as Hsc.
    unfold Rsqr in Hsc. nra.
  - intros Hr. eval_lookup.
    cbv [lookup String.eqb Ascii.eqb Bool.eqb] in Hr.
    injection Hr as Hb.
    apply andb_true_iff in Hb. destruct Hb as [_ Hle].
    apply leb_iff in Hle. rewrite Rmin_left by exact Hle. reflexivity.
Qed.

Lemma rama_shadow_tip_distance_witness :
  Rama.geometry jaipur_rama = Some jaipur_rama_geometry
  /\ 0 < 45
  /\ exists pred x y,
       Rama.get_shadow_prediction jaipur_rama 45 180 = Ok pred
       /\ lookup pred "shadow_tip"
          = Some (VTuple [VFloat (Fin x); VFloat (Fin y); VInt 0])
       /\ x * x + y * y = 0.36.
Proof.
  assert (Hg : Rama.geometry jaipur_rama = Some jaipur_rama_geometry)
    by reflexivity.
  assert (Hpos : 0 < 45) by lra.
  split; [exact Hg |]. split; [exact Hpos |].
  destruct (rama_shadow_tip_distance jaipur_rama jaipur_rama_geometry
              45 180 Hg Hpos) as (pred & x & y & E & L & Hd & _).
  exists pred, x, y. split; [exact E |]. split; [exact L |].
  rewrite Hd. cbn [Rama.gnomon_height jaipur_rama_geometry].
  rewrite radians_45, tan_PI4. lra.
Defined.

(** X4.  With the sun on or below the horizon the alt-azimuth prediction
    keeps an infinite floor shadow internally: neither coordinate of the
    reported shadow tip is a finite number, the reported length is the floor
    radius pillarRadius - wallThickness, and the reading is unreadable. *)
Theorem rama_horizon_shadow self g alt az :
  Rama.geometry self = Some g ->
  alt <= 0 ->
  exists pred tx ty,
    Rama.get_shadow_prediction self alt az = Ok pred
    /\ lookup pred "shadow_tip" = Some (VTuple [VFloat tx; VFloat ty; VInt 0])
    /\ (forall x, tx <> Fin x)
    /\ (forall y, ty <> Fin y)
    /\ lookup pred "shadow_length"
       = Some (VFloat (Fin (Rama.pillar_radius g - Rama.wall_thickness g)))
    /\ lookup pred "readable" = Some (VBool false).
Proof.
  intros Hg Hlow. rewrite (rama_prediction_eq self g) by exact Hg.
  cbv zeta. rewrite (ltb_false 0 alt) by exact Hlow.
  do 3 eexists. split; [reflexivity |]. split; [reflexivity |].
  split; [| split; [| split; reflexivity]].
  - intros x. cbn [fmul].
    destruct (Rlt_dec 0 _); [discriminate |].
    destruct (Rlt_dec _ 0); discriminate.
  - intros y. cbn [fmul].
    destruct (Rlt_dec 0 _); [discriminate |].
    destruct (Rlt_dec _ 0); discriminate.
Qed.

Lemma rama_horizon_shadow_witness :
  Rama.geometry jaipur_rama = Some jaipur_rama_geometry
  /\ 0 <= 0
  /\ exists pred,
       Rama.get_shadow_prediction jaipur_rama 0 90 = Ok pred
       /\ lookup pred "shadow_length" = Some (VFloat (Fin (1 - 0.1))).
Proof.
  assert (Hg : Rama.geometry jaipur_rama = Some jaipur_rama_geometry)
    by reflexivity.
  assert (Hlow : 0 <= 0) by lra.
  split; [exact Hg |]. split; [exact Hlow |].
  destruct (rama_horizon_shadow jaipur_rama jaipur_rama_geometry 0 90 Hg Hlow)
    as (pred & tx & ty & E & _ & _ & _ & L & _).
  exists pred. split; [exact E | exact L].
Defined.

Lemma in_sector_A_iff (a : R) :
  Rama.in_sector_A a = true <-> (45 <= a <= 135) \/ (225 <= a <= 315).
Proof.
  unfold Rama.in_sector_A.
  rewrite orb_true_iff, !andb_true_iff, !leb_iff. tauto.
Qed.

Lemma in_sector_A_antipode (az : R) :
  0 <= az < 360 ->
  Rama.in_sector_A (fmod (az + 180) 360) = Rama.in_sector_A az.
Proof.
  intros Haz. apply eq_true_iff_eq. rewrite !in_sector_A_iff.
  destruct (Rlt_dec az 180) as [Hlt | Hge].
  - rewrite (fmod_unique (az + 180) 360 0) by lra. lra.
  - rewrite (fmod_unique (az + 180) 360 1) by lra. lra.
Qed.

(** X5.  The sector rule is symmetric under a half turn: for a sun azimuth
    in [0, 360) the alt-azimuth prediction classifies the shadow into the
    sector in which the sun azimuth itself lies. *)
Theorem rama_shadow_sector_is_sun_sector self g alt az :
  Rama.geometry self = Some g ->
  0 <= az < 360 ->
  exists pred,
    Rama.get_shadow_prediction self alt az = Ok pred
    /\ lookup pred "sector"
       = Some (VStr (if Rama.in_sector_A az then "A" else "B")).
Proof.
  intros Hg Haz. rewrite (rama_prediction_eq self g) by exact Hg. cbv zeta.
  eexists. split; [reflexivity |]. eval_lookup.
  rewrite in_sector_A_antipode by exact Haz. reflexivity.
Qed.

Lemma rama_shadow_sector_is_sun_sector_witness :
  Rama.geometry jaipur_rama = Some jaipur_rama_geometry
  /\ 0 <= 90 < 360
  /\ exists pred,
       Rama.get_shadow_prediction jaipur_rama 30 90 = Ok pred
       /\ lookup pred "sector" = Some (VStr "A").
Proof.
  assert (Hg : Rama.geometry jaipur_rama = Some jaipur_rama_geometry)
    by reflexivity.
  assert (Haz : 0 <= 90 < 360) by lra.
  split; [exact Hg |]. split; [exact Haz |].
  destruct (rama_shadow_sector_is_sun_sector jaipur_rama jaipur_rama_geometry
              30 90 Hg Haz) as (pred & E & L).
  exists pred. split; [exact E |]. rewrite L.
  replace (Rama.in_sector_A 90) with true; [reflexivity |].
  symmetry. apply in_sector_A_iff. lra.
Defined.

(** ** Invariants of the generated geometry *)

(** X6.  The kerf cancels in the floor radius of the alt-azimuth
    instrument: pillarRadius - wallThickness is
    scale - max(materialThickness, 0.1 * scale) whatever the kerf, so the
    kerf changes neither where markings end nor which readings are
    readable. *)
Theorem rama_floor_radius_ignores_kerf self mt kerf ib :
  exists g self',
    Rama.generate self mt kerf ib = Ok (g, self')
    /\ Rama.pillar_radius g - Rama.wall_thickness g
       = Rama.scale self - Rmax mt (Rama.scale self * 0.1).
Proof.
  unfold Rama.generate. do 2 eexists. split; [reflexivity |].
  cbn [Rama.pillar_radius Rama.wall_thickness].
  destruct (ltb 0 kerf); lra.
Qed.

(** X7.  When the material thickness is at least the (positive) scale the
    floor radius is not positive, and the alt-azimuth instrument reports
    every sun position as unreadable. *)
Theorem rama_thick_walls_never_readable lat lon scl mt kerf ib alt az :
  0 < scl -> scl <= mt ->
  exists g self' pred,
    Rama.generate (Rama.init lat lon scl) mt kerf ib = Ok (g, self')
    /\ Rama.pillar_radius g - Rama.wall_thickness g <= 0
    /\ Rama.get_shadow_prediction self' alt az = Ok pred
    /\ lookup pred "readable" = Some (VBool false).
Proof.
  intros Hs Hmt.
  destruct (rama_floor_radius_ignores_kerf (Rama.init lat lon scl) mt kerf ib)
    as (g & self' & E & Hfloor).
  destruct (rama_generate_total (Rama.init lat lon scl) mt kerf ib)
    as (g' & s' & E' & Hg & _ & Hh).
  rewrite E in E'. injection E' as <- <-.
  cbn [Rama.scale Rama.init] in Hfloor, Hh.
  assert (Hle : Rama.pillar_radius g - Rama.wall_thickness g <= 0).
  { rewrite Hfloor. pose proof (Rmax_l mt (scl * 0.1)). lra. }
  assert (Hgh : 0 < Rama.gnomon_height g).
  { revert E. unfold Rama.generate. intros [= <- _].
    cbn [Rama.gnomon_height Rama.scale Rama.init]. lra. }
  exists g, self'. rewrite (rama_prediction_eq self' g) by exact Hg. cbv zeta.
  eexists. split; [exact E |]. split; [exact Hle |].
  split; [reflexivity |]. eval_lookup. do 2 f_equal.
  destruct (Rlt_dec 0 alt) as [H0 | H0];
    [| rewrite (ltb_false 0 alt) by lra; reflexivity].
  destruct (Rlt_dec alt 85) as [H85 | H85];
    [| rewrite (ltb_false alt 85) by lra; rewrite andb_false_r; reflexivity].
  rewrite (ltb_true 0 alt), (ltb_true alt 85) by lra. cbn [fleb andb].
  apply leb_false.
  pose proof (tan_pos_degrees alt ltac:(lra)) as Ht.
  assert (0 < Rama.gnomon_height g / tan (radians alt))
    by (apply Rdiv_lt_0_compat; assumption).
  lra.
Qed.

Lemma rama_thick_walls_never_readable_witness :
  0 < 0.5 /\ 0.5 <= 0.6
  /\ exists g self' pred,
       Rama.generate (Rama.init 26.9124 75.7873 0.5) 0.6 0 true = Ok (g, self')
       /\ Rama.get_shadow_prediction self' 45 180 = Ok pred
       /\ lookup pred "readable" = Some (VBool false).
Proof.
  assert (Hs : 0 < 0.5) by lra. assert (Hmt : 0.5 <= 0.6) by lra.
  split; [exact Hs |]. split; [exact Hmt |].
  destruct (rama_thick_walls_never_readable 26.9124 75.7873 0.5 0.6 0 true
              45 180 Hs Hmt) as (g & self' & pred & E & _ & Ep & L).
  exists g, self', pred. auto.
Defined.

(** X8.  For a positive scale and a non-negative material thickness every
    length of both geometries is non-negative, whatever the kerf and the
    base option; the characteristic sizes are strictly positive. *)
Theorem generated_lengths_nonnegative :
  (forall self mt kerf ib,
     0 < Samrat.scale self -> 0 <= mt ->
     exists g self',
       Samrat.generate self mt kerf ib = Ok (g, self')
       /\ 0 < Samrat.gnomon_height g
       /\ 0 < Samrat.gnomon_base_width g
       /\ 0 <= Samrat.gnomon_thickness g
       /\ 0 < Samrat.quadrant_radius g
       /\ 0 <= Samrat.base_length g
       /\ 0 <= Samrat.base_width g
       /\ 0 <= Samrat.base_height g)
  /\ (forall self mt kerf ib,
     0 < Rama.scale self ->
     exists g self',
       Rama.generate self mt kerf ib = Ok (g, self')
       /\ 0 < Rama.pillar_radius g
       /\ 0 < Rama.pillar_height g
       /\ 0 < Rama.pillar_separation g
       /\ 0 < Rama.wall_thickness g
       /\ 0 < Rama.altitude_scale_height g
       /\ 0 < Rama.central_platform_radius g
       /\ 0 < Rama.gnomon_height g
       /\ 0 <= Rama.base_diameter g
       /\ 0 <= Rama.base_height g).
Proof.
  split.
  - intros self mt kerf ib Hs Hmt. unfold Samrat.generate.
    do 2 eexists. split; [reflexivity |].
    cbn [Samrat.gnomon_height Samrat.gnomon_base_width
         Samrat.gnomon_thickness Samrat.quadrant_radius Samrat.base_length
         Samrat.base_width Samrat.base_height].
    unfold ltb. destruct (Rlt_dec 0 kerf), ib; repeat split; lra.
  - intros self mt kerf ib Hs. unfold Rama.generate.
    do 2 eexists. split; [reflexivity |].
    cbn [Rama.pillar_radius Rama.pillar_height Rama.pillar_separation
         Rama.wall_thickness Rama.altitude_scale_height
         Rama.central_platform_radius Rama.gnomon_height Rama.base_diameter
         Rama.base_height].
    pose proof (Rmax_r mt (Rama.scale self * 0.1)) as Hmax.
    unfold ltb. destruct (Rlt_dec 0 kerf), ib; repeat split; lra.
Qed.

Lemma generated_lengths_nonnegative_witness :
  0 < Rama.scale (Rama.init 26.9124 75.7873 1)
  /\ exists g self',
       Rama.generate (Rama.init 26.9124 75.7873 1) 0.01 0.005 false
         = Ok (g, self')
       /\ 0 < Rama.wall_thickness g
       /\ 0 <= Rama.base_diameter g.
Proof.
  assert (Hs : 0 < Rama.scale (Rama.init 26.9124 75.7873 1))
    by (cbn [Rama.scale Rama.init]; lra).
  split; [exact Hs |].
  destruct (proj2 generated_lengths_nonnegative
              (Rama.init 26.9124 75.7873 1) 0.01 0.005 false Hs)
    as (g & s & E & _ & _ & _ & Hw & _ & _ & _ & Hb & _).
  exists g, s. auto.
Defined.

(** X9.  With a base, the base platform covers the instrument as long as the
    kerf is small against the scale: the equatorial-dial base is at least as
    long and wide as the quadrant diameter for kerf <= 0.175 * scale, and
    the alt-azimuth base diameter is at least two pillar radii plus the
    separation for kerf <= 0.375 * scale.  Every request the API accepts
    (scale > 0.1, kerf <= 0.01) is within both bounds. *)
Theorem base_covers_instrument :
  (forall self mt kerf,
     0 < Samrat.scale self -> kerf <= 0.175 * Samrat.scale self ->
     exists g self',
       Samrat.generate self mt kerf true = Ok (g, self')
       /\ 2 * Samrat.quadrant_radius g <= Samrat.base_length g
       /\ 2 * Samrat.quadrant_radius g <= Samrat.base_width g)
  /\ (forall self mt kerf,
     0 < Rama.scale self -> kerf <= 0.375 * Rama.scale self ->
     exists g self',
       Rama.generate self mt kerf true = Ok (g, self')
       /\ 2 * Rama.pillar_radius g + Rama.pillar_separation g
          <= Rama.base_diameter g)
  /\ (forall scale kerf,
     0.1 < scale -> kerf <= 0.01 ->
     kerf <= 0.175 * scale /\ kerf <= 0.375 * scale).
Proof.
  split; [| split].
  - intros self mt kerf Hs Hk. unfold Samrat.generate.
    do 2 eexists. split; [reflexivity |].
    cbn [Samrat.quadrant_radius Samrat.base_length Samrat.base_width].
    unfold ltb. destruct (Rlt_dec 0 kerf); split; lra.
  - intros self mt kerf Hs Hk. unfold Rama.generate.
    do 2 eexists. split; [reflexivity |].
    cbn [Rama.pillar_radius Rama.pillar_separation Rama.base_diameter].
    unfold ltb. destruct (Rlt_dec 0 kerf); lra.
  - intros scale kerf Hs Hk. split; lra.
Qed.

Lemma base_covers_instrument_witness :
  0 < Samrat.scale (Samrat.init 26.9124 75.7873 0.11)
  /\ 0.01 <= 0.175 * Samrat.scale (Samrat.init 26.9124 75.7873 0.11)
  /\ exists g self',
       Samrat.generate (Samrat.init 26.9124 75.7873 0.11) 0.01 0.01 true
         = Ok (g, self')
       /\ 2 * Samrat.quadrant_radius g <= Samrat.base_length g.
Proof.
  assert (Hs : 0 < Samrat.scale (Samrat.init 26.9124 75.7873 0.11))
    by (cbn [Samrat.scale Samrat.init]; lra).
  assert (Hk : 0.01 <= 0.175 * Samrat.scale (Samrat.init 26.9124 75.7873 0.11))
    by (cbn [Samrat.scale Samrat.init]; lra).
  split; [exact Hs |]. split; [exact Hk |].
  destruct (proj1 base_covers_instrument
              (Samrat.init 26.9124 75.7873 0.11) 0.01 0.01 Hs Hk)
    as (g & s & E & Hl & _).
  exists g, s. auto.
Defined.

(** ** Hour lines and vertices of the equatorial dial *)

Lemma length_flat_map_pairs {A B : Type} (f : A -> list B) (l : list A) :
  (forall a, length (f a) = 2%nat) ->
  length (flat_map f l) = (2 * length l)%nat.
Proof.
  intros Hf. induction l as [| a l IH]; [reflexivity |].
  cbn [flat_map]. rewrite length_app, Hf, IH. cbn [length]. lia.
Qed.



(** ** Azimuth markings of the alt-azimuth instrument *)

(** On a whole number of degrees [round(azimuth / 22.5)] never meets a tie:
    it is the integer quotient (4a + 45) / 90. *)
Lemma round_whole_degrees (a : Z) :
  round (IZR a / 22.5) = ((4 * a + 45) / 90)%Z.
Proof.
  pose proof (Z.div_mod (2 * a) 45 ltac:(lia)) as Hdm.
  pose proof (Z.mod_pos_bound (2 * a) 45 ltac:(lia)) as Hr.
  set (q := (2 * a / 45)%Z) in *. set (r := ((2 * a) mod 45)%Z) in *.
  assert (HR : 2 * IZR a = 45 * IZR q + IZR r).
  { apply (f_equal IZR) in Hdm. rewrite plus_IZR, !mult_IZR in Hdm. lra. }
  assert (Hr0 : 0 <= IZR r) by (apply IZR_le; lia).
  assert (Hr45 : IZR r < 45) by (apply IZR_lt; lia).
  assert (Hint : Int_part (IZR a / 22.5) = q).
  { symmetry. apply Int_part_spec. lra. }
  unfold round. rewrite Hint.
  destruct (Rlt_dec (IZR a / 22.5 - IZR q) (1 / 2)) as [Hlo | Hlo].
  - assert (Hlt : (r < 23)%Z) by (apply lt_IZR; lra).
    apply Z.div_unique with (2 * r + 45)%Z; lia.
  - destruct (Rlt_dec (1 / 2) (IZR a / 22.5 - IZR q)) as [Hhi | Hhi].
    + assert (Hgt : (22 < r)%Z) by (apply lt_IZR; lra).
      apply Z.div_unique with (2 * r + 45 - 90)%Z; lia.
    + exfalso. assert (Heq : IZR (2 * r) = IZR 45)
        by (rewrite mult_IZR; lra).
      apply eq_IZR in Heq. lia.
Qed.

Lemma in_sector_A_degree (a : Z) :
  Rama.in_sector_A (IZR a) = degree_in_sector_A a.
Proof.
  apply eq_true_iff_eq. rewrite in_sector_A_iff. unfold degree_in_sector_A.
  rewrite orb_true_iff, !andb_true_iff, !Z.leb_le. split.
  - intros [[H1 H2] | [H1 H2]]; [left | right]; split; apply le_IZR; lra.
  - intros [[H1 H2] | [H1 H2]]; [left | right];
      apply IZR_le in H1; apply IZR_le in H2; lra.
Qed.

Lemma azimuth_to_cardinal_degree (a : Z) :
  Rama.azimuth_to_cardinal (IZR a) = cardinal_of_degree a.
Proof.
  unfold Rama.azimuth_to_cardinal, cardinal_of_degree.
  rewrite round_whole_degrees. reflexivity.
Qed.

(** X11.  For a whole number of degrees the cardinal label needs no
    tie-breaking: it is entry ((4a + 45) / 90) mod 16 of the sixteen-point
    rose.  So 0, 90, 180 and 270 are N, E, S and W, 359 is N again, and the
    label changes between 11 and 12 degrees. *)
Theorem cardinal_of_whole_degrees :
  (forall a : Z, Rama.azimuth_to_cardinal (IZR a) = cardinal_of_degree a)
  /\ Rama.azimuth_to_cardinal 0 = "N"
  /\ Rama.azimuth_to_cardinal 90 = "E"
  /\ Rama.azimuth_to_cardinal 180 = "S"
  /\ Rama.azimuth_to_cardinal 270 = "W"
  /\ Rama.azimuth_to_cardinal 359 = "N"
  /\ Rama.azimuth_to_cardinal 11 = "N"
  /\ Rama.azimuth_to_cardinal 12 = "NNE".
Proof.
  split; [exact azimuth_to_cardinal_degree |].
  repeat split; rewrite azimuth_to_cardinal_degree; reflexivity.
Qed.

Lemma circle_point (r t : R) :
  (r * sin t) * (r * sin t) + (r * cos t) * (r * cos t) = r * r.
Proof.
  pose proof (sin2_cos2 t) as Hsc. unfold Rsqr in Hsc.
  replace (r * sin t * (r * sin t) + r * cos t * (r * cos t))
    with (r * r * (sin t * sin t + cos t * cos t)) by ring.
  rewrite Hsc. ring.
Qed.

Lemma nth_error_range (lo hi : Z) (i : nat) :
  (Z.of_nat i < hi - lo)%Z ->
  nth_error (range lo hi) i = Some (lo + Z.of_nat i)%Z.
Proof.
  intros Hi. unfold range.
  rewrite nth_error_map, nth_error_seq.
  destruct (Nat.ltb_spec i (Z.to_nat (hi - lo))) as [Hlt | Hge]; [| lia].
  reflexivity.
Qed.

Lemma length_range (lo hi : Z) : length (range lo hi) = Z.to_nat (hi - lo).
Proof. unfold range. rewrite length_map, length_seq. reflexivity. Qed.

(** X12.  [get_azimuth_markings] returns 360 markings, as many as the
    azimuth divisions [generate] records.  Marking number k carries azimuth
    k, the cardinal label of k, sector A exactly for 45..135 and 225..315,
    the major flag exactly for multiples of ten, and a radial line from the
    central platform radius to the floor radius. *)
Theorem azimuth_markings_shape self g :
  Rama.geometry self = Some g ->
  exists marks,
    Rama.get_azimuth_markings self = Ok marks
    /\ length marks = 360%nat
    /\ forall k : Z, (0 <= k < 360)%Z ->
       exists seg sx sy ex ey,
         nth_error marks (Z.to_nat k) = Some seg
         /\ lookup seg "azimuth" = Some (VInt k)
         /\ lookup seg "cardinal" = Some (VStr (cardinal_of_degree k))
         /\ lookup seg "sector"
            = Some (VStr (if degree_in_sector_A k then "A" else "B"))
         /\ lookup seg "major" = Some (VBool (k mod 10 =? 0)%Z)
         /\ lookup seg "start"
            = Some (VTuple [VFloat (Fin sx); VFloat (Fin sy); VInt 0])
         /\ lookup seg "end"
            = Some (VTuple [VFloat (Fin ex); VFloat (Fin ey); VInt 0])
         /\ sx * sx + sy * sy
            = Rama.central_platform_radius g * Rama.central_platform_radius g
         /\ ex * ex + ey * ey
            = (Rama.pillar_radius g - Rama.wall_thickness g)
              * (Rama.pillar_radius g - Rama.wall_thickness g)
         /\ sx * ey = sy * ex.
Proof.
  intros Hg. unfold Rama.get_azimuth_markings, Rama.require_geometry.
  rewrite Hg. cbn [bind]. eexists. split; [reflexivity |]. split.
  - rewrite length_map, length_range. reflexivity.
  - intros k Hk.
    pose proof (sin2_cos2 (radians (IZR k))) as Hsc. unfold Rsqr in Hsc.
    do 5 eexists. split.
    + rewrite nth_error_map, nth_error_range by lia.
      cbn [option_map]. rewrite Z.add_0_l, Z2Nat.id by lia. reflexivity.
    + split; [reflexivity |].
      split; [eval_lookup; rewrite azimuth_to_cardinal_degree;
              reflexivity |].
      split; [eval_lookup; rewrite in_sector_A_degree; reflexivity |].
      split; [reflexivity |]. split; [reflexivity |].
      split; [reflexivity |].
      split; [apply circle_point |]. split; [apply circle_point |]. ring.
Qed.

Lemma azimuth_markings_shape_witness :
  Rama.geometry jaipur_rama = Some jaipur_rama_geometry
  /\ exists marks seg,
       Rama.get_azimuth_markings jaipur_rama = Ok marks
       /\ Z.of_nat (length marks) = Rama.azimuth_divisions jaipur_rama_geometry
       /\ nth_error marks 90 = Some seg
       /\ lookup seg "cardinal" = Some (VStr "E")
       /\ lookup seg "sector" = Some (VStr "A").
Proof.
  assert (Hg : Rama.geometry jaipur_rama = Some jaipur_rama_geometry)
    by reflexivity.
  split; [exact Hg |].
  destruct (azimuth_markings_shape jaipur_rama jaipur_rama_geometry Hg)
    as (marks & E & Hlen & Hk).
  destruct (Hk 90%Z ltac:(lia))
    as (seg & sx & sy & ex & ey & Hn & _ & Hc & Hs & _).
  exists marks, seg. split; [exact E |].
  split; [rewrite Hlen; reflexivity |].
  split; [exact Hn |]. split; [exact Hc | exact Hs].
Defined.

(** ** Altitude scale and pillar vertices *)

(** X13.  On a generator left by [generate] with a non-negative scale,
    [get_altitude_scale] returns 91 marks.  Mark k carries altitude k and a
    wall height of exactly k / 90 of the pillar height (the clamp to the
    pillar height never acts), so mark 0 is on the floor and mark 90 at the
    top; its theoretical height never exceeds the pillar height and equals
    it for 89 and 90 degrees; it is major exactly for multiples of five. *)
Theorem altitude_scale_shape self mt kerf ib sector :
  0 <= Rama.scale self ->
  exists g self' marks,
    Rama.generate self mt kerf ib = Ok (g, self')
    /\ Rama.get_altitude_scale self' sector = Ok marks
    /\ length marks = 91%nat
    /\ forall k : Z, (0 <= k <= 90)%Z ->
       exists seg th,
         nth_error marks (Z.to_nat k) = Some seg
         /\ lookup seg "altitude" = Some (VInt k)
         /\ lookup seg "wall_height"
            = Some (VFloat (Fin (IZR k / 90 * Rama.pillar_height g)))
         /\ lookup seg "theoretical_height" = Some (VFloat (Fin th))
         /\ th <= Rama.pillar_height g
         /\ ((89 <= k)%Z -> th = Rama.pillar_height g)
         /\ lookup seg "sector" = Some (VStr sector)
         /\ lookup seg "major" = Some (VBool (k mod 5 =? 0)%Z).
Proof.
  intros Hs.
  destruct (rama_generate_total self mt kerf ib) as (g & self' & E & Hg & _ & Hh).
  assert (Hash : Rama.altitude_scale_height g = Rama.pillar_height g).
  { revert E. unfold Rama.generate. intros [= <- _]. reflexivity. }
  exists g, self'. unfold Rama.get_altitude_scale, Rama.require_geometry.
  rewrite Hg. cbn [bind]. eexists. split; [exact E |].
  split; [reflexivity |]. split.
  - rewrite length_map, length_range. reflexivity.
  - intros k Hk.
    assert (Hk0 : 0 <= IZR k) by (apply IZR_le; lia).
    assert (Hk90 : IZR k <= 90) by (apply IZR_le; lia).
    do 2 eexists. split.
    + rewrite nth_error_map, nth_error_range by lia.
      cbn [option_map]. rewrite Z.add_0_l, Z2Nat.id by lia. reflexivity.
    + split; [reflexivity |]. split.
      { eval_lookup. rewrite Hash. rewrite Rmin_left; [do 3 f_equal; lra |].
        rewrite Hh. nra. }
      split; [reflexivity |]. split; [apply Rmin_r |].
      split; [| split; reflexivity].
      intros H89. destruct (Z.ltb_spec k 89) as [Hlt | _]; [lia |].
      rewrite Hash. apply Rmin_left. lra.
Qed.

Lemma altitude_scale_shape_witness :
  0 <= Rama.scale (Rama.init 26.9124 75.7873 1)
  /\ exists g self' marks seg,
       Rama.generate (Rama.init 26.9124 75.7873 1) 0.01 0 true = Ok (g, self')
       /\ Rama.get_altitude_scale self' "A" = Ok marks
       /\ nth_error marks 45 = Some seg
       /\ lookup seg "wall_height"
          = Some (VFloat (Fin (45 / 90 * Rama.pillar_height g))).
Proof.
  assert (Hs : 0 <= Rama.scale (Rama.init 26.9124 75.7873 1))
    by (cbn [Rama.scale Rama.init]; lra).
  split; [exact Hs |].
  destruct (altitude_scale_shape (Rama.init 26.9124 75.7873 1) 0.01 0 true "A" Hs)
    as (g & self' & marks & E & Em & _ & Hk).
  destruct (Hk 45%Z ltac:(lia)) as (seg & th & Hn & _ & Hw & _).
  exists g, self', marks, seg. auto.
Defined.

Lemma in_ring (radius x_offset angle_start angle_end ph : R) (row : list R) :
  In row
    (flat_map (fun i =>
       let t := IZR i / IZR 60 in
       let angle := angle_start + t * (angle_end - angle_start) in
       let x := x_offset + radius * cos angle in
       let y := radius * sin angle in
       [ [x; y; 0]; [x; y; ph] ])
       (range 0 (60 + 1))) ->
  exists x y z,
    row = [x; y; z]
    /\ (z = 0 \/ z = ph)
    /\ (x - x_offset) * (x - x_offset) + y * y = radius * radius.
Proof.
  intros Hin. apply in_flat_map in Hin. destruct Hin as (i & _ & Hrow).
  cbv zeta in Hrow.
  set (a := angle_start + IZR i / IZR 60 * (angle_end - angle_start)) in *.
  pose proof (circle_point radius a) as Hc.
  destruct Hrow as [<- | [<- | []]]; do 3 eexists;
    (split; [reflexivity |]); (split; [auto |]); lra.
Qed.

(** X14.  [get_pillar_vertices] returns 244 vertices of three coordinates:
    each lies on the floor or at the pillar height, and on the circle of the
    pillar radius or of the inner radius about the sector axis, which is
    offset by half the pillar separation to the negative side for sector
    "A" and to the positive side otherwise.  Any sector name other than "A"
    is treated as sector "B". *)
Theorem pillar_vertices_shape self g sector :
  Rama.geometry self = Some g ->
  let x_offset :=
    if String.eqb sector "A"
    then - Rama.pillar_separation g / 2 else Rama.pillar_separation g / 2 in
  exists rows,
    Rama.get_pillar_vertices self sector = Ok rows
    /\ length rows = 244%nat
    /\ Forall (fun row =>
         exists x y z,
           row = [x; y; z]
           /\ (z = 0 \/ z = Rama.pillar_height g)
           /\ ((x - x_offset) * (x - x_offset) + y * y
               = Rama.pillar_radius g * Rama.pillar_radius g
               \/ (x - x_offset) * (x - x_offset) + y * y
                  = (Rama.pillar_radius g - Rama.wall_thickness g)
                    * (Rama.pillar_radius g - Rama.wall_thickness g)))
         rows
    /\ (sector <> "A" ->
        Rama.get_pillar_vertices self sector
        = Rama.get_pillar_vertices self "B").
Proof.
  intros Hg x_offset. unfold Rama.get_pillar_vertices, Rama.require_geometry.
  rewrite Hg. cbn [bind]. eexists. split; [reflexivity |]. split; [| split].
  - rewrite length_app.
    rewrite !length_flat_map_pairs by (intros i; reflexivity).
    rewrite length_range. reflexivity.
  - apply Forall_forall. intros row Hin. apply in_app_or in Hin.
    destruct Hin as [Hin | Hin]; apply in_ring in Hin;
      destruct Hin as (x & y & z & -> & Hz & Hc);
      exists x, y, z; (split; [reflexivity |]); (split; [exact Hz |]);
      [left | right]; exact Hc.
  - intros Hne. apply String.eqb_neq in Hne. rewrite Hne. reflexivity.
Qed.

Lemma pillar_vertices_shape_witness :
  Rama.geometry jaipur_rama = Some jaipur_rama_geometry
  /\ exists rows,
       Rama.get_pillar_vertices jaipur_rama "north" = Ok rows
       /\ length rows = 244%nat
       /\ Rama.get_pillar_vertices jaipur_rama "north"
          = Rama.get_pillar_vertices jaipur_rama "B".
Proof.
  assert (Hg : Rama.geometry jaipur_rama = Some jaipur_rama_geometry)
    by reflexivity.
  split; [exact Hg |].
  destruct (pillar_vertices_shape jaipur_rama jaipur_rama_geometry "north" Hg)
    as (rows & E & Hlen & _ & Hb).
  exists rows. split; [exact E |]. split; [exact Hlen |].
  apply Hb. discriminate.
Defined.

(** ** Dimension summary and bill of materials *)

(** X15.  In [generate_yantra] the overall dimensions of a generated
    equatorial dial are its base length, base width and gnomon height plus
    base height, and those of a generated alt-azimuth instrument are its
    base diameter (for both length and width) and pillar height plus base
    height: the fallback to twice the requested scale is never taken, even
    when the request scale differs from the generator's.  Without a base the
    overall length and width are therefore reported as 0. *)
Theorem overall_dimensions_of_generators :
  (forall self g,
     Samrat.geometry self = Some g ->
     exists dims,
       Samrat.get_dimensions_dict self = Ok dims
       /\ forall request_scale,
          overall_dimensions dims request_scale
          = inr (VFloat (Samrat.base_length g), VFloat (Samrat.base_width g),
                 VFloat (Fin (Samrat.gnomon_height g + Samrat.base_height g))))
  /\ (forall self g,
     Rama.geometry self = Some g ->
     exists dims,
       Rama.get_dimensions_dict self = Ok dims
       /\ forall request_scale,
          overall_dimensions dims request_scale
          = inr (VFloat (Rama.base_diameter g), VFloat (Rama.base_diameter g),
                 VFloat (Fin (Rama.pillar_height g + Rama.base_height g))))
  /\ (forall self mt kerf,
     exists g self',
       Samrat.generate self mt kerf false = Ok (g, self')
       /\ Samrat.base_length g = 0 /\ Samrat.base_width g = 0)
  /\ (forall self mt kerf,
     exists g self',
       Rama.generate self mt kerf false = Ok (g, self')
       /\ Rama.base_diameter g = 0).
Proof.
  split; [| split; [| split]].
  - intros self g Hg.
    unfold Samrat.get_dimensions_dict, Samrat.require_geometry.
    rewrite Hg. cbn [bind]. eexists. split; [reflexivity |].
    intros request_scale. reflexivity.
  - intros self g Hg.
    unfold Rama.get_dimensions_dict, Rama.require_geometry.
    rewrite Hg. cbn [bind]. eexists. split; [reflexivity |].
    intros request_scale. reflexivity.
  - intros self mt kerf. unfold Samrat.generate. do 2 eexists.
    split; [reflexivity |]. cbn [Samrat.base_length Samrat.base_width].
    split; lra.
  - intros self mt kerf. unfold Rama.generate. do 2 eexists.
    split; [reflexivity |]. cbn [Rama.base_diameter]. lra.
Qed.

Lemma overall_dimensions_of_generators_witness :
  Rama.geometry jaipur_rama = Some jaipur_rama_geometry
  /\ exists dims,
       Rama.get_dimensions_dict jaipur_rama = Ok dims
       /\ overall_dimensions dims 1
          = inr (VFloat 3.25, VFloat 3.25, VFloat (Fin (2 + 0.06))).
Proof.
  assert (Hg : Rama.geometry jaipur_rama = Some jaipur_rama_geometry)
    by reflexivity.
  split; [exact Hg |].
  destruct (proj1 (proj2 overall_dimensions_of_generators)
              jaipur_rama jaipur_rama_geometry Hg) as (dims & E & Ho).
  exists dims. split; [exact E |]. exact (Ho 1).
Defined.

(** X16.  The bill of materials of the equatorial dial has four items and
    that of the alt-azimuth instrument seven, each with an item name, a
    material, a positive quantity, dimensions and notes.  A [volume_m3]
    entry exists only for the gnomon and the base of the dial, and for the
    two pillar walls and the base of the alt-azimuth instrument; the volume
    of one pillar wall is pi * height * t * (2R - t) / 2 for pillar radius R
    and wall thickness t. *)
Theorem bill_of_materials_shape :
  (forall self g,
     Samrat.geometry self = Some g ->
     exists bom,
       Samrat.get_bill_of_materials self = Ok bom
       /\ Forall has_common_keys bom
       /\ map has_volume bom = [true; false; true; false])
  /\ (forall self g,
     Rama.geometry self = Some g ->
     exists bom wall_a v,
       Rama.get_bill_of_materials self = Ok bom
       /\ Forall has_common_keys bom
       /\ map has_volume bom = [true; true; false; false; false; true; false]
       /\ nth_error bom 0 = Some wall_a
       /\ lookup wall_a "volume_m3" = Some (VFloat (Fin v))
       /\ v = PI * Rama.pillar_height g * Rama.wall_thickness g
              * (2 * Rama.pillar_radius g - Rama.wall_thickness g) / 2).
Proof.
  assert (Hkeys : forall (item : dict) s1 s2 n v1 v2,
            lookup item "item" = Some (VStr s1) ->
            lookup item "material" = Some (VStr s2) ->
            lookup item "quantity" = Some (VInt n) -> (0 < n)%Z ->
            lookup item "dimensions" = Some v1 ->
            lookup item "notes" = Some v2 ->
            has_common_keys item).
  { intros item s1 s2 n v1 v2 H1 H2 H3 Hn H4 H5. unfold has_common_keys.
    rewrite H1, H2, H3, H4, H5. repeat split; eauto; discriminate. }
  split.
  - intros self g Hg.
    unfold Samrat.get_bill_of_materials, Samrat.require_geometry.
    rewrite Hg. cbn [bind]. eexists. split; [reflexivity |].
    split; [| reflexivity].
    repeat constructor; eapply Hkeys; try reflexivity; lia.
  - intros self g Hg.
    unfold Rama.get_bill_of_materials, Rama.require_geometry.
    rewrite Hg. cbn [bind]. do 3 eexists. split; [reflexivity |].
    split; [repeat constructor; eapply Hkeys; try reflexivity; lia |].
    split; [reflexivity |]. split; [reflexivity |].
    split; [reflexivity |]. field.
Qed.

Lemma bill_of_materials_shape_witness :
  Samrat.geometry jaipur_samrat = Some jaipur_samrat_geometry
  /\ exists bom,
       Samrat.get_bill_of_materials jaipur_samrat = Ok bom
       /\ length bom = 4%nat.
Proof.
  assert (Hg : Samrat.geometry jaipur_samrat = Some jaipur_samrat_geometry)
    by reflexivity.
  split; [exact Hg |].
  destruct (proj1 bill_of_materials_shape jaipur_samrat jaipur_samrat_geometry
              Hg) as (bom & E & _ & Hv).
  exists bom. split; [exact E |].
  rewrite <- (length_map has_volume), Hv. reflexivity.
Defined.

(** ** The two azimuth errors compared *)

Lemma spec_error_offset (p t : R) :
  exists k : Z,
    spec_azimuth_error p t = Rabs (p - t - 360 * IZR k)
    /\ -180 <= p - t - 360 * IZR k < 180.
Proof.
  exists (Int_part ((p - t + 180) / 360)).
  pose proof (fmod_range (p - t + 180) 360 ltac:(lra)) as Hr.
  unfold spec_azimuth_error. unfold fmod in *. split; [f_equal; lra | lra].
Qed.

(** X17.  The unwrapped azimuth error of the API validator is never below
    the wrapped error of the validation service, and the two agree exactly
    when the predicted and the true azimuth are at most 180 degrees apart. *)
Theorem api_error_dominates_service_error (p t : R) :
  exists e_api e_svc,
    api_azimuth_error (Fin p) t = Fin e_api
    /\ az_diff (Fin p) t = Fin e_svc
    /\ e_svc <= e_api
    /\ (Rabs (p - t) <= 180 <-> e_api = e_svc).
Proof.
  exists (Rabs (p - t)), (spec_azimuth_error p t).
  split; [unfold api_azimuth_error, fsub; cbn [fneg fadd fabs]; reflexivity |].
  split; [apply az_diff_spec |].
  destruct (spec_error_offset p t) as (k & Hk & Hrange). rewrite Hk.
  assert (Hcases : (k = 0)%Z \/ (k <= -1)%Z \/ (1 <= k)%Z) by lia.
  destruct Hcases as [-> | [Hneg | Hpos]].
  - replace (p - t - 360 * 0) with (p - t) by lra.
    split; [lra |]. split; [reflexivity |].
    intros _. apply Rabs_le. simpl in Hrange. lra.
  - apply IZR_le in Hneg.
    assert (Hd : p - t < -180) by lra.
    rewrite (Rabs_left (p - t)) by lra.
    assert (Hs : Rabs (p - t - 360 * IZR k) <= 180) by (apply Rabs_le; lra).
    split; [lra |]. split.
    + intros Hle. exfalso. lra.
    + intros Heq. exfalso. lra.
  - apply IZR_le in Hpos.
    assert (Hd : 180 <= p - t) by lra.
    rewrite (Rabs_pos_eq (p - t)) by lra.
    assert (Hs : Rabs (p - t - 360 * IZR k) <= 180) by (apply Rabs_le; lra).
    split; [lra |]. split.
    + intros Hle. assert (Hk1 : IZR k = 1) by lra.
      rewrite Hk1. replace (p - t - 360 * 1) with (-180) by lra.
      rewrite Rabs_left by lra. lra.
    + intros Heq. lra.
Qed.

(** X18.  The azimuth error of the validation service is symmetric in the
    two azimuths, unchanged when either is shifted by whole turns, and zero
    exactly when they differ by a whole number of turns. *)
Theorem az_diff_symmetric_periodic (p t : R) :
  az_diff (Fin p) t = az_diff (Fin t) p
  /\ (forall k : Z, az_diff (Fin (p + 360 * IZR k)) t = az_diff (Fin p) t)
  /\ (forall k : Z, az_diff (Fin p) (t + 360 * IZR k) = az_diff (Fin p) t)
  /\ (az_diff (Fin p) t = Fin 0 <-> exists k : Z, p - t = 360 * IZR k).
Proof.
  rewrite !az_diff_spec.
  destruct (spec_error_offset p t) as (k & Hk & Hrange).
  split; [| split; [| split]].
  - f_equal. rewrite Hk. unfold spec_azimuth_error.
    destruct (Req_dec (p - t - 360 * IZR k) (-180)) as [Heq | Hne].
    + rewrite (fmod_unique (t - p + 180) 360 (1 - k)%Z)
        by (try rewrite minus_IZR; lra).
      rewrite minus_IZR, Heq.
      replace (t - p + 180 - 360 * (1 - IZR k) - 180) with (-180) by lra.
      reflexivity.
    + rewrite (fmod_unique (t - p + 180) 360 (- k)%Z)
        by (try rewrite opp_IZR; lra).
      rewrite opp_IZR.
      replace (t - p + 180 - 360 * - IZR k - 180)
        with (- (p - t - 360 * IZR k)) by lra.
      rewrite Rabs_Ropp. reflexivity.
  - intros j. rewrite az_diff_spec. f_equal. unfold spec_azimuth_error.
    replace (p + 360 * IZR j - t + 180) with (p - t + 180 + 360 * IZR j) by lra.
    rewrite fmod_shift by lra. reflexivity.
  - intros j. rewrite az_diff_spec. f_equal. unfold spec_azimuth_error.
    replace (p - (t + 360 * IZR j) + 180)
      with (p - t + 180 + 360 * IZR (- j)) by (rewrite opp_IZR; lra).
    rewrite fmod_shift by lra. reflexivity.
  - rewrite Hk. split.
    + intros [= H0]. exists k.
      destruct (Rcase_abs (p - t - 360 * IZR k)) as [Hn | Hp].
      * rewrite Rabs_left in H0 by exact Hn. lra.
      * rewrite Rabs_right in H0 by exact Hp. lra.
    + intros [j Hj]. f_equal.
      assert (Hjk : IZR (j - k) = 0 \/ IZR (j - k) <= -1 \/ 1 <= IZR (j - k)).
      { assert (Hc : (j - k = 0)%Z \/ (j - k <= -1)%Z \/ (1 <= j - k)%Z) by lia.
        destruct Hc as [-> | [Hc | Hc]]; [left; reflexivity | |];
          apply IZR_le in Hc; auto. }
      rewrite minus_IZR in Hjk.
      destruct Hjk as [H0 | [Hn | Hp]]; [| exfalso; lra | exfalso; lra].
      replace (p - t - 360 * IZR k) with 0 by lra. apply Rabs_R0.
Qed.

(** ** The validators on the two generators *)

Lemma fmax_zero : fmax (Fin 0) (Fin 0) = Fin 0.
Proof. unfold fmax. cbn [fltb]. rewrite (ltb_false 0 0) by lra. reflexivity. Qed.

Lemma accuracy_of_zero : accuracy_of (Fin 0) = EXCELLENT.
Proof.
  unfold accuracy_of. cbn [fltb]. rewrite (ltb_true 0 0.1) by lra. reflexivity.
Qed.

Lemma api_error_same (a : R) : api_azimuth_error (Fin a) a = Fin 0.
Proof. unfold api_azimuth_error. apply abs_diff_same. Qed.

(** X19.  The API validator cannot fault the equatorial dial: on a generator
    that holds a geometry it reports altitude, azimuth, rms and maximum
    errors of zero and tier excellent for every oracle and location, the
    predicted position repeating the true altitude and azimuth next to the
    dial's own hour angle. *)
Theorem api_validation_of_samrat
    (eph : R -> R -> datetime -> R -> SunPosition)
    (self : Samrat.SamratYantraGenerator) (g : Samrat.SamratGeometry)
    (location : Location) (yantra_type : YantraType) :
  Samrat.geometry self = Some g ->
  let sun := eph (loc_latitude location) (loc_longitude location) test_date
               (loc_elevation location) in
  exists r,
    validate_yantra_accuracy eph self location yantra_type = Ok r
    /\ altitude_error r = Fin 0
    /\ azimuth_error r = Fin 0
    /\ rms_error r = Fin 0
    /\ max_error r = Fin 0
    /\ accuracy_level r = EXCELLENT
    /\ sp_altitude (predicted_position r) = Fin (altitude sun)
    /\ sp_azimuth (predicted_position r) = Fin (azimuth sun)
    /\ sp_hour_angle (predicted_position r)
       = Fin (Samrat.hour_angle_deg self (altitude sun) (azimuth sun)).
Proof.
  intros Hg sun. unfold validate_yantra_accuracy. fold sun.
  cbn [get_shadow_prediction samrat_generator].
  rewrite (samrat_prediction_eq self g) by exact Hg. cbn [bind].
  unfold get. eval_lookup. cbn [as_float bind].
  rewrite abs_diff_same, api_error_same, rms_zero, fmax_zero, accuracy_of_zero.
  eexists. split; [reflexivity |].
  cbn [altitude_error azimuth_error rms_error max_error accuracy_level
       predicted_position sp_altitude sp_azimuth sp_hour_angle].
  repeat (split; [reflexivity |]). reflexivity.
Qed.

Lemma api_validation_of_samrat_witness :
  let eph := fun (_ _ : R) (_ : datetime) (_ : R) =>
    {| altitude := 60; azimuth := 180; declination := 23; hour_angle := 0 |} in
  let location :=
    {| loc_latitude := 26.9124; loc_longitude := 75.7873; loc_elevation := 0;
       loc_timezone := "UTC"; loc_name := None |} in
  Samrat.geometry jaipur_samrat = Some jaipur_samrat_geometry
  /\ exists r,
       validate_yantra_accuracy eph jaipur_samrat location SAMRAT = Ok r
       /\ accuracy_level r = EXCELLENT.
Proof.
  intros eph location.
  assert (Hg : Samrat.geometry jaipur_samrat = Some jaipur_samrat_geometry)
    by reflexivity.
  split; [exact Hg |].
  destruct (api_validation_of_samrat eph jaipur_samrat jaipur_samrat_geometry
              location SAMRAT Hg) as (r & E & _ & _ & _ & _ & Ha & _).
  exists r. split; [exact E | exact Ha].
Defined.

(** X20.  Both validators pass the generator's error on: called with a
    generator of either kind that holds no geometry they raise the
    invalid-state error instead of reporting anything. *)
Theorem validators_need_generated_geometry
    (eph : R -> R -> datetime -> R -> SunPosition) :
  (forall self latitude longitude elevation when,
     Samrat.geometry self = None ->
     invalid_state (compare_shadow eph self latitude longitude elevation when))
  /\ (forall self latitude longitude elevation when,
     Rama.geometry self = None ->
     invalid_state (compare_shadow eph self latitude longitude elevation when))
  /\ (forall self location yantra_type,
     Samrat.geometry self = None ->
     invalid_state (validate_yantra_accuracy eph self location yantra_type))
  /\ (forall self location yantra_type,
     Rama.geometry self = None ->
     invalid_state (validate_yantra_accuracy eph self location yantra_type)).
Proof.
  unfold invalid_state, compare_shadow, validate_yantra_accuracy.
  cbn [get_shadow_prediction samrat_generator rama_generator].
  unfold Samrat.get_shadow_prediction, Samrat.require_geometry,
    Rama.get_shadow_prediction, Rama.require_geometry.
  repeat split; intros; match goal with H : _ = None |- _ => rewrite H end;
    reflexivity.
Qed.

Lemma validators_need_generated_geometry_witness :
  let eph := fun (_ _ : R) (_ : datetime) (_ : R) =>
    {| altitude := 60; azimuth := 180; declination := 23; hour_angle := 0 |} in
  Rama.geometry (Rama.init 26.9124 75.7873 1) = None
  /\ invalid_state
       (compare_shadow eph (Rama.init 26.9124 75.7873 1) 26.9124 75.7873 0
          test_date).
Proof.
  intros eph.
  assert (Hn : Rama.geometry (Rama.init 26.9124 75.7873 1) = None)
    by reflexivity.
  split; [exact Hn |].
  exact (proj1 (proj2 (validators_need_generated_geometry eph))
           (Rama.init 26.9124 75.7873 1) 26.9124 75.7873 0 test_date Hn).
Defined.

Lemma rms_of_half_turn :
  fsqrt (fadd (fmul (Fin 0) (Fin 0)) (fmul (Fin 180) (Fin 180))) = Fin 180.
Proof.
  cbn [fmul fadd fsqrt]. f_equal.
  replace (0 * 0 + 180 * 180) with (180 * 180) by lra.
  apply sqrt_square. lra.
Qed.

(** X21.  For the alt-azimuth instrument the altitude reading is the true
    altitude, so on a generator that holds a geometry the validation service
    reports altitude error 0 and an rms error of exactly 180; for a sun
    azimuth in [-180, 540) the API validator reports altitude error 0 and
    rms and maximum errors of exactly 180. *)
Theorem rama_validation_totals
    (eph : R -> R -> datetime -> R -> SunPosition)
    (self : Rama.RamaYantraGenerator) (g : Rama.RamaGeometry) :
  Rama.geometry self = Some g ->
  (forall latitude longitude elevation when, exists report,
     compare_shadow eph self latitude longitude elevation when = Ok report
     /\ lookup report "altitude_error" = Some (VFloat 0)
     /\ lookup report "rms_error" = Some (VFloat 180))
  /\ (forall location yantra_type,
     -180 <= azimuth (eph (loc_latitude location) (loc_longitude location)
                        test_date (loc_elevation location)) < 540 ->
     exists r,
       validate_yantra_accuracy eph self location yantra_type = Ok r
       /\ altitude_error r = Fin 0
       /\ rms_error r = Fin 180
       /\ max_error r = Fin 180).
Proof.
  intros Hg. split.
  - intros latitude longitude elevation when. unfold compare_shadow.
    set (truth := eph latitude longitude when elevation).
    cbn [get_shadow_prediction rama_generator].
    destruct (rama_prediction_readings self g (altitude truth) (azimuth truth) Hg)
      as (pred & E & Haz & Halt).
    rewrite E. cbn [bind]. unfold get. rewrite Haz, Halt.
    cbn [as_float bind].
    rewrite abs_diff_same, service_error_antipode, rms_of_half_turn.
    eexists. split; [reflexivity |]. split; reflexivity.
  - intros location yantra_type Haz. unfold validate_yantra_accuracy.
    set (sun := eph (loc_latitude location) (loc_longitude location)
                  test_date (loc_elevation location)) in *.
    cbn [get_shadow_prediction rama_generator].
    rewrite (rama_prediction_eq self g) by exact Hg. cbv zeta. cbn [bind].
    unfold get. eval_lookup. cbn [as_float bind].
    rewrite abs_diff_same.
    destruct (api_error_antipode (azimuth sun)) as (e & He & _ & Hin).
    rewrite He, (Hin Haz), rms_of_half_turn.
    eexists. split; [reflexivity |].
    cbn [altitude_error rms_error max_error]. repeat split.
    unfold fmax. cbn [fltb]. rewrite (ltb_true 0 180) by lra. reflexivity.
Qed.

Lemma rama_validation_totals_witness :
  let eph := fun (_ _ : R) (_ : datetime) (_ : R) =>
    {| altitude := 60; azimuth := 200; declination := 23; hour_angle := 0 |} in
  Rama.geometry jaipur_rama = Some jaipur_rama_geometry
  /\ exists report,
       compare_shadow eph jaipur_rama 26.9124 75.7873 0 test_date = Ok report
       /\ lookup report "rms_error" = Some (VFloat 180).
Proof.
  intros eph.
  assert (Hg : Rama.geometry jaipur_rama = Some jaipur_rama_geometry)
    by reflexivity.
  split; [exact Hg |].
  destruct (proj1 (rama_validation_totals eph jaipur_rama jaipur_rama_geometry
                     Hg) 26.9124 75.7873 0 test_date)
    as (report & E & _ & Hr).
  exists report. split; [exact E | exact Hr].
Defined.

(** ** The sun path of a day *)

Lemma round_bounds (x : R) (a b : Z) :
  IZR a <= x <= IZR b -> (a <= round x <= b)%Z.
Proof.
  intros [Ha Hb]. destruct (base_Int_part x) as [Hlo Hhi].
  assert (Han : (a <= Int_part x)%Z).
  { apply Z.lt_succ_r. apply lt_IZR. rewrite succ_IZR. lra. }
  assert (Hnb : (Int_part x <= b)%Z) by (apply le_IZR; lra).
  unfold round.
  destruct (Rlt_dec (x - IZR (Int_part x)) (1 / 2)) as [Hf | Hf]; [lia |].
  assert (Hlt : (Int_part x < b)%Z) by (apply lt_IZR; lra).
  destruct (Rlt_dec (1 / 2) (x - IZR (Int_part x))); [lia |].
  destruct (Z.even (Int_part x)); lia.
Qed.

Lemma round_integer (n : Z) : round (IZR n) = n.
Proof.
  pose proof (round_bounds (IZR n) n n ltac:(lra)). lia.
Qed.

Lemma round2_bounds (x : R) (a b : Z) :
  IZR a <= x * 100 <= IZR b -> IZR a / 100 <= round2 x <= IZR b / 100.
Proof.
  intros H. apply round_bounds in H. destruct H as [Ha Hb].
  apply IZR_le in Ha, Hb. unfold round2. lra.
Qed.

Lemma max_by_altitude_spec (rest : list PathPoint) (first : PathPoint) :
  In (max_by_altitude first rest) (first :: rest)
  /\ forall p, In p (first :: rest) ->
       pt_altitude p <= pt_altitude (max_by_altitude first rest).
Proof.
  unfold max_by_altitude. revert first.
  induction rest as [| q rest IH]; intros first.
  - cbn. split; [left; reflexivity |]. intros p [<- | []]. lra.
  - cbn [fold_left].
    destruct (Rlt_dec (pt_altitude first) (pt_altitude q)) as [Hlt | Hge].
    + rewrite (ltb_true _ _ Hlt). destruct (IH q) as [Hin Hmax].
      split; [right; exact Hin |].
      intros p [<- | [<- | Hp]].
      * pose proof (Hmax q (or_introl eq_refl)). lra.
      * apply Hmax. left. reflexivity.
      * apply Hmax. right. exact Hp.
    + rewrite ltb_false by lra. destruct (IH first) as [Hin Hmax].
      split; [destruct Hin as [<- | Hin]; [left; reflexivity | right; right; exact Hin] |].
      intros p [<- | [<- | Hp]].
      * apply Hmax. left. reflexivity.
      * pose proof (Hmax first (or_introl eq_refl)). lra.
      * apply Hmax. right. exact Hp.
Qed.

Lemma hd_error_rev {A : Type} (l : list A) (d : A) :
  l <> [] -> hd_error (rev l) = Some (last l d).
Proof.
  intros Hne. destruct (exists_last Hne) as (l' & a & ->).
  rewrite rev_app_distr, last_last. reflexivity.
Qed.

Section SunPathFacts.

Variable altaz : R -> R -> R -> R -> R * R.
Variable isoformat : R -> string.

Lemma day_sun_path_length lat lon midnight elev (n : Z) :
  length (day_sun_path altaz isoformat lat lon midnight elev n) = Z.to_nat n.
Proof.
  unfold day_sun_path. rewrite !length_map, length_range.
  rewrite Z.sub_0_r. reflexivity.
Qed.

Lemma day_sun_path_visible lat lon midnight elev (n : Z) :
  Forall (fun p => pt_is_visible p = true <-> 0 < pt_altitude p)
    (day_sun_path altaz isoformat lat lon midnight elev n).
Proof.
  unfold day_sun_path. apply Forall_forall. intros p Hin.
  apply in_map_iff in Hin. destruct Hin as (ts & <- & _).
  destruct (altaz lat lon elev ts) as [alt az]. cbn [pt_is_visible pt_altitude].
  rewrite ltb_iff. lra.
Qed.

(** X22.  [day_sun_path] returns exactly [num_points] points (none for a
    count of zero or less).  Point i is taken floor(i * 86400 / num_points)
    seconds after midnight, an offset within the day, and is marked visible
    exactly when its altitude is positive. *)
Theorem day_sun_path_shape lat lon midnight elev (n : Z) :
  let pts := day_sun_path altaz isoformat lat lon midnight elev n in
  length pts = Z.to_nat n
  /\ Forall (fun p => pt_is_visible p = true <-> 0 < pt_altitude p) pts
  /\ forall i : Z, (0 <= i < n)%Z ->
     let offset := (i * 86400 / n)%Z in
     (0 <= offset < 86400)%Z
     /\ nth_error pts (Z.to_nat i)
        = Some {| pt_time := isoformat (midnight + IZR offset);
                  pt_altitude := fst (altaz lat lon elev (midnight + IZR offset));
                  pt_azimuth := snd (altaz lat lon elev (midnight + IZR offset));
                  pt_is_visible :=
                    ltb 0.0 (fst (altaz lat lon elev (midnight + IZR offset))) |}.
Proof.
  intros pts. split; [apply day_sun_path_length |].
  split; [apply day_sun_path_visible |].
  intros i Hi offset. split.
  - unfold offset. split.
    + apply Z.div_pos; lia.
    + apply Z.div_lt_upper_bound; nia.
  - unfold pts, day_sun_path.
    rewrite !nth_error_map, nth_error_range by lia.
    cbn [option_map]. rewrite Z.add_0_l, Z2Nat.id by lia.
    rewrite Z.quot_div_nonneg by lia. fold offset.
    destruct (altaz lat lon elev (midnight + IZR offset)) as [alt az].
    reflexivity.
Qed.

(** X23.  The summary of [sun_path]: sunrise and sunset are absent exactly
    when no sampled point is visible, and the day length is then 0;
    otherwise sunrise is the time of the first visible point and sunset that
    of the last.  For a positive number of points the day length lies
    between 0 and 24 hours and is exactly 24 when every point is visible.
    The solar noon is the time of a point whose altitude no other point
    exceeds. *)
Theorem sun_path_summary lat lon midnight elev (n : Z) :
  let pts := day_sun_path altaz isoformat lat lon midnight elev n in
  let visible := filter pt_is_visible pts in
  let s := sun_path altaz isoformat lat lon midnight elev n in
  path_points s = pts
  /\ (visible = [] ->
      sunrise s = None /\ sunset s = None /\ day_length_hours s = 0)
  /\ (forall p rest, visible = p :: rest ->
      sunrise s = Some (pt_time p)
      /\ sunset s = Some (pt_time (last visible p)))
  /\ ((0 < n)%Z -> 0 <= day_length_hours s <= 24)
  /\ ((0 < n)%Z -> visible = pts -> day_length_hours s = 24)
  /\ ((0 < n)%Z ->
      exists noon, In noon pts
        /\ solar_noon s = Some (pt_time noon)
        /\ forall p, In p pts -> pt_altitude p <= pt_altitude noon).
Proof.
  intros pts visible s.
  assert (Hlen : length pts = Z.to_nat n) by apply day_sun_path_length.
  assert (Hvis : (length visible <= length pts)%nat) by apply filter_length_le.
  unfold s, sun_path. fold pts. fold visible.
  cbn [path_points sunrise sunset solar_noon day_length_hours].
  split; [reflexivity |]. split; [| split; [| split; [| split]]].
  - intros ->. cbn. repeat split.
    unfold round2. replace (0.0 * 100) with (IZR 0) by (simpl; lra).
    rewrite round_integer. simpl. lra.
  - intros p rest Hv. rewrite (hd_error_rev visible p) by (rewrite Hv; discriminate).
    rewrite Hv. split; reflexivity.
  - intros Hn.
    assert (Hday : 0 <= INR (length visible) * (24.0 / IZR n) <= 24).
    { assert (HN : 0 < IZR n) by (apply IZR_lt; lia).
      assert (Hv0 : 0 <= INR (length visible)) by apply pos_INR.
      assert (HvN : INR (length visible) <= IZR n).
      { rewrite INR_IZR_INZ. apply IZR_le. lia. }
      assert (Hq : INR (length visible) * (24.0 / IZR n)
                   = 24 * (INR (length visible) / IZR n))
        by (replace 24.0 with 24 by lra; unfold Rdiv; ring).
      rewrite Hq.
      assert (0 <= INR (length visible) / IZR n <= 1).
      { split.
        - apply Rmult_le_pos; [exact Hv0 |]. left. apply Rinv_0_lt_compat. exact HN.
        - apply Rmult_le_reg_r with (IZR n); [exact HN |].
          replace (INR (length visible) / IZR n * IZR n)
            with (INR (length visible)) by (field; lra). lra. }
      lra. }
    assert (Hr : IZR 0 / 100 <= round2 (match visible with
                  | [] => 0.0
                  | _ :: _ => INR (length visible) * (24.0 / IZR n)
                  end) <= IZR 2400 / 100).
    { apply round2_bounds. destruct visible; simpl; simpl in Hday; lra. }
    simpl in Hr. lra.
  - intros Hn Hall. rewrite Hall.
    assert (Hne : pts <> []).
    { intros H0. rewrite H0 in Hlen. cbn in Hlen. lia. }
    destruct pts as [| p0 rest0] eqn:Hp; [contradiction |].
    assert (HN : 0 < IZR n) by (apply IZR_lt; lia).
    assert (Hcount : INR (length (p0 :: rest0)) = IZR n).
    { rewrite INR_IZR_INZ. f_equal. lia. }
    rewrite Hcount. unfold round2.
    replace 24.0 with 24 by lra.
    replace (IZR n * (24 / IZR n) * 100) with (IZR 2400) by (field; lra).
    rewrite round_integer. lra.
  - intros Hn.
    destruct pts as [| first rest] eqn:Hp.
    + cbn in Hlen. lia.
    + destruct (max_by_altitude_spec rest first) as [Hin Hmax].
      exists (max_by_altitude first rest). split; [exact Hin |].
      split; [reflexivity | exact Hmax].
Qed.

End SunPathFacts.

Lemma day_sun_path_shape_witness :
  let altaz := fun (_ _ _ ts : R) => (ts - 43200, 180) in
  let isoformat := fun (_ : R) => "t" in
  (0 <= 6 < 24)%Z
  /\ nth_error (day_sun_path altaz isoformat 26.9124 75.7873 0 0 24) 6
     = Some {| pt_time := "t"; pt_altitude := 0 + IZR 21600 - 43200;
               pt_azimuth := 180;
               pt_is_visible := ltb 0.0 (0 + IZR 21600 - 43200) |}.
Proof.
  intros altaz isoformat.
  assert (Hi : (0 <= 6 < 24)%Z) by lia.
  split; [exact Hi |].
  exact (proj2 (proj2 (proj2 (day_sun_path_shape altaz isoformat
                                 26.9124 75.7873 0 0 24)) 6%Z Hi)).
Defined.

Lemma sun_path_summary_witness :
  let altaz := fun (_ _ _ ts : R) => (ts - 43200, 180) in
  let isoformat := fun (_ : R) => "t" in
  (0 < 24)%Z
  /\ 0 <= day_length_hours (sun_path altaz isoformat 26.9124 75.7873 0 0 24)
       <= 24.
Proof.
  intros altaz isoformat.
  assert (Hn : (0 < 24)%Z) by lia.
  split; [exact Hn |].
  exact (proj1 (proj2 (proj2 (proj2 (sun_path_summary altaz isoformat
                                       26.9124 75.7873 0 0 24)))) Hn).
Defined.

(** ** Location normalisation *)

Lemma round_error (y : R) : - (1 / 2) <= IZR (round y) - y <= 1 / 2.
Proof.
  destruct (base_Int_part y) as [Hlo Hhi]. unfold round.
  destruct (Rlt_dec (y - IZR (Int_part y)) (1 / 2)) as [Hf | Hf]; [lra |].
  destruct (Rlt_dec (1 / 2) (y - IZR (Int_part y))) as [Hg | Hg].
  - rewrite plus_IZR. lra.
  - destruct (Z.even (Int_part y)); [lra |]. rewrite plus_IZR. lra.
Qed.

Lemma round6_idempotent (x : R) : round6 (round6 x) = round6 x.
Proof.
  unfold round6 at 1. f_equal. unfold round6.
  replace (IZR (round (x * 1000000)) / 1000000 * 1000000)
    with (IZR (round (x * 1000000))) by (field; lra).
  rewrite round_integer. reflexivity.
Qed.

Lemma round6_error (x : R) : Rabs (round6 x - x) <= 0.0000005.
Proof.
  pose proof (round_error (x * 1000000)) as H. unfold round6.
  apply Rabs_le. lra.
Qed.

Lemma round6_bounds (x : R) (a b : Z) :
  IZR a <= x <= IZR b -> IZR a <= round6 x <= IZR b.
Proof.
  intros [Ha Hb].
  assert (H : IZR (a * 1000000) <= x * 1000000 <= IZR (b * 1000000))
    by (rewrite !mult_IZR; lra).
  apply round_bounds in H. destruct H as [H1 H2].
  apply IZR_le in H1, H2. rewrite mult_IZR in H1, H2. unfold round6. lra.
Qed.

(** X24.  [validate_location] rounds latitude and longitude to six decimals
    and leaves the elevation alone: each coordinate moves by at most
    0.0000005, coordinates that satisfy the field constraints still satisfy
    them after rounding, and normalising a normalised location changes
    nothing. *)
Theorem validate_location_normalises (latitude longitude elevation : R) :
  let n := validate_location latitude longitude elevation in
  Rabs (norm_latitude n - latitude) <= 0.0000005
  /\ Rabs (norm_longitude n - longitude) <= 0.0000005
  /\ norm_elevation n = elevation
  /\ validate_location (norm_latitude n) (norm_longitude n) (norm_elevation n)
     = n
  /\ (location_fields_valid latitude longitude = true ->
      location_fields_valid (norm_latitude n) (norm_longitude n) = true).
Proof.
  intros n. unfold n, validate_location.
  cbn [norm_latitude norm_longitude norm_elevation].
  split; [apply round6_error |]. split; [apply round6_error |].
  split; [reflexivity |]. split.
  - rewrite !round6_idempotent. reflexivity.
  - unfold location_fields_valid.
    rewrite !andb_true_iff, !leb_iff. intros [[[H1 H2] H3] H4].
    pose proof (round6_bounds latitude (-90) 90 ltac:(lra)).
    pose proof (round6_bounds longitude (-180) 180 ltac:(lra)).
    repeat split; lra.
Qed.

Lemma validate_location_normalises_witness :
  location_fields_valid 26.9124 75.7873 = true
  /\ location_fields_valid
       (norm_latitude (validate_location 26.9124 75.7873 431))
       (norm_longitude (validate_location 26.9124 75.7873 431)) = true.
Proof.
  assert (H : location_fields_valid 26.9124 75.7873 = true).
  { unfold location_fields_valid. rewrite !andb_true_iff, !leb_iff. lra. }
  split; [exact H |].
  exact (proj2 (proj2 (proj2 (proj2
           (validate_location_normalises 26.9124 75.7873 431)))) H).
Defined.

(** ** Start-up check of the settings *)

(** X25.  The start-up check raises exactly in production (the environment
    name compared without regard to case) when the JWT secret is still the
    default or DEBUG is on, the secret being checked first; outside
    production it never raises and prints nothing, so the default settings
    start. *)
Theorem startup_validation_guards_production :
  (forall s, is_production s = false -> startup_validation s = Ok [])
  /\ (forall s, is_production s = true ->
      (raises (startup_validation s) <->
       JWT_SECRET s = JWT_SECRET default_settings \/ DEBUG s = true))
  /\ (forall s, is_production s = true ->
      JWT_SECRET s = JWT_SECRET default_settings ->
      startup_validation s
      = Raise (ValueError "JWT_SECRET must be changed in production!"))
  /\ startup_validation default_settings = Ok []
  /\ (forall debug secret k1 k2,
      is_production {| ENVIRONMENT := "Production"; DEBUG := debug;
                       JWT_SECRET := secret; R2_ACCESS_KEY := k1;
                       R2_SECRET_KEY := k2 |} = true
      /\ is_production {| ENVIRONMENT := "PRODUCTION"; DEBUG := debug;
                          JWT_SECRET := secret; R2_ACCESS_KEY := k1;
                          R2_SECRET_KEY := k2 |} = true
      /\ is_production {| ENVIRONMENT := "staging"; DEBUG := debug;
                          JWT_SECRET := secret; R2_ACCESS_KEY := k1;
                          R2_SECRET_KEY := k2 |} = false).
Proof.
  split; [| split; [| split; [| split]]].
  - intros s Hp. unfold startup_validation. rewrite Hp. reflexivity.
  - intros s Hp. unfold startup_validation, raises. rewrite Hp.
    cbn [JWT_SECRET default_settings].
    destruct (String.eqb_spec (JWT_SECRET s)
                "change-me-in-production-use-strong-secret") as [He | Hne].
    + split; [intros _; left; exact He | intros _; eexists; reflexivity].
    + destruct (DEBUG s).
      * split; [intros _; right; reflexivity | intros _; eexists; reflexivity].
      * split.
        -- intros [e He].
           destruct (String.eqb (R2_ACCESS_KEY s) "" || String.eqb (R2_SECRET_KEY s) "");
             discriminate.
        -- intros [He | Hd]; [contradiction | discriminate].
  - intros s Hp Hs. unfold startup_validation. rewrite Hp, Hs. reflexivity.
  - reflexivity.
  - intros debug secret k1 k2. repeat split; reflexivity.
Qed.

Lemma startup_validation_guards_production_witness :
  let s := {| ENVIRONMENT := "Production"; DEBUG := false;
              JWT_SECRET := "change-me-in-production-use-strong-secret";
              R2_ACCESS_KEY := "key"; R2_SECRET_KEY := "secret" |} in
  is_production s = true
  /\ JWT_SECRET s = JWT_SECRET default_settings
  /\ startup_validation s
     = Raise (ValueError "JWT_SECRET must be changed in production!").
Proof.
  intros s.
  assert (Hp : is_production s = true) by reflexivity.
  assert (Hs : JWT_SECRET s = JWT_SECRET default_settings) by reflexivity.
  split; [exact Hp |]. split; [exact Hs |].
  exact (proj1 (proj2 (proj2 startup_validation_guards_production)) s Hp Hs).
Defined.

(** ** The STL mesh *)

Lemma in_range (lo hi i : Z) : In i (range lo hi) <-> (lo <= i < hi)%Z.
Proof.
  unfold range. rewrite in_map_iff. split.
  - intros (k & <- & Hk). apply in_seq in Hk. lia.
  - intros Hi. exists (Z.to_nat (i - lo)). split; [lia |].
    apply in_seq. lia.
Qed.

Lemma length_linspace (start stop : R) (num : Z) :
  length (linspace start stop num) = Z.to_nat num.
Proof.
  unfold linspace. rewrite length_map, length_range, Z.sub_0_r. reflexivity.
Qed.

(** X26.  For an alt-azimuth generator that holds a geometry [export_stl]
    builds a half-cylinder shell of 96 vertices (48 on the floor, 48 at the
    pillar height, all at the pillar radius from the axis) and 94 triangles;
    every triangle names three different vertices, each index within the
    vertex array.  For a generator without geometry it builds the fallback
    box instead of failing. *)
Theorem stl_mesh_of_rama :
  (forall generator g,
     Rama.geometry generator = Some g ->
     exists V F,
       export_stl_rama generator = Trimesh V F
       /\ length V = 96%nat
       /\ length F = 94%nat
       /\ Forall (fun row => exists x y z,
            row = [x; y; z]
            /\ (z = 0 \/ z = Rama.pillar_height g)
            /\ x * x + y * y = Rama.pillar_radius g * Rama.pillar_radius g) V
       /\ Forall (fun face => exists a b c,
            face = [a; b; c]
            /\ (0 <= a < 96)%Z /\ (0 <= b < 96)%Z /\ (0 <= c < 96)%Z
            /\ a <> b /\ b <> c /\ a <> c) F)
  /\ (forall generator,
     Rama.geometry generator = None ->
     export_stl_rama generator = fallback_box).
Proof.
  split.
  - intros generator g Hg. unfold export_stl_rama. rewrite Hg. cbv zeta.
    rewrite length_linspace. change (Z.of_nat (Z.to_nat 48)) with 48%Z.
    change (48 - 1)%Z with 47%Z.
    do 2 eexists. split; [reflexivity |]. split; [| split; [| split]].
    + rewrite length_app, !length_map, length_linspace. reflexivity.
    + rewrite length_flat_map_pairs by (intros i; reflexivity).
      rewrite length_range. reflexivity.
    + apply Forall_forall. intros row Hin. apply in_app_or in Hin.
      destruct Hin as [Hin | Hin]; apply in_map_iff in Hin;
        destruct Hin as (t & <- & _); do 3 eexists;
        (split; [reflexivity |]);
        (split; [first [left; lra | right; reflexivity] |]);
        pose proof (circle_point (Rama.pillar_radius g) t); lra.
    + apply Forall_forall. intros face Hin. apply in_flat_map in Hin.
      destruct Hin as (i & Hi & Hface). apply in_range in Hi.
      destruct Hface as [<- | [<- | []]]; do 3 eexists;
        (split; [reflexivity |]); lia.
  - intros generator Hg. unfold export_stl_rama. rewrite Hg. reflexivity.
Qed.

Lemma stl_mesh_of_rama_witness :
  Rama.geometry jaipur_rama = Some jaipur_rama_geometry
  /\ exists V F,
       export_stl_rama jaipur_rama = Trimesh V F
       /\ length V = 96%nat /\ length F = 94%nat.
Proof.
  assert (Hg : Rama.geometry jaipur_rama = Some jaipur_rama_geometry)
    by reflexivity.
  split; [exact Hg |].
  destruct (proj1 stl_mesh_of_rama jaipur_rama jaipur_rama_geometry Hg)
    as (V & F & E & HV & HF & _).
  exists V, F. auto.
Defined.

(** X27.  For an equatorial-dial generator [export_stl] encodes the mesh
    of the eight gnomon vertices with the faces of their hull when the
    generator holds a geometry and the hull and the mesh construction
    succeed; when the generator holds no geometry, or the hull or that
    construction fails, it encodes the fallback box instead, so the
    generator's invalid-state error never gets out.  An error that does get
    out is one raised by building the fallback box or by the final STL
    encoding; if those two cannot fail, [export_stl] returns for every
    generator. *)
Theorem stl_mesh_of_samrat
    (Mesh Bytes : Type)
    (convex_hull_faces : list (list R) -> outcome (list (list Z)))
    (construct : mesh -> outcome Mesh)
    (stl_encode : Mesh -> outcome Bytes) :
  let export_stl := export_stl_samrat Mesh Bytes convex_hull_faces construct
                      stl_encode in
  let export_box := bind (construct fallback_box) stl_encode in
  (forall generator,
     Samrat.geometry generator = None -> export_stl generator = export_box)
  /\ (forall generator g,
     Samrat.geometry generator = Some g ->
     exists V,
       Samrat.get_gnomon_vertices generator = Ok V
       /\ length V = 8%nat
       /\ (forall e, convex_hull_faces V = Raise e ->
           export_stl generator = export_box)
       /\ (forall F e, convex_hull_faces V = Ok F ->
           construct (Trimesh V F) = Raise e ->
           export_stl generator = export_box)
       /\ (forall F m, convex_hull_faces V = Ok F ->
           construct (Trimesh V F) = Ok m ->
           export_stl generator = stl_encode m))
  /\ (forall generator e,
     export_stl generator = Raise e ->
     construct fallback_box = Raise e \/ exists m, stl_encode m = Raise e)
  /\ (forall generator,
     returns (construct fallback_box) ->
     (forall m, returns (stl_encode m)) ->
     returns (export_stl generator)).
Proof.
  intros export_stl export_box.
  unfold export_stl, export_box, export_stl_samrat, stl_try_samrat.
  split; [| split; [| split]].
  - intros generator Hg.
    unfold Samrat.get_gnomon_vertices, Samrat.require_geometry.
    rewrite Hg. reflexivity.
  - intros generator g Hg.
    unfold Samrat.get_gnomon_vertices, Samrat.require_geometry.
    rewrite Hg. cbn [bind]. eexists. split; [reflexivity |].
    split; [reflexivity |]. split; [| split].
    + intros e He. rewrite He. reflexivity.
    + intros F e HF Hc. rewrite HF. cbn [bind]. rewrite Hc. reflexivity.
    + intros F m HF Hc. rewrite HF. cbn [bind]. rewrite Hc. reflexivity.
  - intros generator e.
    destruct (V <- Samrat.get_gnomon_vertices generator ;;
              F <- convex_hull_faces V ;; construct (Trimesh V F))
      as [m | e'].
    + cbn [bind]. intros He. right. exists m. exact He.
    + destruct (construct fallback_box) as [b | eb]; cbn [bind].
      * intros He. right. exists b. exact He.
      * intros [= <-]. left. reflexivity.
  - intros generator [b Hb] Henc.
    destruct (V <- Samrat.get_gnomon_vertices generator ;;
              F <- convex_hull_faces V ;; construct (Trimesh V F))
      as [m | e'].
    + cbn [bind]. apply Henc.
    + rewrite Hb. cbn [bind]. apply Henc.
Qed.

Lemma stl_mesh_of_samrat_witness :
  let hull := fun (_ : list (list R)) =>
    Raise (A := list (list Z)) (ValueError "degenerate") in
  let construct := fun (d : mesh) => Ok d in
  let stl_encode := fun (m : mesh) =>
    Ok (match m with Trimesh _ _ => "mesh" | Box _ => "box" end) in
  Samrat.geometry (Samrat.init 26.9124 75.7873 1) = None
  /\ Samrat.geometry jaipur_samrat = Some jaipur_samrat_geometry
  /\ export_stl_samrat mesh string hull construct stl_encode
       (Samrat.init 26.9124 75.7873 1) = Ok "box"
  /\ returns (export_stl_samrat mesh string hull construct stl_encode
                jaipur_samrat).
Proof.
  intros hull construct stl_encode.
  assert (Hn : Samrat.geometry (Samrat.init 26.9124 75.7873 1) = None)
    by reflexivity.
  assert (Hg : Samrat.geometry jaipur_samrat = Some jaipur_samrat_geometry)
    by reflexivity.
  split; [exact Hn |]. split; [exact Hg |].
  destruct (stl_mesh_of_samrat mesh string hull construct stl_encode)
    as (Hnone & _ & _ & Hret).
  split.
  - exact (Hnone (Samrat.init 26.9124 75.7873 1) Hn).
  - apply Hret.
    + eexists. reflexivity.
    + intros m. eexists. reflexivity.
Defined.

(** ** The time read off the equatorial dial *)




Lemma degrees_half_turn : degrees PI = 180.
Proof. unfold degrees. field. apply PI_neq0. Qed.





Lemma radians_180 : radians 180 = PI.
Proof. unfold radians. field. Qed.

Lemma radians_quadrant (x : R) :
  -90 < x < 90 -> - (PI / 2) < radians x < PI / 2.
Proof.
  intros [Hlo Hhi]. pose proof PI_RGT_0 as Hpi. unfold radians. split; nra.
Qed.

Lemma radians_lt (x y : R) : x < y -> radians x < radians y.
Proof.
  intros Hlt. pose proof PI_RGT_0 as Hpi. unfold radians. nra.
Qed.

(** The hour angle computed for a sun due south, at azimuth 180. *)
Lemma hour_angle_due_south self alt :
  - (PI / 2) < Samrat.latitude self < PI / 2 ->
  -90 < alt < 90 ->
  (Samrat.latitude self < radians alt ->
   Samrat.hour_angle_deg self alt 180 = 0)
  /\ (radians alt < Samrat.latitude self ->
      Samrat.hour_angle_deg self alt 180 = 180).
Proof.
  intros Hlat Halt. pose proof (radians_quadrant alt Halt) as Hr.
  unfold Samrat.hour_angle_deg. cbv zeta. rewrite radians_180, sin_PI.
  set (lat := Samrat.latitude self) in *. set (a := radians alt) in *.
  assert (Hca : 0 < cos a) by (apply cos_gt_0; lra).
  assert (Hcl : 0 < cos lat) by (apply cos_gt_0; lra).
  assert (Hden : 0 < cos lat * cos a) by (apply Rmult_lt_0_compat; assumption).
  replace (0 / cos a) with 0 by (unfold Rdiv; lra).
  split; intros Hcmp.
  - assert (Hs : sin lat < sin a) by (apply sin_increasing_1; lra).
    assert (Hx : 0 < (sin a - sin lat) / (cos lat * cos a))
      by (apply Rdiv_lt_0_compat; lra).
    rewrite atan2_right by exact Hx.
    replace (0 / ((sin a - sin lat) / (cos lat * cos a))) with 0
      by (unfold Rdiv; lra).
    rewrite atan_0. unfold degrees. lra.
  - assert (Hs : sin a < sin lat) by (apply sin_increasing_1; lra).
    assert (Hx : (sin a - sin lat) / (cos lat * cos a) < 0).
    { unfold Rdiv.
      assert (0 < / (cos lat * cos a)) by (apply Rinv_0_lt_compat; exact Hden).
      nra. }
    rewrite atan2_upper_left by (exact Hx || lra).
    replace (0 / ((sin a - sin lat) / (cos lat * cos a))) with 0
      by (unfold Rdiv; lra).
    rewrite atan_0, Rplus_0_l. apply degrees_half_turn.
Qed.

(** X29.  For a sun due south (azimuth 180) and a latitude and an altitude
    strictly between -90 and 90 degrees, the equatorial dial reads solar
    noon, 12.0 with hour angle 0 and quadrant west, when the altitude is
    above the latitude, and reads 24.0 with hour angle 180 when the altitude
    is below the latitude. *)
Theorem samrat_due_south_reading lat lon scl mt kerf ib alt :
  -90 < lat < 90 ->
  -90 < alt < 90 ->
  exists g self' pred,
    Samrat.generate (Samrat.init lat lon scl) mt kerf ib = Ok (g, self')
    /\ Samrat.get_shadow_prediction self' alt 180 = Ok pred
    /\ (lat < alt ->
        lookup pred "hour_angle" = Some (VFloat 0)
        /\ lookup pred "local_solar_time" = Some (VFloat 12)
        /\ lookup pred "quadrant" = Some (VStr "west"))
    /\ (alt < lat ->
        lookup pred "hour_angle" = Some (VFloat 180)
        /\ lookup pred "local_solar_time" = Some (VFloat 24)
        /\ lookup pred "quadrant" = Some (VStr "west")).
Proof.
  intros Hlat Halt.
  destruct (samrat_generate_total (Samrat.init lat lon scl) mt kerf ib)
    as (g & self' & E & Hg & Hl & _).
  cbn [Samrat.latitude Samrat.init] in Hl.
  assert (Hq : - (PI / 2) < Samrat.latitude self' < PI / 2)
    by (rewrite Hl; apply radians_quadrant; exact Hlat).
  destruct (hour_angle_due_south self' alt Hq Halt) as [Hhigh Hlow].
  exists g, self'. rewrite (samrat_prediction_eq self' g) by exact Hg.
  eexists. split; [exact E |]. split; [reflexivity |]. split.
  - intros Hcmp. eval_lookup.
    rewrite Hhigh by (rewrite Hl; apply radians_lt; exact Hcmp).
    rewrite (ltb_false 0 0) by lra.
    split; [reflexivity |]. split; [do 3 f_equal; lra | reflexivity].
  - intros Hcmp. eval_lookup.
    rewrite Hlow by (rewrite Hl; apply radians_lt; exact Hcmp).
    rewrite (ltb_false 180 0) by lra.
    split; [reflexivity |]. split; [do 3 f_equal; lra | reflexivity].
Qed.

Lemma samrat_due_south_reading_witness :
  -90 < 26.9124 < 90 /\ -90 < 60 < 90 /\ 26.9124 < 60
  /\ exists g self' pred,
       Samrat.generate (Samrat.init 26.9124 75.7873 1) 0.01 0 true
         = Ok (g, self')
       /\ Samrat.get_shadow_prediction self' 60 180 = Ok pred
       /\ lookup pred "local_solar_time" = Some (VFloat 12).
Proof.
  assert (Hlat : -90 < 26.9124 < 90) by lra.
  assert (Halt : -90 < 60 < 90) by lra.
  assert (Hcmp : 26.9124 < 60) by lra.
  split; [exact Hlat |]. split; [exact Halt |]. split; [exact Hcmp |].
  destruct (samrat_due_south_reading 26.9124 75.7873 1 0.01 0 true 60
              Hlat Halt) as (g & self' & pred & E & Ep & Hhigh & _).
  exists g, self', pred. split; [exact E |]. split; [exact Ep |].
  exact (proj1 (proj2 (Hhigh Hcmp))).
Defined.
